(** * Shard editor: launch coordination, queue file, settings and save logic

    A shallow embedding of [main.py] (class [Shard], the launch coordinator,
    and class [ShardInstance], one editor window) with the properties of its
    specification stated and proved over it.

    Modelling conventions.
    - A Python [str] is a [string]; each [ascii] stands for the code point of
      the same number, so the alphabet is the code points below 256.  Within
      that alphabet [isspace] and [isdecimal] are exactly Python's.
    - A text file holds the text that was written to it, as on a platform
      whose line separator is the line feed; reading it in text mode hands
      out that text with every carriage return, and every carriage return
      followed by a line feed, turned into one line feed, as Python's
      universal newlines do.  The locale codec is not modelled.
    - [int] raises [ValueError] for a decimal string longer than the
      interpreter's limit on integer string conversion, which is a
      parameter of the model ([Interpreter]); 0 means no limit.
    - Paths are kept in their string form; the [pathlib] operations the
      program uses are the interface [Pathlib].
    - Tk is reduced to what the program reads back from it: the text of the
      editor widget, the window title, whether the window still exists, and
      the message boxes that were shown.
    - What the user answers to a dialog, and what the user does in the
      settings dialog, are arguments of the handler that asks. *)

From Stdlib Require Import ZArith Ascii DecimalString Lia.
From stdpp Require Import base gmap sets list strings.

Local Open Scope Z_scope.

(** ** Python [str] methods used by the program *)

Module Py.

Definition LF : ascii := "010"%char.
Definition CR : ascii := "013"%char.
Definition TAB : ascii := "009"%char.

(** [c.isspace()] for a code point below 256. *)
Definition isspace (c : ascii) : bool :=
  let n := Ascii.N_of_ascii c in
  ((9 <=? n) && (n <=? 13) || (28 <=? n) && (n <=? 32)
   || (n =? 133) || (n =? 160))%N.

Definition is_empty (s : string) : bool :=
  match s with EmptyString => true | String _ _ => false end.

Fixpoint lstrip_by (drop : ascii → bool) (s : string) : string :=
  match s with
  | EmptyString => EmptyString
  | String c s' => if drop c then lstrip_by drop s' else s
  end.

Fixpoint rstrip_by (drop : ascii → bool) (s : string) : string :=
  match s with
  | EmptyString => EmptyString
  | String c s' =>
      let r := rstrip_by drop s' in
      if is_empty r && drop c then EmptyString else String c r
  end.

(** [s.lstrip()], [s.rstrip()], [s.strip()] *)
Definition lstrip : string → string := lstrip_by isspace.
Definition rstrip : string → string := rstrip_by isspace.
Definition strip (s : string) : string := rstrip (lstrip s).

(** [s.rstrip(chars)] for a one-character [chars] *)
Definition rstrip_char (c : ascii) : string → string :=
  rstrip_by (λ x, bool_decide (x = c)).

(** [s.split(sep)] for a one-character [sep]; never the empty list. *)
Fixpoint split (sep : ascii) (s : string) : list string :=
  match s with
  | EmptyString => [EmptyString]
  | String c s' =>
      if bool_decide (c = sep) then EmptyString :: split sep s'
      else match split sep s' with
           | h :: t => String c h :: t
           | [] => [String c EmptyString]
           end
  end.

(** [sep.join(l)] *)
Fixpoint join (sep : string) (l : list string) : string :=
  match l with
  | [] => EmptyString
  | [x] => x
  | x :: l' => x +:+ sep +:+ join sep l'
  end.

Fixpoint chars (s : string) : list ascii :=
  match s with
  | EmptyString => []
  | String c s' => c :: chars s'
  end.

(** What a text-mode read makes of the text of a file: [\r\n] and [\r]
    become [\n]. *)
Fixpoint universal_newlines (s : string) : string :=
  match s with
  | EmptyString => EmptyString
  | String c s' =>
      let r := universal_newlines s' in
      if bool_decide (c = CR) then
        match s' with
        | String c' _ => if bool_decide (c' = LF) then r else String LF r
        | EmptyString => String LF r
        end
      else String c r
  end.

(** [list(set(a).intersection(set(b)))], up to order and repetition: only
    its emptiness is ever looked at. *)
Definition intersection (a b : string) : list ascii :=
  filter (λ c, c ∈ chars b) (chars a).

Definition digit (c : ascii) : option Z :=
  let n := Ascii.N_of_ascii c in
  if ((48 <=? n) && (n <=? 57))%N then Some (Z.of_N n - 48) else None.

(** [s.isdecimal()] *)
Definition isdecimal (s : string) : bool :=
  negb (is_empty s) && forallb (λ c, bool_decide (is_Some (digit c))) (chars s).

(** The value [int(s)] has for an [s] with [s.isdecimal()], when it has
    one: see [int] below for the call. *)
Definition int (s : string) : Z :=
  fold_left (λ acc c, 10 * acc + default 0 (digit c)) (chars s) 0.

(** [str(n)] for an [int] *)
Definition str (n : Z) : string := NilZero.string_of_int (Z.to_int n).

End Py.

(** ** Exceptions and the state monad the program runs in *)

Inductive Exception := TclError | ValueError | SystemExit.

Inductive Outcome (A : Type) := Return (a : A) | Raise (e : Exception).
Arguments Return {A} a.
Arguments Raise {A} e.

Definition Prog (S A : Type) : Type := S → Outcome A * S.

Global Instance prog_ret {S} : MRet (Prog S) := λ A a st, (Return a, st).
Global Instance prog_bind {S} : MBind (Prog S) := λ A B f m st,
  match m st with
  | (Return a, st') => f a st'
  | (Raise e, st') => (Raise e, st')
  end.

Definition get {S} : Prog S S := λ st, (Return st, st).
Definition modify {S} (f : S → S) : Prog S unit := λ st, (Return (), f st).
Definition raise {S A} (e : Exception) : Prog S A := λ st, (Raise e, st).

(** [for x in l: body x] *)
Fixpoint for_each {S A} (l : list A) (body : A → Prog S unit) : Prog S unit :=
  match l with
  | [] => mret ()
  | x :: l' => body x;; for_each l' body
  end.

(** ** Data model *)

(** The [pathlib] operations of the program, on paths in string form. *)
Class Pathlib := {
  resolve : string → string;            (* Path(p).resolve() *)
  parent : string → string;             (* Path(p).parent *)
  name : string → string;               (* Path(p).stem + Path(p).suffix *)
  joinpath : string → string → string   (* Path(d) / n *)
}.

(** [sys.get_int_max_str_digits()]: the number of digits beyond which
    [int] refuses a string; 0 means no limit, and CPython's default is
    4300 (the limit can be 0 or at least 640). *)
Class Interpreter := {
  int_max_str_digits : nat;
  int_max_str_digits_allowed :
    int_max_str_digits = 0%nat ∨ (640 ≤ int_max_str_digits)%nat
}.


(** An interpreter with the limit switched off, or of a version before the
    limit. Statements that do not name an interpreter are about this one:
    under it the constructor of a window cannot fail on the settings
    file. Under any other the program runs the same as long as [int]
    accepts the numeric fields of the stored settings. *)
Global Instance no_digit_limit : Interpreter :=
  {| int_max_str_digits := 0;
     int_max_str_digits_allowed := or_introl eq_refl |}.

(** What the bytes of a document decode to. *)
Inductive Stored :=
  | Utf8 (text : string)    (* decodes as UTF-8 *)
  | Ansi (text : string)    (* no UTF-8, but decodes under the ANSI code page *)
  | Garbled.                (* decodes under neither *)

Inductive Encoding := UTF_8 | ANSI.
Inductive OSError := PermissionError | FileNotFoundError | UnicodeDecodeError.

Record Disk := {
  shard_running_indicator : bool;   (* the directory [run] exists *)
  instance_queue_file : string;     (* text of files.temp *)
  settings_file : string;           (* text of EditorSettings.txt *)
  save_location_file : string;      (* text of LastSaveLocation.txt *)
  files : gmap string Stored;       (* the documents, by path *)
  unreadable : gset string;         (* paths the user may not read *)
  unwritable : gset string          (* paths the user may not write *)
}.

Definition with_indicator (b : bool) (d : Disk) : Disk :=
  {| shard_running_indicator := b; instance_queue_file := instance_queue_file d;
     settings_file := settings_file d; save_location_file := save_location_file d;
     files := files d; unreadable := unreadable d; unwritable := unwritable d |}.
Definition with_queue (q : string) (d : Disk) : Disk :=
  {| shard_running_indicator := shard_running_indicator d; instance_queue_file := q;
     settings_file := settings_file d; save_location_file := save_location_file d;
     files := files d; unreadable := unreadable d; unwritable := unwritable d |}.
Definition with_settings (t : string) (d : Disk) : Disk :=
  {| shard_running_indicator := shard_running_indicator d;
     instance_queue_file := instance_queue_file d;
     settings_file := t; save_location_file := save_location_file d;
     files := files d; unreadable := unreadable d; unwritable := unwritable d |}.
Definition with_save_location (t : string) (d : Disk) : Disk :=
  {| shard_running_indicator := shard_running_indicator d;
     instance_queue_file := instance_queue_file d;
     settings_file := settings_file d; save_location_file := t;
     files := files d; unreadable := unreadable d; unwritable := unwritable d |}.
Definition with_files (m : gmap string Stored) (d : Disk) : Disk :=
  {| shard_running_indicator := shard_running_indicator d;
     instance_queue_file := instance_queue_file d;
     settings_file := settings_file d; save_location_file := save_location_file d;
     files := m; unreadable := unreadable d; unwritable := unwritable d |}.

(** [open(path, encoding=enc).read()], a text-mode read *)
Definition open_read (d : Disk) (path : string) (enc : Encoding) : OSError + string :=
  if bool_decide (path ∈ unreadable d) then inl PermissionError
  else match files d !! path with
       | None => inl FileNotFoundError
       | Some (Utf8 t) => inr (Py.universal_newlines t)
       | Some (Ansi t) =>
           match enc with
           | UTF_8 => inl UnicodeDecodeError
           | ANSI => inr (Py.universal_newlines t)
           end
       | Some Garbled => inl UnicodeDecodeError
       end.

(** [open(path, 'w', encoding="UTF-8").write(content)]; every text over the
    alphabet encodes, so [UnicodeEncodeError] does not arise. *)
Definition open_write (d : Disk) (path content : string) : OSError + Disk :=
  if bool_decide (path ∈ unwritable d) then inl PermissionError
  else inr (with_files (<[path := Utf8 content]> (files d)) d).

(** The nine Tk variables of the editor preferences. *)
Record Settings := {
  editor_bg : string;
  editor_fg : string;
  editor_font : string;
  tabsize : Z;
  editor_font_size : Z;
  editor_opacity : Z;
  bold_font : string;
  window_state : string;
  text_wrap : string
}.

(** [self.<variable>.set(v)] for each of the nine *)
Definition set_editor_bg (v : string) (r : Settings) : Settings :=
  {| editor_bg := v; editor_fg := editor_fg r; editor_font := editor_font r;
     tabsize := tabsize r; editor_font_size := editor_font_size r;
     editor_opacity := editor_opacity r; bold_font := bold_font r;
     window_state := window_state r; text_wrap := text_wrap r |}.
Definition set_editor_fg (v : string) (r : Settings) : Settings :=
  {| editor_bg := editor_bg r; editor_fg := v; editor_font := editor_font r;
     tabsize := tabsize r; editor_font_size := editor_font_size r;
     editor_opacity := editor_opacity r; bold_font := bold_font r;
     window_state := window_state r; text_wrap := text_wrap r |}.
Definition set_editor_font (v : string) (r : Settings) : Settings :=
  {| editor_bg := editor_bg r; editor_fg := editor_fg r; editor_font := v;
     tabsize := tabsize r; editor_font_size := editor_font_size r;
     editor_opacity := editor_opacity r; bold_font := bold_font r;
     window_state := window_state r; text_wrap := text_wrap r |}.
Definition set_tabsize (v : Z) (r : Settings) : Settings :=
  {| editor_bg := editor_bg r; editor_fg := editor_fg r;
     editor_font := editor_font r;
     tabsize := v; editor_font_size := editor_font_size r;
     editor_opacity := editor_opacity r; bold_font := bold_font r;
     window_state := window_state r; text_wrap := text_wrap r |}.
Definition set_editor_font_size (v : Z) (r : Settings) : Settings :=
  {| editor_bg := editor_bg r; editor_fg := editor_fg r;
     editor_font := editor_font r;
     tabsize := tabsize r; editor_font_size := v;
     editor_opacity := editor_opacity r; bold_font := bold_font r;
     window_state := window_state r; text_wrap := text_wrap r |}.
Definition set_editor_opacity (v : Z) (r : Settings) : Settings :=
  {| editor_bg := editor_bg r; editor_fg := editor_fg r;
     editor_font := editor_font r;
     tabsize := tabsize r; editor_font_size := editor_font_size r;
     editor_opacity := v; bold_font := bold_font r;
     window_state := window_state r; text_wrap := text_wrap r |}.
Definition set_bold_font (v : string) (r : Settings) : Settings :=
  {| editor_bg := editor_bg r; editor_fg := editor_fg r;
     editor_font := editor_font r;
     tabsize := tabsize r; editor_font_size := editor_font_size r;
     editor_opacity := editor_opacity r; bold_font := v;
     window_state := window_state r; text_wrap := text_wrap r |}.
Definition set_window_state (v : string) (r : Settings) : Settings :=
  {| editor_bg := editor_bg r; editor_fg := editor_fg r;
     editor_font := editor_font r;
     tabsize := tabsize r; editor_font_size := editor_font_size r;
     editor_opacity := editor_opacity r; bold_font := bold_font r;
     window_state := v; text_wrap := text_wrap r |}.
Definition set_text_wrap (v : string) (r : Settings) : Settings :=
  {| editor_bg := editor_bg r; editor_fg := editor_fg r;
     editor_font := editor_font r;
     tabsize := tabsize r; editor_font_size := editor_font_size r;
     editor_opacity := editor_opacity r; bold_font := bold_font r;
     window_state := window_state r; text_wrap := v |}.

Inductive MessageBox :=
  | showerror (title message : string)
  | showwarning (title message : string)
  | askyesnocancel (title message : string).

(** One editor window. [editor] is the text in the widget, without the
    newline Tk appends when the text is read. *)
Record ShardInstance := {
  root : bool;           (* the Toplevel window still exists *)
  root_title : string;
  filename : string;
  filepath : string;
  new_file : bool;
  editor : string;
  prefs : Settings
}.

Definition with_root (b : bool) (s : ShardInstance) : ShardInstance :=
  {| root := b; root_title := root_title s; filename := filename s;
     filepath := filepath s; new_file := new_file s; editor := editor s;
     prefs := prefs s |}.
Definition with_title (t : string) (s : ShardInstance) : ShardInstance :=
  {| root := root s; root_title := t; filename := filename s;
     filepath := filepath s; new_file := new_file s; editor := editor s;
     prefs := prefs s |}.
Definition with_filename (t : string) (s : ShardInstance) : ShardInstance :=
  {| root := root s; root_title := root_title s; filename := t;
     filepath := filepath s; new_file := new_file s; editor := editor s;
     prefs := prefs s |}.
Definition with_filepath (t : string) (s : ShardInstance) : ShardInstance :=
  {| root := root s; root_title := root_title s; filename := filename s;
     filepath := t; new_file := new_file s; editor := editor s;
     prefs := prefs s |}.
Definition with_new_file (b : bool) (s : ShardInstance) : ShardInstance :=
  {| root := root s; root_title := root_title s; filename := filename s;
     filepath := filepath s; new_file := b; editor := editor s;
     prefs := prefs s |}.
Definition with_editor (t : string) (s : ShardInstance) : ShardInstance :=
  {| root := root s; root_title := root_title s; filename := filename s;
     filepath := filepath s; new_file := new_file s; editor := t;
     prefs := prefs s |}.
Definition with_prefs (r : Settings) (s : ShardInstance) : ShardInstance :=
  {| root := root s; root_title := root_title s; filename := filename s;
     filepath := filepath s; new_file := new_file s; editor := editor s;
     prefs := r |}.

(** One process: the class attribute [Shard.active_instances], the hidden Tk
    root [master] with the windows under it, and the disk it shares with the
    other processes. *)
Record Shard := {
  disk : Disk;
  args : list string;           (* sys.argv *)
  active_instances : Z;
  master : bool;                (* the hidden Tk root still exists *)
  windows : list ShardInstance; (* every window constructed, oldest first *)
  messages : list MessageBox;   (* message boxes shown, oldest first *)
  exited : bool                 (* the process has terminated *)
}.

Definition with_disk (d : Disk) (p : Shard) : Shard :=
  {| disk := d; args := args p; active_instances := active_instances p;
     master := master p; windows := windows p; messages := messages p;
     exited := exited p |}.
Definition with_active_instances (n : Z) (p : Shard) : Shard :=
  {| disk := disk p; args := args p; active_instances := n;
     master := master p; windows := windows p; messages := messages p;
     exited := exited p |}.
Definition with_master (b : bool) (p : Shard) : Shard :=
  {| disk := disk p; args := args p; active_instances := active_instances p;
     master := b; windows := windows p; messages := messages p;
     exited := exited p |}.
Definition with_windows (l : list ShardInstance) (p : Shard) : Shard :=
  {| disk := disk p; args := args p; active_instances := active_instances p;
     master := master p; windows := l; messages := messages p;
     exited := exited p |}.
Definition with_messages (l : list MessageBox) (p : Shard) : Shard :=
  {| disk := disk p; args := args p; active_instances := active_instances p;
     master := master p; windows := windows p; messages := l;
     exited := exited p |}.
Definition with_exited (b : bool) (p : Shard) : Shard :=
  {| disk := disk p; args := args p; active_instances := active_instances p;
     master := master p; windows := windows p; messages := messages p;
     exited := b |}.

(** The argument of [create_instance] and of the constructor: [None], a
    [str] (a line of the queue file) or a [Path] object. *)
Inductive PathArg := PyNone | PyStr (s : string) | PyPath (s : string).

(** [f"{path}"] *)
Definition format (a : PathArg) : string :=
  match a with PyNone => "None" | PyStr s | PyPath s => s end.

(** [path != "None"]: only a [str] can equal a [str]. *)
Definition differs_from_None (a : PathArg) : bool :=
  match a with PyStr s => negb (bool_decide (s = "None")) | _ => true end.

Abbreviation Method := (Prog (ShardInstance * Shard)).
Abbreviation Coord := (Prog Shard).

Definition application_name : string := "Shard".

(** Allowed values of the preferences *)
Definition py_range (start stop step : Z) : list Z :=
  (λ i : nat, start + step * Z.of_nat i) <$>
    seq 0 (Z.to_nat ((stop - start + step - 1) / step)).

(** [sorted([...])] of the colour, font and size lists, written out *)
Definition colors : list string :=
  ["bisque"; "black"; "blue"; "coral"; "gray"; "green"; "lime"; "pink";
   "purple"; "red"; "silver"; "sky blue"; "white"; "yellow"].
Definition fonts : list string :=
  ["Cascadia Mono"; "Consolas"; "Courier New"; "Lucida Console"; "MS Gothic";
   "NSimSun"].
Definition sizes : list Z :=
  [8; 10; 11; 12; 14; 16; 18; 20; 22; 24; 26; 32; 48; 64; 72; 96].
Definition tabsize_allowed : list Z := py_range 4 17 2.
Definition opacity : list Z := py_range 30 101 1.
Definition font_styles : list string := ["bold"; "normal"].
Definition window_states : list string := ["normal"; "zoomed"].
Definition text_wrapping : list string := ["word"; "none"].

(** The characters [save_file] refuses in a file name: / \ : * ? quote < > | *)
Definition reserved : string := "/\:*?" +:+ String "034" "<>|".

(** A Python value used as a condition *)
Definition truthy (r : option bool) : bool := default false r.

Section Program.
Context {platform : Pathlib} {interp : Interpreter}.

(** *** class ShardInstance *)

Definition self : Method ShardInstance := λ st, (Return st.1, st).
Definition shard : Method Shard := λ st, (Return st.2, st).
Definition set_self (f : ShardInstance → ShardInstance) : Method unit :=
  modify (λ st, (f st.1, st.2)).
Definition set_shard (f : Shard → Shard) : Method unit :=
  modify (λ st, (st.1, f st.2)).

(** Any use of a widget of the window: Tk raises once it is destroyed. *)
Definition widget : Method unit :=
  s ← self; if root s then mret () else raise TclError.

Definition show (m : MessageBox) : Method unit :=
  set_shard (λ p, with_messages (messages p ++ [m]) p).

Definition update_window_title (text : string) : Method unit :=
  widget;; set_self (with_title (text +:+ " - " +:+ application_name)).

(** [self.editor.get("1.0", END)] *)
Definition editor_get : Method string :=
  widget;; s ← self; mret (editor s +:+ String Py.LF "").

(** [self.editor.insert(INSERT, content)], the cursor being at the end *)
Definition editor_insert (content : string) : Method unit :=
  widget;; set_self (λ s, with_editor (editor s +:+ content) s).

Definition close_instance : Method unit :=
  set_shard (λ p, with_active_instances (active_instances p - 1) p);;
  set_self (with_root false).

Definition set_last_save_location (path : string) : Method unit :=
  set_shard (λ p, with_disk (with_save_location path (disk p)) p).

Definition save_editor_settings : Method unit :=
  s ← self;
  let r := prefs s in
  set_shard (λ p, with_disk (with_settings
    (Py.join (String Py.TAB "")
       [editor_bg r; editor_fg r; editor_font r;
        Py.str (tabsize r); Py.str (editor_font_size r);
        Py.str (editor_opacity r);
        bold_font r; window_state r; text_wrap r]) (disk p)) p).

(** What the nine [self.<variable>.set(...)] lines of
    [validate_written_settings] set when no [int] of theirs fails *)
Definition checked_prefs (bg fg ft tb fs op bd ws tw : string) : Settings :=
  {| editor_bg := if bool_decide (bg ∈ colors) then bg else "black";
     editor_fg := if bool_decide (fg ∈ colors) then fg else "white";
     editor_font := if bool_decide (ft ∈ fonts) then ft else "Consolas";
     tabsize :=
       if Py.isdecimal tb && bool_decide (Py.int tb ∈ tabsize_allowed)
       then Py.int tb else 4;
     editor_font_size :=
       if Py.isdecimal fs && bool_decide (Py.int fs ∈ sizes)
       then Py.int fs else 20;
     editor_opacity :=
       if Py.isdecimal op && bool_decide (Py.int op ∈ opacity)
       then Py.int op else 100;
     bold_font := if bool_decide (bd ∈ font_styles) then bd else "normal";
     window_state :=
       if bool_decide (ws ∈ window_states) then ws else "normal";
     text_wrap := if bool_decide (tw ∈ text_wrapping) then tw else "word" |}.

(** [int(v)] on a [v] with [v.isdecimal()] *)
Definition int (v : string) : Method Z :=
  if (0 <? int_max_str_digits)%nat && (int_max_str_digits <? String.length v)%nat
  then raise ValueError
  else mret (Py.int v).

(** [int(v) if v.isdecimal() and int(v) in allowed else fallback] *)
Definition checked_int (v : string) (allowed : list Z) (fallback : Z)
    : Method Z :=
  if Py.isdecimal v then
    n ← int v;
    if bool_decide (n ∈ allowed) then int v else mret fallback
  else mret fallback.

(** [self.<variable>.set(...)] *)
Definition tk_set (f : Settings → Settings) : Method unit :=
  set_self (λ s, with_prefs (f (prefs s)) s).

Definition validate_written_settings (vals : list string) : Method unit :=
  match vals with
  | bg :: fg :: ft :: tb :: fs :: op :: bd :: ws :: tw :: extra =>
      tk_set (set_editor_bg (if bool_decide (bg ∈ colors) then bg else "black"));;
      tk_set (set_editor_fg (if bool_decide (fg ∈ colors) then fg else "white"));;
      tk_set (set_editor_font
                (if bool_decide (ft ∈ fonts) then ft else "Consolas"));;
      tb' ← checked_int tb tabsize_allowed 4;
      tk_set (set_tabsize tb');;
      fs' ← checked_int fs sizes 20;
      tk_set (set_editor_font_size fs');;
      op' ← checked_int op opacity 100;
      tk_set (set_editor_opacity op');;
      tk_set (set_bold_font
                 (if bool_decide (bd ∈ font_styles) then bd else "normal"));;
      tk_set (set_window_state
                 (if bool_decide (ws ∈ window_states) then ws else "normal"));;
      tk_set (set_text_wrap
                 (if bool_decide (tw ∈ text_wrapping) then tw else "word"));;
      save_editor_settings
  | _ => raise ValueError   (* not enough values to unpack *)
  end.

Definition get_editor_settings : Method unit :=
  p ← shard;
  let current :=
    Py.split Py.TAB (Py.universal_newlines (settings_file (disk p))) in
  if bool_decide (9 ≤ length current)%nat
     && forallb (λ x, negb (Py.is_empty x)) current
  then validate_written_settings current
  else validate_written_settings (current ++ replicate 9 "").

(** The object before [__init__] has run: no window, empty Tk variables. *)
Definition unborn : ShardInstance :=
  {| root := false; root_title := ""; filename := ""; filepath := "";
     new_file := true; editor := "";
     prefs := {| editor_bg := ""; editor_fg := ""; editor_font := "";
                 tabsize := 0; editor_font_size := 0; editor_opacity := 0;
                 bold_font := ""; window_state := ""; text_wrap := "" |} |}.

(** [ShardInstance.__init__(self, master, filepath)]; [opened] is false
    when the body leaves by [return] after a failed read. *)
Definition ShardInstance__init__ (path : PathArg) : Method unit :=
  p ← shard;
  set_self (with_root true);;
  set_self (with_filename "Untitled");;
  set_self (with_filepath (resolve (hd "" (args p))));;
  set_self (with_new_file true);;
  get_editor_settings;;
  opened ←
    match path with
    | PyNone => mret true
    | PyStr f | PyPath f =>
        set_self (with_filepath (resolve f));;
        set_self (with_new_file false);;
        s ← self;
        p ← shard;
        let finish (content : string) : Method bool :=
          set_self (with_filename (name (filepath s)));;
          editor_insert content;;
          mret true in
        match open_read (disk p) (filepath s) UTF_8 with
        | inr content => finish content
        | inl PermissionError =>
            close_instance;;
            show (showerror "Error" "No permissions to view file");;
            mret false
        | inl FileNotFoundError =>
            set_self (with_new_file true);;
            finish ""
        | inl UnicodeDecodeError =>
            match open_read (disk p) (filepath s) ANSI with
            | inr content => finish content
            | inl _ =>
                close_instance;;
                show (showerror "Error" "An unexpected error has occurred");;
                mret false
            end
        end
    end;
  if opened : bool then
    s ← self;
    update_window_title (filename s);;
    set_shard (λ p, with_active_instances (active_instances p + 1) p)
    (* self.root.after(100, ...): a later call of [is_file_saved] *)
  else mret ().

(** [is_file_saved]: [Some b] is the Python [bool] b, [None] is [None]. *)
Definition is_file_saved : Method (option bool) :=
  widget;;   (* check_scrolls, update_cursor_location_indicators *)
  s ← self;
  if new_file s then
    text ← editor_get;
    (if negb (Py.is_empty (Py.rstrip_char Py.LF text))
     then update_window_title ("*" +:+ filename s)
     else update_window_title (filename s));;
    mret (Some false)
  else
    p ← shard;
    let path := joinpath (parent (filepath s)) (filename s) in
    let compare (content : string) : Method (option bool) :=
      text ← editor_get;
      let cond :=
        bool_decide (Py.rstrip_char Py.LF content = Py.rstrip_char Py.LF text) in
      (if negb cond
       then update_window_title ("*" +:+ filename s)
       else update_window_title (filename s));;
      mret (Some cond) in
    match open_read (disk p) path UTF_8 with
    | inr content => compare content
    | inl FileNotFoundError =>
        set_self (with_new_file true);;
        mret (Some false)
    | inl PermissionError =>
        close_instance;;
        show (showerror "Error" "No permissions to view file");;
        mret None
    | inl UnicodeDecodeError =>
        match open_read (disk p) path ANSI with
        | inr content => compare content
        | inl _ =>
            close_instance;;
            show (showerror "Error" "An unexpected error has occurred");;
            mret None
        end
    end.

Definition save_file (saveAs close_after_saving : bool) : Method (option bool) :=
  s ← self;
  if Py.is_empty (Py.strip (filename s)) then mret None
  else if negb (bool_decide (Py.intersection (filename s) reserved = [])) then
    show (showwarning "Invalid Filename"
            ("Filename cannot contain symbols / \ : * ? "
             +:+ String "034" " < > |"));;
    mret None
  else
    let target_file := joinpath (parent (filepath s)) (filename s) in
    content ← editor_get;
    (* self.filepath.parent.mkdir(parents=True, exist_ok=True): the
       directories of the documents are taken to exist *)
    p ← shard;
    match open_write (disk p) target_file content with
    | inr d => set_shard (with_disk d)
    | inl _ => show (showerror "Error" "No permissions to write to file")
    end;;
    update_window_title (filename s);;
    set_self (with_new_file false);;
    (if close_after_saving then close_instance else mret ());;
    mret (Some true).

(** [save_window]; [file_name] is what the save dialog answers if it is
    asked (the empty string when the user cancels it). The initial
    directory the dialog is given is read from the disk and changes
    nothing. *)
Definition save_window (saveAs close_after_saving : bool)
    (file_name : string) : Method unit :=
  done_directly ←
    (if negb saveAs then
       saved ← is_file_saved;
       if truthy saved then mret true
       else
         s ← self;
         if negb (new_file s)
         then save_file false close_after_saving;; mret true
         else mret false
     else mret false);
  if done_directly : bool then mret ()
  else if negb (Py.is_empty file_name) then
    set_self (with_filepath file_name);;
    set_self (with_filename (name file_name));;
    set_last_save_location (parent file_name);;
    save_file saveAs close_after_saving;;
    mret ()
  else mret ().

(** The handler of the window's close button; [choice] is the answer to
    the yes/no/cancel question if it is asked. *)
Definition save_before_closing_instance (choice : option bool)
    (file_name : string) : Method unit :=
  saved ← is_file_saved;
  if negb (truthy saved) then
    s ← self;
    nothing_to_lose ←
      (if new_file s
       then text ← editor_get; mret (Py.is_empty (Py.rstrip_char Py.LF text))
       else mret false);
    if nothing_to_lose : bool then close_instance
    else
      widget;;   (* self.root.attributes('-topmost', False) *)
      show (askyesnocancel "File Unsaved"
              ("Do you want to save the file '" +:+ filename s
               +:+ "' before closing it?"));;
      match choice with
      | Some true => save_window false true file_name
      | None => mret ()
      | Some false => close_instance
      end
  else close_instance.

(** *** class Shard *)

(** [ShardInstance(self.master, path)]: the new window joins the
    others, whatever became of it. *)
Definition ShardInstance_call (path : PathArg) : Coord unit := λ p,
  let '(r, (s, p')) := ShardInstance__init__ path (unborn, p) in
  (r, with_windows (windows p' ++ [s]) p').

Definition master_destroy : Coord unit :=
  modify (λ p, with_windows (with_root false <$> windows p) (with_master false p)).

(** [sys.exit(0)] *)
Definition sys_exit : Coord unit :=
  modify (with_exited true);; raise SystemExit.

Definition close_shard_if_no_instances_running : Coord unit :=
  p ← get;
  if bool_decide (active_instances p ≤ 0) then
    master_destroy;;
    modify (λ p, with_disk (with_indicator false (disk p)) p);;
    sys_exit
  else mret ().

Definition add_instance_to_list (path : PathArg) : Coord unit :=
  modify (λ p, with_disk
    (with_queue (instance_queue_file (disk p) +:+ String Py.LF (format path))
       (disk p)) p).

Definition create_instance (path : PathArg) (main : bool) : Coord unit :=
  p ← get;
  if shard_running_indicator (disk p) && negb main
  then add_instance_to_list path
  else if differs_from_None path then ShardInstance_call path
       else ShardInstance_call PyNone.

(** One tick of the poll loop. It ends either by [master.after(69, ...)],
    which is the normal return, or by [sys.exit]. *)
Definition open_instances_from_list : Coord unit :=
  p ← get;
  let foreign_files :=
    Py.split Py.LF
      (Py.strip (Py.universal_newlines (instance_queue_file (disk p)))) in
  modify (λ p, with_disk (with_queue "" (disk p)) p);;
  match foreign_files with
  | [] => mret ()
  | _ =>
      for_each
        (filter (λ ins, Py.strip ins ≠ "") foreign_files)
        (λ ins, create_instance (PyStr ins) true)
  end;;
  close_shard_if_no_instances_running.

Definition is_foreign_file_empty : Coord bool :=
  p ← get;
  mret (Py.is_empty
          (Py.strip (Py.universal_newlines (instance_queue_file (disk p))))).

(** [start]; [others] is what the other processes do to the disk during
    [time.sleep(0.2)]. [mainloop] hands control to the events, which are
    the later calls of the handlers above. *)
Definition start (others : Disk → Disk) : Coord unit :=
  p ← get;
  proceed ←
    (if shard_running_indicator (disk p) then
       modify (λ p, with_disk (others (disk p)) p);;
       empty ← is_foreign_file_empty;
       if negb empty then mret true
       else master_destroy;; mret false
     else mret true);
  if proceed : bool then
    modify (λ p, with_disk (with_indicator true (disk p)) p);;
    open_instances_from_list
  else mret ().

(** [Shard()] in a new process *)
Definition Shard_call (argv : list string) (d : Disk) : Shard :=
  {| disk := d; args := argv; active_instances := 0; master := true;
     windows := []; messages := []; exited := false |}.

(** The script: the process is over when its last statement returns
    without a Tk root to run [mainloop] on, or when an exception
    (including [SystemExit]) leaves it. *)
Definition main (argv : list string) (others : Disk → Disk) (d : Disk) : Shard :=
  let script : Coord unit :=
    match tail argv with
    | [] => create_instance PyNone false
    | fs => for_each fs (λ f, create_instance (PyPath (resolve f)) false)
    end;;
    start others in
  match script (Shard_call argv d) with
  | (Return _, p) => if master p then p else with_exited true p
  | (Raise _, p) => with_exited true p
  end.

End Program.

(** ** The other handlers of a window *)

(** [l.index(v)]: the first place of [v] in [l]; [None] is [ValueError]. *)
Fixpoint index {A} `{EqDecision A} (l : list A) (v : A) : option nat :=
  match l with
  | [] => None
  | x :: l' => if decide (x = v) then Some 0%nat else S <$> index l' v
  end.

(** The five values the settings dialog steps through a list, and what it
    can be told. *)
Inductive Knob := Background | Foreground | FontFamily | FontSize | TabSize.

Inductive DialogEvent :=
  | KeyRight (k : Knob)          (* <Right> on the button of the value *)
  | KeyLeft (k : Knob)           (* <Left> on the button of the value *)
  | Pick (k : Knob) (i : nat)    (* the i-th entry of its OptionMenu *)
  | ToggleBold                   (* the checkbutton Bold Fonts *)
  | ToggleWrap                   (* the checkbutton Wrap Text *)
  | Slide (n : Z).               (* the opacity scale moved towards n *)

Section Handlers.
Context {platform : Pathlib}.

(** A call made on the process from inside a method of a window. *)
Definition in_process {A} (c : Coord A) : Method A := λ st,
  let '(r, p') := c st.2 in (r, (st.1, p')).

Definition start_new_file (path : PathArg) : Method unit :=
  in_process (ShardInstance_call path).

(** [open_file_window]; [opened_file] is what the open dialog answers (the
    empty string when the user cancels it). *)
Definition open_file_window (opened_file : string) : Method unit :=
  if Py.is_empty opened_file then mret ()
  else
    p ← shard;
    let proceed (content : string) : Method unit :=
      s ← self;
      untouched_window ←
        (if new_file s then
           text ← editor_get;
           mret (Py.is_empty (Py.strip text)
                 && bool_decide (filename s = "Untitled"))
         else mret false);
      if untouched_window : bool then
        set_self (with_filepath opened_file);;
        set_self (with_filename (name opened_file));;
        update_window_title (name opened_file);;
        widget;; set_self (with_editor "");;   (* editor.delete("1.0", END) *)
        editor_insert content;;
        set_self (with_new_file false)
      else start_new_file (PyPath opened_file) in
    match open_read (disk p) opened_file UTF_8 with
    | inr content => proceed content
    | inl PermissionError =>
        show (showerror "Error" "No permissions to view file")
    | inl FileNotFoundError => mret ()
    | inl UnicodeDecodeError =>
        match open_read (disk p) opened_file ANSI with
        | inr content => proceed content
        | inl _ => show (showerror "Error" "An unexpected error has occurred")
        end
    end.

(** [detect_window_maximised]; [current_state] is what [self.root.state()]
    answers. *)
Definition detect_window_maximised (current_state : string) : Method unit :=
  widget;;   (* check_scrolls *)
  s ← self;
  if bool_decide (window_state (prefs s) = current_state) then mret ()
  else
    set_self (λ s, with_prefs (set_window_state current_state (prefs s)) s);;
    save_editor_settings.

(** The handler of <Right> (delta 1) and <Left> (delta -1) on one value:
    [var.set(l[(l.index(var.get()) + delta) % len(l)])]. The place found
    is within the list, so the subscript never fails. *)
Definition turn {A} `{EqDecision A} (l : list A) (get_var : Settings → A)
    (set_var : A → Settings → Settings) (delta : Z) : Method unit :=
  s ← self;
  match index l (get_var (prefs s)) with
  | None => raise ValueError
  | Some i =>
      let k := Z.to_nat ((Z.of_nat i + delta) `mod` Z.of_nat (length l)) in
      set_self (with_prefs (set_var (nth k l (get_var (prefs s))) (prefs s)))
  end.

Definition key (k : Knob) (delta : Z) : Method unit :=
  match k with
  | Background => turn colors editor_bg set_editor_bg delta
  | Foreground => turn colors editor_fg set_editor_fg delta
  | FontFamily => turn fonts editor_font set_editor_font delta
  | FontSize => turn sizes editor_font_size set_editor_font_size delta
  | TabSize => turn tabsize_allowed tabsize set_tabsize delta
  end.

(** An OptionMenu sets its variable to the entry chosen. *)
Definition choose {A} (l : list A) (set_var : A → Settings → Settings)
    (i : nat) : Method unit :=
  match l !! i with
  | Some v => set_self (λ s, with_prefs (set_var v (prefs s)) s)
  | None => mret ()
  end.

Definition pick (k : Knob) (i : nat) : Method unit :=
  match k with
  | Background => choose colors set_editor_bg i
  | Foreground => choose colors set_editor_fg i
  | FontFamily => choose fonts set_editor_font i
  | FontSize => choose sizes set_editor_font_size i
  | TabSize => choose tabsize_allowed set_tabsize i
  end.

(** [invoke()] of a checkbutton: its variable goes to the off value when it
    holds the on value, and to the on value otherwise. *)
Definition invoke (onvalue offvalue : string) (get_var : Settings → string)
    (set_var : string → Settings → Settings) : Method unit :=
  set_self (λ s, with_prefs
    (set_var (if bool_decide (get_var (prefs s) = onvalue)
              then offvalue else onvalue) (prefs s)) s).

(** The scale keeps its variable between [from_=30] and [to=100]; its
    command sets the opacity of the window. *)
Definition slide (n : Z) : Method unit :=
  set_self (λ s, with_prefs
    (set_editor_opacity (Z.max 30 (Z.min 100 n)) (prefs s)) s);;
  widget.

Definition dialog_event (e : DialogEvent) : Method unit :=
  match e with
  | KeyRight k => key k 1
  | KeyLeft k => key k (-1)
  | Pick k i => pick k i
  | ToggleBold => invoke "bold" "normal" bold_font set_bold_font
  | ToggleWrap => invoke "word" "none" text_wrap set_text_wrap
  | Slide n => slide n
  end.

(** [save_and_apply_settings] *)
Definition save_and_apply_settings : Method unit :=
  save_editor_settings;;
  widget.   (* apply_editor_settings *)

(** [cancel_and_revert_settings]: the eight variables of
    [editor_properties] go back to [curr_vars]; the window state is not one
    of them. *)
Definition cancel_and_revert_settings (curr_vars : Settings) : Method unit :=
  set_self (λ s, with_prefs
    (set_window_state (window_state (prefs s)) curr_vars) s);;
  widget.   (* apply_editor_settings *)

(** [settings_window], with what the user does in the dialog: a run of
    events, and then OK or Cancel. *)
Definition settings_window (events : list DialogEvent) (ok : bool)
    : Method unit :=
  widget;;   (* settings = Toplevel(self.root) *)
  s ← self;
  let curr_vars := prefs s in
  for_each events dialog_event;;
  if ok then save_and_apply_settings
  else cancel_and_revert_settings curr_vars.

End Handlers.

(** ** A concrete platform, for running the model: POSIX-style paths, every
    path taken as already absolute and free of links. *)

Module Posix.
Definition SLASH : ascii := "/"%char.

Definition dirname (p : string) : string :=
  match Py.join "/" (removelast (Py.split SLASH p)) with
  | EmptyString => "/"
  | d => d
  end.

Definition basename (p : string) : string :=
  List.last (Py.split SLASH p) "".

Definition join (d n : string) : string :=
  if bool_decide (d = "/") then d +:+ n else d +:+ "/" +:+ n.

Definition paths : Pathlib :=
  {| resolve := id; parent := dirname; name := basename; joinpath := join |}.
End Posix.

Definition empty_disk : Disk :=
  {| shard_running_indicator := false; instance_queue_file := "";
     settings_file := ""; save_location_file := "";
     files := ∅; unreadable := ∅; unwritable := ∅ |}.

(** ** Vocabulary of the statements *)


(** A text the consumer takes for no request: nothing but white space. *)
Definition blank (s : string) : Prop := Py.strip s = "".


(** The open requests one drain makes of the queue text [q]: the argument
    of each [create_instance(ins, main=True)], in the order of the calls. *)
Definition requests (q : string) : list string :=
  filter (λ ins, Py.strip ins ≠ "")
    (Py.split Py.LF (Py.strip (Py.universal_newlines q))).




(** The text of the queue file after the lines [ls] were appended to an
    empty file, each by one [file.write(f"\n{path}")]. *)
Fixpoint queue_text (ls : list string) : string :=
  match ls with
  | [] => ""
  | l :: ls' => String Py.LF (l +:+ queue_text ls')
  end.

(** A handoff: [producer], a process that sees the disk [d], appends [path]. *)
Definition handoff (producer : Shard) (path : PathArg) (d : Disk) : Disk :=
  disk (add_instance_to_list path (with_disk d producer)).2.

Definition handoffs (calls : list (Shard * PathArg)) (d : Disk) : Disk :=
  foldl (λ d c, handoff c.1 c.2 d) d calls.

(** The settings record: its nine fields, their place in the file, their
    documented defaults. *)
Inductive Field := Bg | Fg | Ft | Tb | Fs | Op | Bd | Ws | Tw.

Global Instance Field_eq_dec : EqDecision Field.
Proof. solve_decision. Defined.

Definition position (f : Field) : nat :=
  match f with
  | Bg => 0 | Fg => 1 | Ft => 2 | Tb => 3 | Fs => 4
  | Op => 5 | Bd => 6 | Ws => 7 | Tw => 8
  end.

Definition defaults : Settings :=
  {| editor_bg := "black"; editor_fg := "white"; editor_font := "Consolas";
     tabsize := 4; editor_font_size := 20; editor_opacity := 100;
     bold_font := "normal"; window_state := "normal"; text_wrap := "word" |}.



(** Whether a stored field text is an allowed value of the field. *)
Definition acceptable (f : Field) (text : string) : bool :=
  match f with
  | Bg | Fg => bool_decide (text ∈ colors)
  | Ft => bool_decide (text ∈ fonts)
  | Tb => Py.isdecimal text && bool_decide (Py.int text ∈ tabsize_allowed)
  | Fs => Py.isdecimal text && bool_decide (Py.int text ∈ sizes)
  | Op => Py.isdecimal text && bool_decide (Py.int text ∈ opacity)
  | Bd => bool_decide (text ∈ font_styles)
  | Ws => bool_decide (text ∈ window_states)
  | Tw => bool_decide (text ∈ text_wrapping)
  end.

Definition valid (r : Settings) : Prop :=
  editor_bg r ∈ colors ∧ editor_fg r ∈ colors ∧ editor_font r ∈ fonts ∧
  tabsize r ∈ tabsize_allowed ∧ editor_font_size r ∈ sizes ∧
  editor_opacity r ∈ opacity ∧ bold_font r ∈ font_styles ∧
  window_state r ∈ window_states ∧ text_wrap r ∈ text_wrapping.

(** The record [r] with the field [f] put back to its default. *)
Definition restore (f : Field) (r : Settings) : Settings :=
  {| editor_bg := if f is Bg then editor_bg defaults else editor_bg r;
     editor_fg := if f is Fg then editor_fg defaults else editor_fg r;
     editor_font := if f is Ft then editor_font defaults else editor_font r;
     tabsize := if f is Tb then tabsize defaults else tabsize r;
     editor_font_size :=
       if f is Fs then editor_font_size defaults else editor_font_size r;
     editor_opacity :=
       if f is Op then editor_opacity defaults else editor_opacity r;
     bold_font := if f is Bd then bold_font defaults else bold_font r;
     window_state :=
       if f is Ws then window_state defaults else window_state r;
     text_wrap := if f is Tw then text_wrap defaults else text_wrap r |}.

(** A text that fits in one field of the stored record. *)
Definition no_tab (x : string) : Prop := Py.TAB ∉ Py.chars x.

(** The nine texts [save_editor_settings] joins, and the file it writes. *)
Definition record_fields (r : Settings) : list string :=
  [editor_bg r; editor_fg r; editor_font r;
   Py.str (tabsize r); Py.str (editor_font_size r); Py.str (editor_opacity r);
   bold_font r; window_state r; text_wrap r].

Definition settings_text (r : Settings) : string :=
  Py.join (String Py.TAB "") (record_fields r).

(** The fields a text-mode read of the stored record gives. *)
Definition fields (text : string) : list string :=
  Py.split Py.TAB (Py.universal_newlines text).

(** The field of a stored record at a place; a place past the end of a
    short record holds the empty text. *)
Definition field (text : string) (f : Field) : string :=
  nth (position f) (fields text) "".

(** The preferences a window gets from the stored text. *)
Definition loaded_prefs (text : string) : Settings :=
  checked_prefs (field text Bg) (field text Fg) (field text Ft)
    (field text Tb) (field text Fs) (field text Op)
    (field text Bd) (field text Ws) (field text Tw).


(** [int] refuses the stored field text: it is a decimal string with more
    digits than the interpreter converts. *)
Definition refused_by_int {interp : Interpreter} (text : string) : bool :=
  (0 <? int_max_str_digits)%nat
  && (int_max_str_digits <? String.length text)%nat
  && Py.isdecimal text.

(** No numeric field of the stored record is refused by [int]. *)
Definition convertible {interp : Interpreter} (text : string) : Prop :=
  refused_by_int (field text Tb) = false
  ∧ refused_by_int (field text Fs) = false
  ∧ refused_by_int (field text Op) = false.

(** What neither a window nor its construction touches: whether the process
    lives, its Tk root, the marker directory and the queue file. *)
Definition untouched (p p' : Shard) : Prop :=
  exited p' = exited p ∧ master p' = master p ∧
  shard_running_indicator (disk p') = shard_running_indicator (disk p) ∧
  instance_queue_file (disk p') = instance_queue_file (disk p).

Definition leaves_process_alone {A} (m : Method A) : Prop :=
  ∀ st, untouched st.2 (m st).2.2.

(** The state [sys.exit] leaves behind a tick that found no window open. *)
Definition torn_down (p : Shard) : Shard :=
  with_exited true
    (with_disk (with_indicator false (disk p))
       (with_windows (with_root false <$> windows p) (with_master false p))).

(** The requests of one launch: a blank window, or one per argument. *)
Definition launch_args {platform : Pathlib} (argv : list string) : list PathArg :=
  match tail argv with
  | [] => [PyNone]
  | fs => (λ f, PyPath (resolve f)) <$> fs
  end.

(** One tick of the process [primary], seen from the disk. *)
Definition primary_tick {platform : Pathlib} (primary : Shard) (d : Disk) : Disk :=
  disk (open_instances_from_list (with_disk d primary)).2.

(** [isDirty()] of the specification is the negation of [is_file_saved]:
    the callers test [not self.is_file_saved()]. *)
Definition isDirty {platform : Pathlib} (s : ShardInstance) (p : Shard) : bool :=
  match (is_file_saved (s, p)).1 with
  | Return v => negb (truthy v)
  | Raise _ => false
  end.

(** The file name passes the two checks at the head of [save_file]. *)
Definition usable_name (fn : string) : Prop :=
  ¬ blank fn ∧ Py.intersection fn reserved = [].

(** The warning [save_file] shows for a reserved character. *)
Definition invalid_filename_warning : MessageBox :=
  showwarning "Invalid Filename"
    ("Filename cannot contain symbols / \ : * ? " +:+ String "034" " < > |").

(** The process after a new window has read and rewritten the settings. *)
Definition settled (p : Shard) : Shard :=
  with_disk
    (with_settings (settings_text (loaded_prefs (settings_file (disk p))))
       (disk p)) p.

(** The window the constructor leaves when it was given no path. *)
Definition blank_window {platform : Pathlib} (p : Shard) : ShardInstance :=
  {| root := true; root_title := "Untitled" +:+ " - " +:+ application_name;
     filename := "Untitled"; filepath := resolve (hd "" (args p));
     new_file := true; editor := "";
     prefs := loaded_prefs (settings_file (disk p)) |}.

(** The window the constructor leaves when it could read [content] at [f]. *)
Definition loaded_window {platform : Pathlib} (p : Shard) (f content : string)
    : ShardInstance :=
  {| root := true;
     root_title := name (resolve f) +:+ " - " +:+ application_name;
     filename := name (resolve f); filepath := resolve f;
     new_file := false; editor := content;
     prefs := loaded_prefs (settings_file (disk p)) |}.

(** The window the constructor leaves when it was refused the file [f]. *)
Definition refused_window {platform : Pathlib} (p : Shard) (f : string)
    : ShardInstance :=
  {| root := false; root_title := ""; filename := "Untitled";
     filepath := resolve f; new_file := false; editor := "";
     prefs := loaded_prefs (settings_file (disk p)) |}.

(** ** Concrete inputs *)

(** A window bound to [/home/u/notes.txt], edited since it was loaded. *)
Definition notes_window : ShardInstance :=
  {| root := true; root_title := "*notes.txt - Shard";
     filename := "notes.txt"; filepath := "/home/u/notes.txt";
     new_file := false; editor := "hello world"; prefs := defaults |}.

(** A fresh, untouched window. *)
Definition untitled_window : ShardInstance :=
  {| root := true; root_title := "Untitled - Shard";
     filename := "Untitled"; filepath := "/opt/shard/main.py";
     new_file := true; editor := ""; prefs := defaults |}.

(** A disk with the marker set, the settings stored, one document the user
    may read but not write, and one the user may not read. *)
Definition home_disk : Disk :=
  {| shard_running_indicator := true; instance_queue_file := "";
     settings_file := settings_text defaults;
     save_location_file := "/home/u";
     files := {[ "/home/u/notes.txt" := Utf8 "hello" ]};
     unreadable := {[ "/root/secret.txt" ]};
     unwritable := {[ "/home/u/notes.txt" ]} |}.





(** A disk on which the marker was left behind: no process runs. *)
Definition stale_disk : Disk := with_indicator true empty_disk.

(** [home_disk] with a handoff of the unreadable document in the queue. *)
Definition secret_request : Disk :=
  with_queue (String Py.LF "/root/secret.txt") home_disk.



(** The primary process with [notes_window] as its only window. *)
Definition one_window (d : Disk) : Shard :=
  {| disk := d; args := ["/opt/shard/main.py"]; active_instances := 1;
     master := true; windows := [notes_window]; messages := [];
     exited := false |}.

(** A window on a file that is not on [home_disk]. *)
Definition draft_window : ShardInstance :=
  {| root := true; root_title := "draft.txt - Shard";
     filename := "draft.txt"; filepath := "/home/u/draft.txt";
     new_file := false; editor := "first lines"; prefs := defaults |}.

(** A window on the document of [home_disk] that may not be read. *)
Definition secret_window : ShardInstance :=
  {| root := true; root_title := "secret.txt - Shard";
     filename := "secret.txt"; filepath := "/root/secret.txt";
     new_file := false; editor := "guess"; prefs := defaults |}.

(** A window whose buffer holds a carriage return. *)
Definition cr_window : ShardInstance :=
  {| root := true; root_title := "*draft.txt - Shard";
     filename := "draft.txt"; filepath := "/home/u/draft.txt";
     new_file := false; editor := "a" +:+ String Py.CR "b";
     prefs := defaults |}.

(** [notes_window] with its buffer as the file has it. *)
Definition clean_window : ShardInstance := with_editor "hello" notes_window.

(** A window without a file that holds some text. *)
Definition scratch_window : ShardInstance := with_editor "todo" untitled_window.

(** A window whose name is a space. *)
Definition nameless_window : ShardInstance := with_filename " " notes_window.

(** [home_disk] with every document writable. *)
Definition desk_disk : Disk :=
  {| shard_running_indicator := true; instance_queue_file := "";
     settings_file := settings_text defaults;
     save_location_file := "/home/u";
     files := {[ "/home/u/notes.txt" := Utf8 "hello" ]};
     unreadable := {[ "/root/secret.txt" ]};
     unwritable := ∅ |}.

(** Some things done in the settings dialog. *)
Definition dialog_script : list DialogEvent :=
  [KeyLeft Background; Slide 10; ToggleBold; Pick FontSize 3; KeyRight TabSize;
   KeyRight TabSize].

(** ** Vocabulary of the further statements *)

(** What reading a document gives, under the rule the program follows
    wherever it reads one: UTF-8 first, the ANSI code page if that does
    not decode. *)
Definition decoded (d : Disk) (path : string) : option string :=
  match open_read d path UTF_8 with
  | inr content => Some content
  | inl UnicodeDecodeError =>
      match open_read d path ANSI with
      | inr content => Some content
      | inl _ => None
      end
  | inl _ => None
  end.

(** The file a window compares its buffer with and saves to. *)
Definition on_disk_path {platform : Pathlib} (s : ShardInstance) : string :=
  joinpath (parent (filepath s)) (filename s).

(** The text Tk hands out for the buffer. *)
Definition buffer_text (s : ShardInstance) : string :=
  editor s +:+ String Py.LF "".

(** Two texts that differ at most in their trailing newlines. *)
Definition same_text (a b : string) : Prop :=
  Py.rstrip_char Py.LF a = Py.rstrip_char Py.LF b.

Global Instance same_text_dec (a b : string) : Decision (same_text a b).
Proof. unfold same_text. apply _. Defined.

(** The window with its title showing, or not showing, the star. *)
Definition starred (s : ShardInstance) : ShardInstance :=
  with_title (("*" +:+ filename s) +:+ " - " +:+ application_name) s.
Definition unstarred (s : ShardInstance) : ShardInstance :=
  with_title (filename s +:+ " - " +:+ application_name) s.

(** The window left by [close_instance], and the process after it. *)
Definition closed (s : ShardInstance) : ShardInstance := with_root false s.
Definition one_less (p : Shard) : Shard :=
  with_active_instances (active_instances p - 1) p.

(** The process after it was shown the message box [m]. *)
Definition shown (m : MessageBox) (p : Shard) : Shard :=
  with_messages (messages p ++ [m]) p.

(** The question the close button asks about an unsaved window. *)
Definition unsaved_question (s : ShardInstance) : MessageBox :=
  askyesnocancel "File Unsaved"
    ("Do you want to save the file '" +:+ filename s
     +:+ "' before closing it?").

(** The window is as the constructor leaves it when given no path, and
    holds nothing but white space. *)
Definition pristine (s : ShardInstance) : Prop :=
  new_file s = true ∧ filename s = "Untitled" ∧ blank (buffer_text s).

(** A platform on which a path is the join of its parent and its name. *)
Definition splits_paths {platform : Pathlib} (f : string) : Prop :=
  joinpath (parent f) (name f) = f.

(** The buffer holds nothing the disk does not: a window without a file
    holds only newlines, a window with a file holds the text of the file. *)
Definition nothing_unsaved {platform : Pathlib} (s : ShardInstance) (p : Shard)
    : Prop :=
  if new_file s then Py.rstrip_char Py.LF (buffer_text s) = ""
  else ∃ content, decoded (disk p) (on_disk_path s) = Some content
                  ∧ same_text content (buffer_text s).

(** The buffer holds text that closing the window would lose. *)
Definition unsaved_text {platform : Pathlib} (s : ShardInstance) (p : Shard)
    : Prop :=
  if new_file s then Py.rstrip_char Py.LF (buffer_text s) ≠ ""
  else ∃ content, decoded (disk p) (on_disk_path s) = Some content
                  ∧ ¬ same_text content (buffer_text s).

(** The window bound to the file the save dialog answered. *)
Definition rebound {platform : Pathlib} (file_name : string) (s : ShardInstance)
    : ShardInstance :=
  with_filename (name file_name) (with_filepath file_name s).

(** The window after its buffer was written to its file. *)
Definition saved (s : ShardInstance) : ShardInstance :=
  with_new_file false (unstarred s).

(** The five values the dialog steps through their lists are in them. *)
Definition steppable (r : Settings) : Prop :=
  editor_bg r ∈ colors ∧ editor_fg r ∈ colors ∧ editor_font r ∈ fonts ∧
  editor_font_size r ∈ sizes ∧ tabsize r ∈ tabsize_allowed.

(** The value <Right> (delta 1) or <Left> (delta -1) moves to from [v]. *)
Definition step {A} `{EqDecision A} (l : list A) (delta : Z) (v : A) : option A :=
  i ← index l v;
  Some (nth (Z.to_nat ((Z.of_nat i + delta) `mod` Z.of_nat (length l))) l v).

(** The process after a window wrote the preferences [r]. *)
Definition stored (r : Settings) (p : Shard) : Shard :=
  with_disk (with_settings (settings_text r) (disk p)) p.

(** What constructing the windows [ws] adds to the counter: one for each
    window left open, and one less for each window the constructor closed,
    which [close_instance] has counted down and nothing has counted up. *)
Definition tally (ws : list ShardInstance) : Z :=
  foldr (λ w n, (if root w then 1 else -1) + n) 0 ws.

(** What the constructor is called with for a request of the queue: the
    line, or nothing at all when the line reads None. *)
Definition request_arg (ins : string) : PathArg :=
  if differs_from_None (PyStr ins) then PyStr ins else PyNone.

(** The window after [open_file_window] has put the file [f] in it. *)
Definition reused_window {platform : Pathlib} (s : ShardInstance)
    (f content : string) : ShardInstance :=
  {| root := root s;
     root_title := name f +:+ " - " +:+ application_name;
     filename := name f; filepath := f;
     new_file := false; editor := content; prefs := prefs s |}.

(** The window the constructor leaves when there is no file at [f]. *)
Definition new_named_window {platform : Pathlib} (p : Shard) (f : string)
    : ShardInstance :=
  {| root := true;
     root_title := name (resolve f) +:+ " - " +:+ application_name;
     filename := name (resolve f); filepath := resolve f;
     new_file := true; editor := "";
     prefs := loaded_prefs (settings_file (disk p)) |}.

(** The process after a window was constructed and counted. *)
Definition counted (w : ShardInstance) (p : Shard) : Shard :=
  with_windows (windows p ++ [w])
    (with_active_instances (active_instances p + 1) (settled p)).

(** ** Running the monad *)

Ltac run :=
  unfold mbind, prog_bind, mret, prog_ret, self, shard, set_self, set_shard,
    modify, get, raise; cbn [fst snd].

(** Run the monad operations only, leaving the program's own functions and
    the strings as they are. *)
Ltac exec :=
  cbv beta iota zeta delta
    [mbind prog_bind mret prog_ret self shard set_self set_shard modify get
     raise fst snd].

(** Run, using the facts [H1] and [H2] wherever they decide a branch. *)
Ltac exec_with H1 H2 :=
  exec; repeat (first [rewrite H1 | rewrite H2]; exec).

(** Run, looking through the setters of the window as well. *)
Ltac walk H1 H2 :=
  repeat (progress
    (exec;
     cbn [negb root new_file editor filename filepath
          with_root with_title with_filename with_filepath with_new_file
          with_editor with_prefs starred unstarred closed saved];
     rewrite ?H1, ?H2)).

#[local] Arguments settings_text : simpl never.
#[local] Arguments loaded_prefs : simpl never.

Create HintDb frame discriminated.

(** ** Facts about the string methods *)

Section PyFacts.
Import Py.
Implicit Types (s a b : string) (c : ascii) (P : ascii → bool).

Lemma is_empty_true s : is_empty s = true ↔ s = "".
Proof. destruct s; simpl; split; intros; done. Qed.

Lemma is_empty_false s : is_empty s = false ↔ s ≠ "".
Proof. destruct s; simpl; split; intros; done. Qed.

Lemma append_nil_l s : "" +:+ s = s.
Proof. reflexivity. Qed.

Lemma append_cons c a b : String c a +:+ b = String c (a +:+ b).
Proof. reflexivity. Qed.

Lemma append_nil_r s : s +:+ "" = s.
Proof. induction s; rewrite ?append_cons; [done | congruence]. Qed.

Lemma append_assoc a b s : (a +:+ b) +:+ s = a +:+ (b +:+ s).
Proof. induction a; rewrite ?append_cons; [done | congruence]. Qed.


Lemma chars_append a b : chars (a +:+ b) = chars a ++ chars b.
Proof. induction a; rewrite ?append_cons; simpl; [done | congruence]. Qed.

(** *** Stripping *)


Lemma rstrip_by_empty P s : rstrip_by P s = "" ↔ forallb P (chars s) = true.
Proof.
  induction s as [|c s IH]; simpl; [done|].
  destruct (rstrip_by P s) eqn:E; simpl.
  - destruct (P c); simpl; [tauto | split; discriminate].
  - split; [discriminate|]. intros [_ Hs]%andb_prop.
    apply IH in Hs. discriminate.
Qed.

Lemma forallb_lstrip_by P s :
  forallb P (chars (lstrip_by P s)) = forallb P (chars s).
Proof.
  induction s as [|c s IH]; simpl; [done|].
  destruct (P c) eqn:E; simpl; [exact IH | by rewrite E].
Qed.

Lemma forallb_rstrip_by P s :
  forallb P (chars (rstrip_by P s)) = forallb P (chars s).
Proof.
  induction s as [|c s IH]; simpl; [done|].
  destruct (rstrip_by P s) eqn:E; simpl in *.
  - destruct (P c) eqn:Ec; simpl; [done | by rewrite Ec].
  - by rewrite IH.
Qed.




Lemma rstrip_by_idemp P s : rstrip_by P (rstrip_by P s) = rstrip_by P s.
Proof.
  induction s as [|c s IH]; simpl; [done|].
  destruct (is_empty (rstrip_by P s) && P c) eqn:E; simpl; [done|].
  by rewrite IH, E.
Qed.

Lemma lstrip_by_idemp P s : lstrip_by P (lstrip_by P s) = lstrip_by P s.
Proof.
  induction s as [|c s IH]; simpl; [done|].
  destruct (P c) eqn:E; simpl; [done | by rewrite E].
Qed.

Lemma lstrip_rstrip_by P s :
  lstrip_by P (rstrip_by P s) = rstrip_by P (lstrip_by P s).
Proof.
  induction s as [|c s IH]; simpl; [done|].
  destruct (P c) eqn:E; rewrite ?andb_true_r, ?andb_false_r.
  - destruct (is_empty (rstrip_by P s)) eqn:Hs; simpl.
    + apply is_empty_true, rstrip_by_empty in Hs.
      symmetry. apply rstrip_by_empty.
      by rewrite forallb_lstrip_by.
    + by rewrite E.
  - simpl. by rewrite E, andb_false_r.
Qed.



Lemma strip_empty s : strip s = "" ↔ forallb isspace (chars s) = true.
Proof.
  unfold strip, rstrip, lstrip.
  by rewrite rstrip_by_empty, forallb_lstrip_by.
Qed.

Lemma strip_lstrip s : strip (lstrip s) = strip s.
Proof. unfold strip, lstrip. by rewrite lstrip_by_idemp. Qed.

Lemma strip_rstrip s : strip (rstrip s) = strip s.
Proof.
  unfold strip, lstrip, rstrip.
  by rewrite lstrip_rstrip_by, rstrip_by_idemp.
Qed.

Lemma strip_idemp s : strip (strip s) = strip s.
Proof. unfold strip at 2. by rewrite strip_rstrip, strip_lstrip. Qed.



(** *** Splitting and joining *)

Lemma split_one sep s : sep ∉ chars s → split sep s = [s].
Proof.
  induction s as [|c s IH]; simpl; [done|]. intros Hs.
  rewrite bool_decide_eq_false_2 by (intros ->; apply Hs; left).
  rewrite IH; [done|]. intros ?; apply Hs; by right.
Qed.

Lemma split_app sep a b :
  sep ∉ chars a → split sep (a +:+ String sep b) = a :: split sep b.
Proof.
  induction a as [|c a IH]; rewrite ?append_cons; simpl; intros Ha.
  - by rewrite bool_decide_eq_true_2.
  - rewrite bool_decide_eq_false_2 by (intros ->; apply Ha; left).
    rewrite IH; [done|]. intros ?; apply Ha; by right.
Qed.

Lemma split_join sep (l : list string) :
  l ≠ [] → Forall (λ x, sep ∉ chars x) l →
  split sep (join (String sep "") l) = l.
Proof.
  intros Hl Hall. induction Hall as [|x l Hx Hall IH]; [done|].
  destruct l as [|y l]; [by apply split_one|].
  change (join (String sep "") (x :: y :: l))
    with (x +:+ String sep (join (String sep "") (y :: l))).
  rewrite split_app by done. f_equal. by apply IH.
Qed.

Lemma rstrip_by_app_dropped P a b :
  rstrip_by P b = "" → rstrip_by P (a +:+ b) = rstrip_by P a.
Proof.
  intros Hb. induction a as [|c a IH]; [by rewrite append_nil_l|].
  rewrite append_cons. simpl. by rewrite IH.
Qed.


(** *** Universal newlines *)

Lemma universal_cons c s :
  c ≠ CR → universal_newlines (String c s) = String c (universal_newlines s).
Proof. intros Hc. simpl. by rewrite bool_decide_eq_false_2. Qed.

Lemma universal_no_CR s : CR ∉ chars s → universal_newlines s = s.
Proof.
  induction s as [|c s IH]; [done|]. intros Hs.
  rewrite universal_cons by (intros ->; apply Hs; left).
  rewrite IH; [done|]. intros ?; apply Hs; by right.
Qed.

Lemma universal_app_sep a c b :
  c ≠ CR → c ≠ LF →
  universal_newlines (a +:+ String c b)
  = universal_newlines a +:+ String c (universal_newlines b).
Proof.
  intros Hcr Hlf. induction a as [|x a IH].
  - rewrite !append_nil_l. by apply universal_cons.
  - rewrite append_cons. cbn [universal_newlines]. rewrite IH.
    case_bool_decide; [|by rewrite append_cons].
    destruct a as [|y a].
    + rewrite append_nil_l, bool_decide_eq_false_2 by done.
      by rewrite append_cons.
    + rewrite append_cons. by case_bool_decide; rewrite ?append_cons.
Qed.

Lemma universal_join sep (l : list string) :
  sep ≠ CR → sep ≠ LF →
  universal_newlines (join (String sep "") l)
  = join (String sep "") (universal_newlines <$> l).
Proof.
  intros Hcr Hlf. induction l as [|x l IH]; [done|].
  destruct l as [|y l]; [done|].
  change (join (String sep "") (x :: y :: l))
    with (x +:+ String sep (join (String sep "") (y :: l))).
  rewrite universal_app_sep, IH by done. reflexivity.
Qed.

Lemma isspace_universal s :
  forallb isspace (chars (universal_newlines s)) = forallb isspace (chars s).
Proof.
  induction s as [|c s IH]; [done|]. cbn [universal_newlines].
  case_bool_decide as Hc.
  - subst c. change (chars (String CR s)) with (CR :: chars s).
    cbn [forallb]. change (isspace CR) with true. cbn [andb].
    destruct s as [|c' s']; [done|]. case_bool_decide; [done|].
    change (chars (String LF ?x)) with (LF :: chars x). cbn [forallb].
    by rewrite IH.
  - cbn [chars forallb]. by rewrite IH.
Qed.

Lemma strip_universal_empty s :
  is_empty (strip (universal_newlines s)) = is_empty (strip s).
Proof.
  apply eq_true_iff_eq.
  by rewrite !is_empty_true, !strip_empty, isspace_universal.
Qed.

Lemma chars_universal s c :
  c ∈ chars (universal_newlines s) → c ≠ CR ∧ (c ∈ chars s ∨ c = LF).
Proof.
  induction s as [|x s IH]; [by intros ?%elem_of_nil|].
  cbn [universal_newlines]. case_bool_decide as Hx.
  - assert (c ∈ LF :: chars (universal_newlines s) →
            c ≠ CR ∧ (c ∈ chars (String x s) ∨ c = LF)) as Hgen.
    { intros [->|Hc]%elem_of_cons; [split; [done | by right]|].
      destruct (IH Hc) as [? [?|?]]; (split; [done|]);
        [left; by right | by right]. }
    destruct s as [|y s']; [exact Hgen|]. case_bool_decide; [|exact Hgen].
    intros Hc. apply Hgen. by right.
  - intros [->|Hc]%elem_of_cons; [split; [done | left; by left]|].
    destruct (IH Hc) as [? [?|?]]; (split; [done|]);
      [left; by right | by right].
Qed.

Lemma universal_has_LF s : CR ∈ chars s → LF ∈ chars (universal_newlines s).
Proof.
  induction s as [|x s IH]; [by intros ?%elem_of_nil|].
  cbn [universal_newlines]. case_bool_decide as Hx.
  - intros _. destruct s as [|y s']; [by left|].
    case_bool_decide as Hy; [|by left].
    subst y. cbn [universal_newlines].
    rewrite bool_decide_eq_false_2 by done. by left.
  - intros [?|Hc]%elem_of_cons; [done|]. right. by apply IH.
Qed.

End PyFacts.

(** ** The settings record *)

Section SettingsRead.
Context {platform : Pathlib} {interp : Interpreter}.

Lemma nine_or_more (l : list string) :
  (9 ≤ length l)%nat →
  ∃ rest, l = nth 0 l "" :: nth 1 l "" :: nth 2 l "" :: nth 3 l "" ::
              nth 4 l "" :: nth 5 l "" :: nth 6 l "" :: nth 7 l "" ::
              nth 8 l "" :: rest.
Proof.
  intros Hl.
  do 9 (destruct l as [|? l]; [simpl in Hl; lia|]).
  by exists l.
Qed.

Lemma nth_padded (l : list string) (i : nat) :
  nth i (l ++ replicate 9 "") "" = nth i l "".
Proof.
  destruct (decide (i < length l)%nat).
  - by rewrite app_nth1.
  - rewrite app_nth2 by lia. rewrite (nth_overflow l) by lia.
    generalize (i - length l)%nat. intros k.
    do 9 (destruct k as [|k]; [done|]). by destruct k.
Qed.

Lemma checked_int_run (v : string) (allowed : list Z) (fallback : Z) st :
  checked_int v allowed fallback st
  = if refused_by_int v then (Raise ValueError, st)
    else (Return (if Py.isdecimal v && bool_decide (Py.int v ∈ allowed)
                  then Py.int v else fallback), st).
Proof.
  unfold checked_int, int, refused_by_int.
  destruct (Py.isdecimal v); [|by rewrite andb_false_r].
  rewrite andb_true_r. exec.
  destruct ((0 <? int_max_str_digits)%nat
            && (int_max_str_digits <? String.length v)%nat); [done|].
  exec. by destruct (bool_decide _).
Qed.

(** The nine assignments, when [int] accepts the three numeric texts. *)
Lemma validate_written_settings_within (vals : list string) s p :
  (9 ≤ length vals)%nat →
  refused_by_int (nth 3 vals "") = false →
  refused_by_int (nth 4 vals "") = false →
  refused_by_int (nth 5 vals "") = false →
  let r := checked_prefs (nth 0 vals "") (nth 1 vals "") (nth 2 vals "")
             (nth 3 vals "") (nth 4 vals "") (nth 5 vals "")
             (nth 6 vals "") (nth 7 vals "") (nth 8 vals "") in
  validate_written_settings vals (s, p)
  = (Return (), (with_prefs r s,
                 with_disk (with_settings (settings_text r) (disk p)) p)).
Proof.
  intros Hl.
  destruct vals as [|bg [|fg [|ft [|tb [|fs [|op [|bd [|ws [|tw rest]]]]]]]]];
    try (simpl in Hl; lia).
  cbn [nth].
  intros Htb Hfs Hop.
  unfold validate_written_settings, tk_set, save_editor_settings.
  exec. rewrite checked_int_run, Htb. exec.
  rewrite checked_int_run, Hfs. exec.
  rewrite checked_int_run, Hop. exec. reflexivity.
Qed.


Lemma get_editor_settings_cases s p :
  ∃ vals, (9 ≤ length vals)%nat
    ∧ (∀ f, nth (position f) vals "" = field (settings_file (disk p)) f)
    ∧ get_editor_settings (s, p) = validate_written_settings vals (s, p).
Proof.
  unfold get_editor_settings. unfold mbind, prog_bind, shard. cbn [fst snd].
  fold (fields (settings_file (disk p))).
  set (current := fields (settings_file (disk p))).
  destruct (bool_decide (9 ≤ length current)%nat
            && forallb (λ x, negb (Py.is_empty x)) current) eqn:E.
  - apply andb_prop in E as [E%bool_decide_eq_true _].
    exists current. by repeat split.
  - exists (current ++ replicate 9 ""). split; [|split; [|done]].
    + rewrite length_app, length_replicate. lia.
    + intros f. by rewrite nth_padded.
Qed.

(** Reading the settings, when [int] accepts the three numeric fields: it
    installs [loaded_prefs] of the stored text and writes the record it
    installed. *)
Lemma get_editor_settings_within s p :
  convertible (settings_file (disk p)) →
  let r := loaded_prefs (settings_file (disk p)) in
  get_editor_settings (s, p)
  = (Return (), (with_prefs r s,
                 with_disk (with_settings (settings_text r) (disk p)) p)).
Proof.
  intros (Htb & Hfs & Hop).
  destruct (get_editor_settings_cases s p) as (vals & Hlen & Hnth & ->).
  pose proof (Hnth Bg) as Hbg. pose proof (Hnth Fg) as Hfg.
  pose proof (Hnth Ft) as Hft. pose proof (Hnth Tb) as Htb'.
  pose proof (Hnth Fs) as Hfs'. pose proof (Hnth Op) as Hop'.
  pose proof (Hnth Bd) as Hbd. pose proof (Hnth Ws) as Hws.
  pose proof (Hnth Tw) as Htw. cbn [position] in *.
  rewrite validate_written_settings_within; [|done|congruence..].
  unfold loaded_prefs. by rewrite Hbg, Hfg, Hft, Htb', Hfs', Hop', Hbd, Hws, Htw.
Qed.


End SettingsRead.

Section SettingsFacts.
Context {platform : Pathlib}.

Lemma validate_written_settings_spec (vals : list string) s p :
  (9 ≤ length vals)%nat →
  let r := checked_prefs (nth 0 vals "") (nth 1 vals "") (nth 2 vals "")
             (nth 3 vals "") (nth 4 vals "") (nth 5 vals "")
             (nth 6 vals "") (nth 7 vals "") (nth 8 vals "") in
  validate_written_settings vals (s, p)
  = (Return (), (with_prefs r s,
                 with_disk (with_settings (settings_text r) (disk p)) p)).
Proof.
  intros Hl. by apply validate_written_settings_within.
Qed.

(** Without a limit on [int], reading the settings never fails; it
    installs [loaded_prefs] of the stored text and writes the record it
    installed. *)
Lemma get_editor_settings_spec s p :
  let r := loaded_prefs (settings_file (disk p)) in
  get_editor_settings (s, p)
  = (Return (), (with_prefs r s,
                 with_disk (with_settings (settings_text r) (disk p)) p)).
Proof. by apply get_editor_settings_within. Qed.

Lemma allowed_names_no_tab :
  Forall no_tab
    (colors ++ fonts ++ font_styles ++ window_states ++ text_wrapping).
Proof. apply (bool_decide_unpack _). by vm_compute. Qed.

Lemma allowed_numbers_print :
  Forall (λ n, no_tab (Py.str n) ∧ Py.isdecimal (Py.str n) = true
               ∧ Py.int (Py.str n) = n)
    (tabsize_allowed ++ sizes ++ opacity).
Proof. apply (bool_decide_unpack _). by vm_compute. Qed.

Lemma valid_no_tab r : valid r → Forall no_tab (record_fields r).
Proof.
  intros (?&?&?&?&?&?&?&?&?).
  pose proof (proj1 (Forall_forall _ _) allowed_names_no_tab) as Hn.
  pose proof (proj1 (Forall_forall _ _) allowed_numbers_print) as Hz.
  unfold record_fields.
  repeat apply Forall_cons_2; try apply Forall_nil_2;
    first [ apply Hn; rewrite !elem_of_app; by auto 10
          | apply Hz; rewrite !elem_of_app; by auto 10 ].
Qed.

Lemma valid_checked r :
  valid r →
  checked_prefs (editor_bg r) (editor_fg r) (editor_font r)
    (Py.str (tabsize r)) (Py.str (editor_font_size r))
    (Py.str (editor_opacity r))
    (bold_font r) (window_state r) (text_wrap r) = r.
Proof.
  intros (?&?&?&Htb&Hfs&Hop&?&?&?).
  pose proof (proj1 (Forall_forall _ _) allowed_numbers_print) as Hz.
  destruct (Hz (tabsize r)) as (_ & Dtb & Itb); [rewrite !elem_of_app; by auto|].
  destruct (Hz (editor_font_size r)) as (_ & Dfs & Ifs); [rewrite !elem_of_app; by auto|].
  destruct (Hz (editor_opacity r)) as (_ & Dop & Iop); [rewrite !elem_of_app; by auto|].
  unfold checked_prefs. rewrite Dtb, Dfs, Dop, Itb, Ifs, Iop.
  rewrite !bool_decide_eq_true_2 by done.
  by destruct r.
Qed.

Lemma checked_prefs_valid bg fg ft tb fs op bd ws tw :
  valid (checked_prefs bg fg ft tb fs op bd ws tw).
Proof.
  unfold valid, checked_prefs; simpl.
  repeat split;
    match goal with
    | |- (if ?c then _ else _) ∈ _ =>
        let E := fresh in
        destruct c eqn:E;
        [ first [ by apply bool_decide_eq_true in E
                | by apply andb_prop in E as [_ E%bool_decide_eq_true] ]
        | by apply (bool_decide_unpack _); vm_compute ]
    end.
Qed.

Lemma allowed_names_clean :
  Forall (λ x, (Py.CR ∉ Py.chars x) ∧ (Py.LF ∉ Py.chars x))
    (colors ++ fonts ++ font_styles ++ window_states ++ text_wrapping).
Proof. apply (bool_decide_unpack _). by vm_compute. Qed.

Lemma isdecimal_clean (x : string) :
  Py.isdecimal x = true → (Py.CR ∉ Py.chars x) ∧ (Py.LF ∉ Py.chars x).
Proof.
  unfold Py.isdecimal. intros [_ Hall]%andb_prop.
  rewrite forallb_forall in Hall.
  split; intros Hc%list_elem_of_In%Hall; by vm_compute in Hc.
Qed.

Lemma acceptable_clean (f : Field) (x : string) :
  acceptable f x = true → (Py.CR ∉ Py.chars x) ∧ (Py.LF ∉ Py.chars x).
Proof.
  pose proof (proj1 (Forall_forall _ _) allowed_names_clean) as Hn.
  destruct f; cbn [acceptable];
    first [ intros [?%isdecimal_clean _]%andb_prop; done
          | intros ?%bool_decide_eq_true; apply Hn; rewrite !elem_of_app;
            by auto 10 ].
Qed.

(** An allowed value has no line break, so the translation of the read
    neither makes nor unmakes one. *)
Lemma acceptable_universal (f : Field) (x : string) :
  acceptable f (Py.universal_newlines x) = acceptable f x.
Proof.
  destruct (decide (Py.CR ∈ Py.chars x)) as [Hcr|Hcr];
    [|by rewrite universal_no_CR].
  destruct (acceptable f x) eqn:E1.
  { by destruct (acceptable_clean _ _ E1). }
  destruct (acceptable f (Py.universal_newlines x)) eqn:E2; [|done].
  destruct (acceptable_clean _ _ E2) as [_ []]. by apply universal_has_LF.
Qed.

Lemma valid_clean r :
  valid r → Forall (λ x, Py.CR ∉ Py.chars x) (record_fields r).
Proof.
  intros Hr. apply Forall_forall. intros x Hx.
  assert (∃ f, x = nth (position f) (record_fields r) ""
               ∧ acceptable f x = true) as (f & _ & Hacc);
    [|by destruct (acceptable_clean _ _ Hacc)].
  destruct Hr as (?&?&?&Htb&Hfs&Hop&?&?&?).
  pose proof (proj1 (Forall_forall _ _) allowed_numbers_print) as Hz.
  destruct (Hz (tabsize r)) as (_ & Dtb & Itb); [rewrite !elem_of_app; by auto|].
  destruct (Hz (editor_font_size r)) as (_ & Dfs & Ifs); [rewrite !elem_of_app; by auto|].
  destruct (Hz (editor_opacity r)) as (_ & Dop & Iop); [rewrite !elem_of_app; by auto|].
  unfold record_fields in Hx.
  repeat (apply elem_of_cons in Hx as [->|Hx];
          [ first [ exists Bg; split; [done|]; by apply bool_decide_eq_true_2
                  | exists Fg; split; [done|]; by apply bool_decide_eq_true_2
                  | exists Ft; split; [done|]; by apply bool_decide_eq_true_2
                  | exists Tb; split; [done|]; cbn; rewrite Dtb, Itb;
                    by apply bool_decide_eq_true_2
                  | exists Fs; split; [done|]; cbn; rewrite Dfs, Ifs;
                    by apply bool_decide_eq_true_2
                  | exists Op; split; [done|]; cbn; rewrite Dop, Iop;
                    by apply bool_decide_eq_true_2
                  | exists Bd; split; [done|]; by apply bool_decide_eq_true_2
                  | exists Ws; split; [done|]; by apply bool_decide_eq_true_2
                  | exists Tw; split; [done|]; by apply bool_decide_eq_true_2 ]
          |]).
  by apply elem_of_nil in Hx.
Qed.

Lemma no_tab_universal (x : string) : no_tab x → no_tab (Py.universal_newlines x).
Proof. intros Hx [_ [?|?]]%chars_universal; done. Qed.

(** The fields a read finds in a record joined with tabs. *)
Lemma fields_join (l : list string) :
  l ≠ [] → Forall no_tab l →
  fields (Py.join (String Py.TAB "") l) = Py.universal_newlines <$> l.
Proof.
  intros Hl Hall. unfold fields. rewrite universal_join by done.
  apply split_join; [by destruct l|].
  apply Forall_fmap. eapply Forall_impl; [exact Hall|].
  intros x Hx. by apply no_tab_universal.
Qed.

Lemma universal_clean (l : list string) :
  Forall (λ x, Py.CR ∉ Py.chars x) l → Py.universal_newlines <$> l = l.
Proof.
  induction 1 as [|x l Hx _ IH]; [done|].
  cbn. by rewrite universal_no_CR, IH.
Qed.

Lemma loaded_prefs_join (l : list string) :
  length l = 9%nat → Forall no_tab l →
  Forall (λ x, Py.CR ∉ Py.chars x) l →
  loaded_prefs (Py.join (String Py.TAB "") l)
  = checked_prefs (nth 0 l "") (nth 1 l "") (nth 2 l "") (nth 3 l "")
      (nth 4 l "") (nth 5 l "") (nth 6 l "") (nth 7 l "") (nth 8 l "").
Proof.
  intros Hl Hall Hclean. unfold loaded_prefs, field.
  rewrite fields_join, universal_clean; [done | done | by destruct l | done].
Qed.




Lemma checked_prefs_universal bg fg ft tb fs op bd ws tw i bad :
  acceptable i bad = false →
  let l := [bg; fg; ft; tb; fs; op; bd; ws; tw] in
  let l' := <[position i := Py.universal_newlines bad]> l in
  let l'' := <[position i := bad]> l in
  checked_prefs (nth 0 l' "") (nth 1 l' "") (nth 2 l' "") (nth 3 l' "")
    (nth 4 l' "") (nth 5 l' "") (nth 6 l' "") (nth 7 l' "") (nth 8 l' "")
  = checked_prefs (nth 0 l'' "") (nth 1 l'' "") (nth 2 l'' "") (nth 3 l'' "")
      (nth 4 l'' "") (nth 5 l'' "") (nth 6 l'' "") (nth 7 l'' "") (nth 8 l'' "").
Proof.
  intros Hacc. pose proof (acceptable_universal i bad) as Hu.
  rewrite Hacc in Hu.
  destruct i; cbn in *; unfold checked_prefs; by rewrite ?Hu, ?Hacc.
Qed.

Lemma one_corrupted_field r f bad :
  valid r → no_tab bad → acceptable f bad = false →
  loaded_prefs
    (Py.join (String Py.TAB "") (<[position f := bad]> (record_fields r)))
  = restore f r.
Proof.
  intros Hr Hbad Hacc.
  unfold loaded_prefs, field.
  rewrite fields_join;
    [| by destruct f
     | by apply Forall_insert; [apply valid_no_tab|] ].
  rewrite list_fmap_insert, (universal_clean (record_fields r))
    by by apply valid_clean.
  unfold record_fields. rewrite checked_prefs_universal by done.
  rewrite <- (valid_checked r Hr) at 10.
  destruct Hr as (?&?&?&Htb&Hfs&Hop&?&?&?).
  pose proof (proj1 (Forall_forall _ _) allowed_numbers_print) as Hz.
  destruct (Hz (tabsize r)) as (_ & Dtb & Itb); [rewrite !elem_of_app; by auto|].
  destruct (Hz (editor_font_size r)) as (_ & Dfs & Ifs); [rewrite !elem_of_app; by auto|].
  destruct (Hz (editor_opacity r)) as (_ & Dop & Iop); [rewrite !elem_of_app; by auto|].
  unfold restore, checked_prefs.
  destruct f; simpl in *; rewrite ?Hacc, ?Dtb, ?Dfs, ?Dop, ?Itb, ?Ifs, ?Iop;
    rewrite ?bool_decide_eq_true_2 by done; reflexivity.
Qed.

End SettingsFacts.

(** ** What the window methods leave alone *)

Section Frames.
Context {platform : Pathlib}.

Lemma untouched_refl p : untouched p p.
Proof. by repeat split. Qed.

Lemma untouched_trans p1 p2 p3 :
  untouched p1 p2 → untouched p2 p3 → untouched p1 p3.
Proof. unfold untouched. intros (?&?&?&?) (?&?&?&?). repeat split; congruence. Qed.

Lemma alone_ret {A} (a : A) : leaves_process_alone (mret a).
Proof. intros st. apply untouched_refl. Qed.

Lemma alone_bind {A B} (m : Method A) (k : A → Method B) :
  leaves_process_alone m → (∀ a, leaves_process_alone (k a)) →
  leaves_process_alone (m ≫= k).
Proof.
  intros Hm Hk st. unfold mbind, prog_bind. specialize (Hm st).
  destruct (m st) as [[a|e] st']; cbn in *; [|done].
  eapply untouched_trans; [exact Hm | apply Hk].
Qed.

Lemma untouched_bind {A B} (m : Method A) (k : A → Method B) st :
  untouched st.2 (m st).2.2 → (∀ a, leaves_process_alone (k a)) →
  untouched st.2 ((m ≫= k) st).2.2.
Proof.
  intros Hm Hk. unfold mbind, prog_bind.
  destruct (m st) as [[a|e] st']; cbn in *; [|done].
  eapply untouched_trans; [exact Hm | apply Hk].
Qed.

Lemma alone_bind_shard {B} (k : Shard → Method B) :
  (∀ s p, untouched p (k p (s, p)).2.2) →
  leaves_process_alone (shard ≫= k).
Proof. intros Hk [s p]. apply Hk. Qed.

Lemma alone_self : leaves_process_alone self.
Proof. intros st. apply untouched_refl. Qed.

Lemma alone_shard : leaves_process_alone shard.
Proof. intros st. apply untouched_refl. Qed.

Lemma alone_raise {A} e : leaves_process_alone (raise e : Method A).
Proof. intros st. apply untouched_refl. Qed.

Lemma alone_set_self f : leaves_process_alone (set_self f).
Proof. intros st. apply untouched_refl. Qed.

Lemma alone_set_shard f :
  (∀ p, untouched p (f p)) → leaves_process_alone (set_shard f).
Proof. intros Hf st. apply Hf. Qed.

Hint Resolve alone_ret alone_self alone_shard alone_raise alone_set_self
  untouched_refl : frame.
Hint Extern 2 (leaves_process_alone (_ ≫= _)) =>
  apply alone_bind; [|intros ?] : frame.
Hint Extern 2 (leaves_process_alone (if ?b then _ else _)) =>
  destruct b : frame.
Hint Extern 2 (leaves_process_alone (match ?x with _ => _ end)) =>
  destruct x : frame.
Hint Extern 3 (leaves_process_alone (set_shard _)) =>
  apply alone_set_shard; intros ?; by repeat split : frame.

Lemma alone_widget : leaves_process_alone widget.
Proof. unfold widget. auto 10 with frame. Qed.

Lemma alone_show m : leaves_process_alone (show m).
Proof. unfold show. auto 10 with frame. Qed.

Lemma alone_close_instance : leaves_process_alone close_instance.
Proof. unfold close_instance. auto 10 with frame. Qed.

Hint Resolve alone_widget alone_show alone_close_instance : frame.

Lemma alone_update_window_title t :
  leaves_process_alone (update_window_title t).
Proof. unfold update_window_title. auto 10 with frame. Qed.

Lemma alone_editor_get : leaves_process_alone editor_get.
Proof. unfold editor_get. auto 10 with frame. Qed.

Lemma alone_set_last_save_location d :
  leaves_process_alone (set_last_save_location d).
Proof. unfold set_last_save_location. auto 10 with frame. Qed.

Hint Resolve alone_update_window_title alone_editor_get
  alone_set_last_save_location : frame.

Lemma alone_is_file_saved : leaves_process_alone is_file_saved.
Proof. unfold is_file_saved. auto 20 with frame. Qed.

Lemma alone_save_file sa c : leaves_process_alone (save_file sa c).
Proof.
  unfold save_file.
  apply alone_bind; [auto with frame|intros s].
  destruct (Py.is_empty _); [auto with frame|].
  destruct (negb _); [auto 10 with frame|].
  apply alone_bind; [auto with frame|intros content].
  apply alone_bind_shard. intros s0 p.
  apply untouched_bind; [|auto 20 with frame].
  unfold open_write. destruct (bool_decide _).
  - apply alone_show.
  - by repeat split.
Qed.

Hint Resolve alone_is_file_saved alone_save_file : frame.

Lemma alone_save_window sa c file_name :
  leaves_process_alone (save_window sa c file_name).
Proof. unfold save_window. auto 30 with frame. Qed.

Hint Resolve alone_save_window : frame.

Lemma alone_save_before_closing_instance choice file_name :
  leaves_process_alone (save_before_closing_instance choice file_name).
Proof. unfold save_before_closing_instance. auto 30 with frame. Qed.

End Frames.

(** ** The coordinator *)

Section Coordinator.
Context {platform : Pathlib}.

(** The constructor always returns, with one more window. *)
Lemma ShardInstance_call_opens path p :
  ∃ w p', ShardInstance_call path p = (Return (), p')
          ∧ windows p' = windows p ++ [w] ∧ untouched p p'
          ∧ (root w = true → active_instances p' = active_instances p + 1).
Proof.
  unfold ShardInstance_call, ShardInstance__init__.
  unfold close_instance, show, update_window_title, editor_insert, widget.
  run. rewrite get_editor_settings_spec. cbn.
  destruct path as [|f|f]; cbn.
  2,3: change (open_read (with_settings ?t ?d) ?f ?e) with (open_read d f e);
       destruct (open_read (disk p) (resolve f) UTF_8) as [[]|content]; cbn;
       try destruct (open_read (disk p) (resolve f) ANSI) as [?|content]; cbn.
  all: eexists _, _; split; [reflexivity|]; split; [reflexivity|];
       split; [by repeat split|]; cbn; done.
Qed.

Lemma create_instance_main path p :
  create_instance path true p
  = ShardInstance_call (if differs_from_None path then path else PyNone) p.
Proof.
  unfold create_instance. run. rewrite andb_false_r.
  by destruct (differs_from_None path).
Qed.

Lemma create_instance_handoff path p :
  shard_running_indicator (disk p) = true →
  create_instance path false p
  = (Return (), with_disk (handoff p path (disk p)) p).
Proof.
  intros Hrun. unfold create_instance, handoff, add_instance_to_list. run.
  by rewrite Hrun.
Qed.

Lemma handoff_queue producer path d :
  handoff producer path d
  = with_queue (instance_queue_file d +:+ String Py.LF (format path)) d.
Proof. reflexivity. Qed.

Lemma handoffs_queue calls d :
  handoffs calls d
  = with_queue (instance_queue_file d +:+ queue_text (format ∘ snd <$> calls)) d.
Proof.
  revert d. induction calls as [|[pr path] calls IH]; intros d.
  - cbn. rewrite append_nil_r. by destruct d.
  - change (handoffs ((pr, path) :: calls) d)
      with (handoffs calls (handoff pr path d)).
    rewrite IH, handoff_queue. unfold with_queue. cbn.
    by rewrite append_assoc.
Qed.

Lemma for_each_create reqs p :
  ∃ ws p', for_each reqs (λ ins, create_instance (PyStr ins) true) p
           = (Return (), p')
           ∧ windows p' = windows p ++ ws ∧ length ws = length reqs
           ∧ untouched p p'.
Proof.
  revert p. induction reqs as [|ins reqs IH]; intros p.
  - exists [], p. rewrite app_nil_r. repeat split.
  - cbn [for_each]. unfold mbind, prog_bind. rewrite create_instance_main.
    destruct (ShardInstance_call_opens
                (if differs_from_None (PyStr ins) then PyStr ins else PyNone) p)
      as (w & p1 & -> & Hw & Hp1 & _).
    destruct (IH p1) as (ws & p2 & -> & Hws & Hlen & Hp2).
    exists (w :: ws), p2. split; [done|]. split; [|split].
    + by rewrite Hws, Hw, <- app_assoc.
    + cbn. by rewrite Hlen.
    + by eapply untouched_trans.
Qed.

Lemma handoff_launch paths p :
  shard_running_indicator (disk p) = true →
  for_each paths (λ a, create_instance a false) p
  = (Return (), with_disk (handoffs ((λ a, (p, a)) <$> paths) (disk p)) p).
Proof.
  intros Hrun.
  assert (∀ q paths, shard_running_indicator (disk q) = true →
            for_each paths (λ a, create_instance a false) q
            = (Return (), with_disk (handoffs ((λ a, (p, a)) <$> paths) (disk q)) q))
    as Hgen; [|by apply Hgen].
  clear. intros q paths. revert q.
  induction paths as [|a paths IH]; intros q Hq; cbn.
  - by destruct q.
  - unfold mbind, prog_bind. rewrite create_instance_handoff by done.
    rewrite IH by done. by destruct q.
Qed.

(** The tick, in one piece: drain, open what was requested, look at the
    counter. *)
Lemma tick_spec p :
  let q := instance_queue_file (disk p) in
  ∃ ws p1,
    for_each (requests q) (λ ins, create_instance (PyStr ins) true)
      (with_disk (with_queue "" (disk p)) p) = (Return (), p1)
    ∧ windows p1 = windows p ++ ws ∧ length ws = length (requests q)
    ∧ untouched (with_disk (with_queue "" (disk p)) p) p1
    ∧ open_instances_from_list p
      = if bool_decide (active_instances p1 ≤ 0)
        then (Raise SystemExit, torn_down p1)
        else (Return (), p1).
Proof.
  intros q.
  destruct (for_each_create (requests q) (with_disk (with_queue "" (disk p)) p))
    as (ws & p1 & Hrun & Hws & Hlen & Hp1).
  exists ws, p1. repeat split; try done; try apply Hp1.
  unfold open_instances_from_list. run. fold q.
  unfold requests in Hrun.
  destruct (Py.split Py.LF (Py.strip (Py.universal_newlines q))) as [|l ls].
  - injection Hrun as <-.
    unfold close_shard_if_no_instances_running, master_destroy, sys_exit. run.
    by case_bool_decide.
  - rewrite Hrun.
    unfold close_shard_if_no_instances_running, master_destroy, sys_exit. run.
    by case_bool_decide.
Qed.

End Coordinator.

(** ** The queue file *)

Section QueueFacts.
Import Py.


Lemma not_blank_iff s : ¬ blank s ↔ forallb isspace (chars s) = false.
Proof.
  unfold blank. rewrite strip_empty.
  destruct (forallb isspace (chars s)); split; intros; done.
Qed.





Lemma not_blank_rstrip s : ¬ blank s → ¬ blank (rstrip s).
Proof. unfold blank. by rewrite strip_rstrip. Qed.

Lemma not_blank_rstrip_nonempty s : ¬ blank s → rstrip s ≠ "".
Proof.
  rewrite not_blank_iff. unfold rstrip. intros Hs Hr.
  apply rstrip_by_empty in Hr. congruence.
Qed.


Lemma not_blank_append_l a b : ¬ blank a → ¬ blank (a +:+ b).
Proof.
  rewrite !not_blank_iff, chars_append, forallb_app. by intros ->.
Qed.















Lemma split_chars sep s c :
  c ∈ chars s → c ≠ sep → ∃ l, l ∈ split sep s ∧ c ∈ chars l.
Proof.
  induction s as [|x s IH]; cbn; [by intros ?%elem_of_nil|].
  intros Hc Hsep. case_bool_decide as Hx.
  - apply elem_of_cons in Hc as [->|Hc]; [done|].
    destruct (IH Hc Hsep) as (l & ? & ?). exists l. split; [by right|done].
  - destruct (split sep s) as [|h t] eqn:E.
    + exists (String x ""). split; [by left|].
      apply elem_of_cons in Hc as [->|Hc]; [by left|].
      by destruct (IH Hc Hsep) as (l & ?%elem_of_nil & ?).
    + apply elem_of_cons in Hc as [->|Hc].
      * exists (String x h). split; by left.
      * destruct (IH Hc Hsep) as (l & [->|Hl]%elem_of_cons & ?).
        -- exists (String x h). split; [by left | by right].
        -- exists l. split; [by right; done | done].
Qed.

Lemma forallb_false_elem {A} (f : A → bool) (l : list A) :
  forallb f l = false ↔ ∃ x, x ∈ l ∧ f x = false.
Proof.
  induction l as [|y l IH]; cbn.
  - split; [done | by intros (? & ?%elem_of_nil & _)].
  - destruct (f y) eqn:E; cbn.
    + rewrite IH. split.
      * intros (x & ? & ?). exists x. split; [by right | done].
      * intros (x & [->|?]%elem_of_cons & ?); [congruence | by exists x].
    + split; [|done]. intros _. exists y. split; [by left | done].
Qed.

(** The translation of the read keeps a blank text blank, and no other. *)
Lemma blank_universal q : blank (universal_newlines q) ↔ blank q.
Proof. unfold blank. by rewrite !strip_empty, isspace_universal. Qed.

(** A queue that is not blank holds at least one request. *)
Lemma requests_nonempty q : ¬ blank q → requests q ≠ [].
Proof.
  intros Hq. rewrite <- blank_universal in Hq. unfold requests.
  revert Hq. generalize (universal_newlines q). clear q. intros q Hq.
  change (filter (λ ins, strip ins ≠ "") (split LF (strip q)) ≠ []).
  unfold blank in Hq. rewrite <- strip_idemp in Hq.
  apply not_blank_iff, forallb_false_elem in Hq as (c & Hc & Hsp).
  destruct (split_chars LF (strip q) c) as (l & Hl & Hcl);
    [done | by intros -> |].
  assert (l ∈ filter (λ ins, strip ins ≠ "") (split LF (strip q))) as Hin.
  { apply list_elem_of_filter. split; [|done].
    apply not_blank_iff, forallb_false_elem. by exists c. }
  intros E. rewrite E in Hin. by apply elem_of_nil in Hin.
Qed.

End QueueFacts.

(** ** The windows *)

Section Windows.
Context {platform : Pathlib}.

Lemma reserved_not_space :
  Forall (λ c, Py.isspace c = false) (Py.chars reserved).
Proof. by repeat constructor. Qed.

Lemma reserved_name_checks (fn : string) (ch : ascii) :
  ch ∈ Py.chars fn → ch ∈ Py.chars reserved →
  Py.is_empty (Py.strip fn) = false
  ∧ bool_decide (Py.intersection fn reserved = []) = false.
Proof.
  intros Hfn Hres. split.
  - apply is_empty_false. change (¬ blank fn).
    apply not_blank_iff, forallb_false_elem. exists ch. split; [done|].
    by apply (proj1 (Forall_forall _ _) reserved_not_space).
  - apply bool_decide_eq_false. unfold Py.intersection. intros E.
    assert (ch ∈ filter (λ c, c ∈ Py.chars reserved) (Py.chars fn)) as Hin
      by by apply list_elem_of_filter.
    rewrite E in Hin. by apply elem_of_nil in Hin.
Qed.

Lemma usable_name_checks (fn : string) :
  usable_name fn →
  Py.is_empty (Py.strip fn) = false
  ∧ bool_decide (Py.intersection fn reserved = []) = true.
Proof.
  intros [Hb Hr]. split.
  - by apply is_empty_false.
  - by apply bool_decide_eq_true.
Qed.

(** What [save_file] does once the name has passed the checks. *)
Lemma save_file_writes (s : ShardInstance) (p : Shard)
    (saveAs close_after_saving : bool) :
  root s = true → usable_name (filename s) →
  let target := joinpath (parent (filepath s)) (filename s) in
  let s1 := with_new_file false
              (with_title (filename s +:+ " - " +:+ application_name) s) in
  let p1 :=
    match open_write (disk p) target (editor s +:+ String Py.LF "") with
    | inr d => with_disk d p
    | inl _ =>
        with_messages
          (messages p ++ [showerror "Error" "No permissions to write to file"]) p
    end in
  save_file saveAs close_after_saving (s, p)
  = (Return (Some true),
     if close_after_saving
     then (with_root false s1,
           with_active_instances (active_instances p1 - 1) p1)
     else (s1, p1)).
Proof.
  intros Hroot [E1 E2]%usable_name_checks.
  unfold save_file, editor_get, update_window_title, close_instance, show, widget.
  exec_with Hroot E1. rewrite E2. cbn [negb]. exec_with Hroot E1.
  destruct (open_write _ _ _); exec_with Hroot E1;
    by destruct close_after_saving.
Qed.

Lemma ShardInstance_call_blank (p : Shard) :
  ShardInstance_call PyNone p
  = (Return (),
     with_windows (windows p ++ [blank_window p])
       (with_active_instances (active_instances p + 1) (settled p))).
Proof.
  unfold ShardInstance_call, ShardInstance__init__, update_window_title, widget.
  exec. rewrite get_editor_settings_spec. exec. reflexivity.
Qed.

Lemma ShardInstance_call_loads (path : PathArg) (f content : string) (p : Shard) :
  path = PyStr f ∨ path = PyPath f →
  open_read (disk p) (resolve f) UTF_8 = inr content →
  ShardInstance_call path p
  = (Return (),
     with_windows (windows p ++ [loaded_window p f content])
       (with_active_instances (active_instances p + 1) (settled p))).
Proof.
  intros Hpath Hread.
  unfold ShardInstance_call, ShardInstance__init__, update_window_title,
    editor_insert, widget.
  destruct Hpath as [-> | ->]; exec; rewrite get_editor_settings_spec; exec;
    cbn [filepath with_filepath with_new_file disk with_disk];
    change (open_read (with_settings ?t ?d) ?g ?e) with (open_read d g e);
    rewrite Hread; exec; reflexivity.
Qed.

Lemma ShardInstance_call_refused (path : PathArg) (f : string) (p : Shard) :
  path = PyStr f ∨ path = PyPath f →
  open_read (disk p) (resolve f) UTF_8 = inl PermissionError →
  ShardInstance_call path p
  = (Return (),
     with_windows (windows p ++ [refused_window p f])
       (with_messages
          (messages p ++ [showerror "Error" "No permissions to view file"])
          (with_active_instances (active_instances p - 1) (settled p)))).
Proof.
  intros Hpath Hread.
  unfold ShardInstance_call, ShardInstance__init__, close_instance, show.
  destruct Hpath as [-> | ->]; exec; rewrite get_editor_settings_spec; exec;
    cbn [filepath with_filepath with_new_file disk with_disk];
    change (open_read (with_settings ?t ?d) ?g ?e) with (open_read d g e);
    rewrite Hread; exec; reflexivity.
Qed.

(** C9 (amended). A file name with one of the reserved characters
    / \ : * ? quote < > | makes [save_file] show the warning that names
    them and return at once: the disk is as it was when [save_file] was
    entered, and so are the buffer, the name, the path, the new-file flag
    and the title of the window. *)
Theorem save_file_rejects_reserved_name (s : ShardInstance) (p : Shard)
    (saveAs close_after_saving : bool) (ch : ascii) :
  ch ∈ Py.chars (filename s) → ch ∈ Py.chars reserved →
  save_file saveAs close_after_saving (s, p)
  = (Return None,
     (s, with_messages (messages p ++ [invalid_filename_warning]) p)).
Proof.
  intros Hfn Hres.
  destruct (reserved_name_checks _ _ Hfn Hres) as [E1 E2].
  unfold save_file, show. exec_with E1 E2. reflexivity.
Qed.

(** C4 (amended). On a window with no file behind it ([new_file] true),
    [is_file_saved] answers [False] whatever the buffer holds, so the
    window always counts as unsaved; its side effect is the title, which
    gets the star exactly when the buffer, its trailing newlines dropped,
    is not empty. *)
Theorem is_file_saved_on_unbound_window (s : ShardInstance) (p : Shard) :
  root s = true → new_file s = true →
  let buffer := Py.rstrip_char Py.LF (editor s +:+ String Py.LF "") in
  is_file_saved (s, p)
  = (Return (Some false),
     (with_title ((if negb (Py.is_empty buffer)
                   then "*" +:+ filename s else filename s)
                  +:+ " - " +:+ application_name) s, p))
  ∧ (negb (Py.is_empty buffer) = true ↔ buffer ≠ "")
  ∧ isDirty s p = true.
Proof.
  intros Hroot Hnew buffer.
  assert (is_file_saved (s, p)
          = (Return (Some false),
             (with_title ((if negb (Py.is_empty buffer)
                           then "*" +:+ filename s else filename s)
                          +:+ " - " +:+ application_name) s, p))) as Hrun.
  { unfold is_file_saved, editor_get, update_window_title, widget.
    exec_with Hroot Hnew. fold buffer.
    destruct (negb _); exec_with Hroot Hnew; done. }
  split; [done|]. split.
  - rewrite negb_true_iff. apply is_empty_false.
  - unfold isDirty. by rewrite Hrun.
Qed.

(** C5. What [save_file] does when the write is refused: it shows the
    error, and then goes on as after a write that went through. The title
    loses its star, the window counts as bound, and with
    [close_after_saving] the window is closed and the counter goes down;
    nothing was written. *)
Theorem save_file_refused_goes_on (s : ShardInstance) (p : Shard)
    (saveAs close_after_saving : bool) :
  root s = true → usable_name (filename s) →
  joinpath (parent (filepath s)) (filename s) ∈ unwritable (disk p) →
  let s1 := with_new_file false
              (with_title (filename s +:+ " - " +:+ application_name) s) in
  let p1 := with_messages
              (messages p ++ [showerror "Error" "No permissions to write to file"])
              p in
  save_file saveAs close_after_saving (s, p)
  = (Return (Some true),
     if close_after_saving
     then (with_root false s1,
           with_active_instances (active_instances p - 1) p1)
     else (s1, p1)).
Proof.
  intros Hroot Hname Hdenied. rewrite save_file_writes by done.
  unfold open_write. by rewrite bool_decide_eq_true_2.
Qed.

(** C8 (amended). Saving a buffer to a path the user may write and
    read, then loading that path in a new window, gives the new window the
    text that was written as a text-mode read hands it out: the saved
    buffer followed by the one newline Tk puts at the end of the text it
    hands out, with every carriage return, alone or before a line feed,
    read as one line feed. The loaded text is the saved text with that one
    newline exactly when the buffer holds no carriage return. *)
Theorem save_then_load_round_trip (s : ShardInstance) (p : Shard)
    (saveAs : bool) :
  root s = true → usable_name (filename s) →
  let target := joinpath (parent (filepath s)) (filename s) in
  target ∉ unwritable (disk p) → target ∉ unreadable (disk p) →
  resolve target = target →
  ∃ s' p' w p'',
    save_file saveAs false (s, p) = (Return (Some true), (s', p'))
    ∧ editor s' = editor s
    ∧ files (disk p') !! target = Some (Utf8 (editor s +:+ String Py.LF ""))
    ∧ ShardInstance_call (PyPath target) p' = (Return (), p'')
    ∧ windows p'' = windows p' ++ [w]
    ∧ root w = true ∧ new_file w = false ∧ filepath w = target
    ∧ editor w = Py.universal_newlines (editor s +:+ String Py.LF "")
    ∧ (editor w = editor s +:+ String Py.LF "" ↔ Py.CR ∉ Py.chars (editor s)).
Proof.
  intros Hroot Hname target Hw Hr Hres.
  set (content := editor s +:+ String Py.LF "").
  set (d' := with_files (<[target := Utf8 content]> (files (disk p))) (disk p)).
  assert (open_write (disk p) target content = inr d') as Hwrite.
  { unfold open_write. by rewrite bool_decide_eq_false_2. }
  assert (open_read d' (resolve target) UTF_8
          = inr (Py.universal_newlines content)) as Hread.
  { unfold open_read, d'. cbn [unreadable files with_files].
    rewrite Hres, bool_decide_eq_false_2 by done.
    by rewrite lookup_insert_eq. }
  eexists _, (with_disk d' p),
    (loaded_window (with_disk d' p) target (Py.universal_newlines content)), _.
  split; [|split; [|split; [|split]]].
  - rewrite save_file_writes by done. fold target content. by rewrite Hwrite.
  - reflexivity.
  - cbn. apply lookup_insert_eq.
  - by apply (ShardInstance_call_loads (PyPath target) target
                (Py.universal_newlines content)); [right|].
  - split; [reflexivity|]. cbn [root new_file filepath editor loaded_window].
    rewrite Hres. split_and!; try done.
    split.
    + intros Heq Hcr.
      assert (Py.CR ∈ Py.chars (Py.universal_newlines content)) as Hin.
      { rewrite Heq. unfold content. rewrite chars_append.
        apply elem_of_app. by left. }
      by apply chars_universal in Hin as [? _].
    + intros Hcr. apply universal_no_CR. unfold content.
      rewrite chars_append. intros [?|Hc]%elem_of_app; [done|].
      cbn in Hc. by apply elem_of_cons in Hc as [?|?%elem_of_nil].
Qed.

End Windows.

(** *** The window theorems at concrete inputs *)

(** C9, the claim as stated, fails when the name comes from the save
    dialog: asked to save [notes_window] as [/tmp/bad:name.txt],
    [save_window] has rebound the window to that name and written the
    last-save-location file before [save_file] refuses the name. *)
Lemma save_dialog_writes_before_rejecting :
  let '(_, (s', p')) :=
    save_window (platform := Posix.paths) true false "/tmp/bad:name.txt"
      (notes_window, one_window home_disk) in
  messages p' = [invalid_filename_warning]
  ∧ save_location_file home_disk = "/home/u"
  ∧ save_location_file (disk p') = "/tmp"
  ∧ filename notes_window = "notes.txt"
  ∧ filename s' = "bad:name.txt"
  ∧ files (disk p') !! "/tmp/bad:name.txt" = None.
Proof. vm_compute. by repeat split. Qed.

Lemma save_file_rejects_reserved_name_witness :
  let s := with_filename "bad:name.txt" notes_window in
  ":"%char ∈ Py.chars (filename s) ∧ ":"%char ∈ Py.chars reserved
  ∧ save_file (platform := Posix.paths) false false (s, one_window home_disk)
    = (Return None,
       (s, with_messages [invalid_filename_warning] (one_window home_disk))).
Proof.
  assert (":"%char ∈ Py.chars "bad:name.txt") as H1
    by (apply (bool_decide_unpack _); vm_compute; exact I).
  assert (":"%char ∈ Py.chars reserved) as H2
    by (apply (bool_decide_unpack _); vm_compute; exact I).
  split; [exact H1|]. split; [exact H2|].
  exact (save_file_rejects_reserved_name (platform := Posix.paths)
           (with_filename "bad:name.txt" notes_window) (one_window home_disk)
           false false ":"%char H1 H2).
Defined.

(** C4, the claim as stated, fails on a fresh window: its buffer is empty,
    and [is_file_saved] still answers [False], that is, unsaved. *)
Lemma unbound_empty_buffer_reports_unsaved :
  new_file untitled_window = true
  ∧ Py.rstrip_char Py.LF (editor untitled_window +:+ String Py.LF "") = ""
  ∧ (is_file_saved (platform := Posix.paths)
       (untitled_window, one_window home_disk)).1 = Return (Some false)
  ∧ isDirty (platform := Posix.paths) untitled_window (one_window home_disk)
    = true.
Proof. by vm_compute. Qed.

Lemma is_file_saved_on_unbound_window_witness :
  root untitled_window = true ∧ new_file untitled_window = true
  ∧ is_file_saved (platform := Posix.paths) (untitled_window, one_window home_disk)
    = (Return (Some false), (untitled_window, one_window home_disk)).
Proof.
  split; [reflexivity|]. split; [reflexivity|].
  exact (proj1 (is_file_saved_on_unbound_window (platform := Posix.paths)
                  untitled_window (one_window home_disk) eq_refl eq_refl)).
Defined.

Lemma notes_name_usable : usable_name (filename notes_window).
Proof.
  split; [|by vm_compute]. unfold blank. by vm_compute.
Qed.

(** C5 at a concrete input: [notes_window] holds an edited buffer, its file
    may not be written, and the save was asked for while closing. The error
    is shown, and the window is closed with its text unsaved. *)
Lemma save_file_refused_goes_on_witness :
  let '(r, (s', p')) :=
    save_file (platform := Posix.paths) false true
      (notes_window, one_window home_disk) in
  r = Return (Some true)
  ∧ messages p' = [showerror "Error" "No permissions to write to file"]
  ∧ root s' = false
  ∧ root_title s' = "notes.txt - Shard"
  ∧ active_instances p' = 0
  ∧ files (disk p') !! "/home/u/notes.txt" = Some (Utf8 "hello")
  ∧ editor s' = "hello world".
Proof.
  rewrite (save_file_refused_goes_on (platform := Posix.paths)
             notes_window (one_window home_disk) false true eq_refl
             notes_name_usable);
    [by vm_compute | apply (bool_decide_unpack _); by vm_compute].
Defined.

Lemma save_then_load_round_trip_witness :
  ∃ s' p' w p'',
    save_file (platform := Posix.paths) false false
      (notes_window, one_window empty_disk) = (Return (Some true), (s', p'))
    ∧ editor s' = "hello world"
    ∧ files (disk p') !! "/home/u/notes.txt"
      = Some (Utf8 ("hello world" +:+ String Py.LF ""))
    ∧ ShardInstance_call (platform := Posix.paths)
        (PyPath "/home/u/notes.txt") p' = (Return (), p'')
    ∧ windows p'' = windows p' ++ [w]
    ∧ root w = true ∧ new_file w = false ∧ filepath w = "/home/u/notes.txt"
    ∧ editor w = Py.universal_newlines ("hello world" +:+ String Py.LF "")
    ∧ (editor w = "hello world" +:+ String Py.LF ""
       ↔ Py.CR ∉ Py.chars "hello world").
Proof.
  apply (save_then_load_round_trip (platform := Posix.paths)
           notes_window (one_window empty_disk) false eq_refl notes_name_usable).
  - apply (bool_decide_unpack _). by vm_compute.
  - apply (bool_decide_unpack _). by vm_compute.
  - reflexivity.
Defined.

(** C8, the claim as stated, fails for a buffer with a carriage return:
    [cr_window] holds the two lines a and b with a carriage return between
    them; saved and loaded again, the text has a line feed there, and
    differs from what was saved by more than a newline at its end. *)
Lemma carriage_return_is_not_loaded_back :
  let saved_state :=
    (save_file (platform := Posix.paths) false false
       (cr_window, one_window empty_disk)).2 in
  let loaded :=
    (ShardInstance_call (platform := Posix.paths)
       (PyPath "/home/u/draft.txt") saved_state.2).2 in
  editor saved_state.1 = "a" +:+ String Py.CR "b"
  ∧ editor <$> last (windows loaded)
    = Some ("a" +:+ String Py.LF ("b" +:+ String Py.LF ""))
  ∧ Py.rstrip_char Py.LF ("a" +:+ String Py.LF ("b" +:+ String Py.LF ""))
    ≠ Py.rstrip_char Py.LF ("a" +:+ String Py.CR "b").
Proof. by vm_compute. Qed.

(** ** The launch, the queue and the life of the process *)

Section Process.
Context {platform : Pathlib}.

Lemma requests_blank q : blank q → requests q = [].
Proof.
  intros Hq%blank_universal. unfold requests, blank in *. by rewrite Hq.
Qed.

Lemma tick_queue_empty p :
  instance_queue_file (disk (open_instances_from_list p).2) = "".
Proof.
  destruct (tick_spec p) as (ws & p1 & _ & _ & _ & (_ & _ & _ & Hq) & ->).
  by case_bool_decide.
Qed.

Lemma tick_windows_length p :
  length (windows (open_instances_from_list p).2)
  = (length (windows p) + length (requests (instance_queue_file (disk p))))%nat.
Proof.
  destruct (tick_spec p) as (ws & p1 & _ & Hws & Hlen & _ & ->).
  case_bool_decide; cbn; rewrite ?length_fmap, Hws, length_app; lia.
Qed.

Lemma for_each_fmap {S A B} (g : A → B) (l : list A) (body : B → Prog S unit) :
  for_each (g <$> l) body = for_each l (λ x, body (g x)).
Proof. induction l as [|x l IH]; cbn; [done | by rewrite IH]. Qed.

Lemma launch_creates argv p :
  shard_running_indicator (disk p) = true →
  match tail argv with
  | [] => create_instance PyNone false
  | fs => for_each fs (λ f, create_instance (PyPath (resolve f)) false)
  end p
  = (Return (),
     with_disk (handoffs ((λ a, (p, a)) <$> launch_args argv) (disk p)) p).
Proof.
  intros Hrun. rewrite <- handoff_launch by done. unfold launch_args.
  destruct (tail argv) as [|f fs].
  - cbn [for_each]. unfold mbind, prog_bind.
    by rewrite create_instance_handoff.
  - by rewrite for_each_fmap.
Qed.

(** The script, when the marker exists at launch. *)
Lemma main_with_marker argv others d :
  shard_running_indicator d = true →
  let me := Shard_call argv d in
  let d1 := handoffs ((λ a, (me, a)) <$> launch_args argv) d in
  main argv others d
  = if Py.is_empty (Py.strip (instance_queue_file (others d1)))
    then with_exited true (with_master false (with_disk (others d1) me))
    else match open_instances_from_list
                 (with_disk (with_indicator true (others d1)) me) with
         | (Return _, p) => if master p then p else with_exited true p
         | (Raise _, p) => with_exited true p
         end.
Proof.
  intros Hrun me d1. unfold main. fold me.
  unfold mbind at 1, prog_bind at 1.
  rewrite (launch_creates argv me) by done.
  change (disk me) with d. fold d1.
  unfold start, is_foreign_file_empty, master_destroy. exec.
  cbn [disk with_disk].
  assert (shard_running_indicator d1 = true) as ->.
  { unfold d1. by rewrite handoffs_queue. }
  exec. cbn [disk with_disk]. rewrite strip_universal_empty.
  destruct (Py.is_empty _); cbn [negb]; exec; [done|].
  cbn [disk with_disk].
  by destruct (open_instances_from_list _) as [[] ?].
Qed.

(** C1 (amended). A process launched while the marker exists makes no
    window in [create_instance]: each request is appended to the queue
    file. What [start] then does depends on the queue after its wait.
    If the queue is blank, as it is once a primary process has run a tick
    (which opens the requests in that process), the new process ends
    without ever making a window. If the queue still holds a request,
    the new process takes over: it makes the marker anew, whatever became
    of it during the wait, and runs a tick of its own, which drains the
    queue and opens the requests; it goes on, with the marker there, if
    that leaves its counter above zero, and otherwise removes the marker
    and ends. *)
Theorem launch_while_marker_exists (argv : list string)
    (others : Disk → Disk) (d : Disk) :
  shard_running_indicator d = true →
  let me := Shard_call argv d in
  let d1 := handoffs ((λ a, (me, a)) <$> launch_args argv) d in
  let p := main argv others d in
  for_each (launch_args argv) (λ a, create_instance a false) me
  = (Return (), with_disk d1 me)
  ∧ windows (with_disk d1 me) = []
  ∧ instance_queue_file d1
    = instance_queue_file d +:+ queue_text (format <$> launch_args argv)
  ∧ (blank (instance_queue_file (others d1)) →
       exited p = true ∧ windows p = [] ∧ disk p = others d1)
  ∧ (∀ primary, others = primary_tick primary →
       exited p = true ∧ windows p = []
       ∧ length (windows (open_instances_from_list (with_disk d1 primary)).2)
         = (length (windows primary)
            + length (requests (instance_queue_file d1)))%nat)
  ∧ (¬ blank (instance_queue_file (others d1)) →
       p = match open_instances_from_list
                   (with_disk (with_indicator true (others d1)) me) with
           | (Return _, q) => q
           | (Raise _, q) => with_exited true q
           end
       ∧ windows p ≠ []
       ∧ length (windows p)
         = length (requests (instance_queue_file (others d1)))
       ∧ instance_queue_file (disk p) = ""
       ∧ (exited p = true ↔ active_instances p ≤ 0)
       ∧ shard_running_indicator (disk p) = negb (exited p)
       ∧ master p = negb (exited p)).
Proof.
  intros Hrun me d1 p.
  assert (blank (instance_queue_file (others d1)) →
          exited p = true ∧ windows p = [] ∧ disk p = others d1) as Hblank.
  { intros Hb. unfold p. rewrite main_with_marker by done. fold me d1.
    apply is_empty_true in Hb. by rewrite Hb. }
  split; [by apply handoff_launch|]. split; [done|]. split.
  { unfold d1. rewrite handoffs_queue. cbn. by rewrite <- list_fmap_compose. }
  split; [done|]. split.
  - intros primary ->. split; [|split].
    + apply Hblank. unfold blank, primary_tick. by rewrite tick_queue_empty.
    + apply Hblank. unfold blank, primary_tick. by rewrite tick_queue_empty.
    + by rewrite tick_windows_length.
  - intros Hnb.
    set (taken := with_disk (with_indicator true (others d1)) me).
    destruct (tick_spec taken)
      as (ws & p2 & _ & Hws & Hlen & (He & Hm & Hi & Hq) & Htick).
    cbn in Hws, He, Hm, Hi, Hq.
    change (instance_queue_file (disk taken))
      with (instance_queue_file (others d1)) in Hlen.
    assert (p = match open_instances_from_list taken with
                | (Return _, q) => q
                | (Raise _, q) => with_exited true q
                end) as Hp.
    { unfold p. rewrite main_with_marker by done. fold me d1 taken.
      apply is_empty_false in Hnb. rewrite Hnb, Htick.
      case_bool_decide; [done|]. by rewrite Hm. }
    split; [exact Hp|]. rewrite Hp, Htick.
    apply requests_nonempty in Hnb.
    assert (ws ≠ []) as Hne.
    { intros ->. cbn in Hlen.
      by destruct (requests (instance_queue_file (others d1))). }
    case_bool_decide as Hn; cbn.
    + rewrite Hws, length_fmap. split_and!; try done. by destruct ws.
    + rewrite Hws, He, Hm, Hi, Hq. by split_and!.
Qed.


(** C3. The process ends, and with it the marker, on a tick of the poll
    loop that finds the counter at zero or below after it has served the
    queue, and nowhere else. Closing a window lowers the counter and
    leaves the process, its Tk root and the marker as they are, whichever
    way the close goes; the tick that follows ends the process if no
    request has arrived meanwhile. *)
Theorem process_ends_on_the_tick_that_sees_no_window
    (s : ShardInstance) (p : Shard) (choice : option bool) (file_name : string) :
  exited p = false →
  (active_instances (close_instance (s, p)).2.2 = active_instances p - 1
   ∧ untouched p (close_instance (s, p)).2.2)
  ∧ untouched p (save_before_closing_instance choice file_name (s, p)).2.2
  ∧ (let '(r, p') := open_instances_from_list p in
     (exited p' = true ↔ active_instances p' ≤ 0)
     ∧ (active_instances p' ≤ 0 →
          r = Raise SystemExit ∧ master p' = false
          ∧ shard_running_indicator (disk p') = false)
     ∧ (¬ active_instances p' ≤ 0 →
          r = Return () ∧ master p' = master p
          ∧ shard_running_indicator (disk p')
            = shard_running_indicator (disk p)))
  ∧ (active_instances p = 1 → blank (instance_queue_file (disk p)) →
     let p1 := (close_instance (s, p)).2.2 in
     exited p1 = false
     ∧ shard_running_indicator (disk p1) = shard_running_indicator (disk p)
     ∧ (open_instances_from_list p1).1 = Raise SystemExit
     ∧ exited (open_instances_from_list p1).2 = true
     ∧ shard_running_indicator (disk (open_instances_from_list p1).2) = false).
Proof.
  intros Hlive. split; [|split; [|split]].
  - split; [reflexivity | apply (alone_close_instance (s, p))].
  - apply (alone_save_before_closing_instance choice file_name (s, p)).
  - destruct (tick_spec p) as (ws & p1 & _ & _ & _ & (He & Hm & Hi & _) & ->).
    cbn in He, Hm, Hi.
    case_bool_decide as Hn; cbn.
    + split; [done|]. split; [done|]. by intros [].
    + split; [split; [congruence | done]|]. split; [done|]. by intros _.
  - intros Hone Hblank p1.
    assert (open_instances_from_list p1
            = (Raise SystemExit,
               torn_down (with_disk (with_queue "" (disk p1)) p1))) as ->.
    { destruct (tick_spec p1) as (ws & p2 & Hrun & _ & _ & _ & ->).
      assert (requests (instance_queue_file (disk p1)) = []) as Hnone
        by (apply requests_blank; exact Hblank).
      rewrite Hnone in Hrun. injection Hrun as <-.
      rewrite bool_decide_eq_true_2; [done|].
      change (active_instances p - 1 ≤ 0). lia. }
    by cbn.
Qed.


End Process.

(** *** Reloading the settings *)


Section SettingsReload.
Context {platform : Pathlib} {interp : Interpreter}.

Lemma refused_short (v : string) :
  (String.length v ≤ 640)%nat → refused_by_int v = false.
Proof.
  intros Hv. unfold refused_by_int.
  destruct int_max_str_digits_allowed as [->|Hcap]; [done|].
  replace (int_max_str_digits <? String.length v)%nat with false
    by (symmetry; apply Nat.ltb_ge; lia).
  by rewrite andb_false_r.
Qed.

Lemma allowed_numbers_short :
  Forall (λ n, (String.length (Py.str n) ≤ 3)%nat)
    (tabsize_allowed ++ sizes ++ opacity).
Proof. apply (bool_decide_unpack _). by vm_compute. Qed.


Lemma fields_settings_text (r : Settings) :
  valid r → fields (settings_text r) = record_fields r.
Proof.
  intros Hr. unfold settings_text.
  rewrite fields_join, universal_clean;
    [done | by apply valid_clean | done | by apply valid_no_tab].
Qed.

Lemma valid_convertible (r : Settings) :
  valid r → convertible (settings_text r).
Proof.
  intros Hr. unfold convertible, field.
  rewrite fields_settings_text by done.
  destruct Hr as (_&_&_&Htb&Hfs&Hop&_).
  pose proof (proj1 (Forall_forall _ _) allowed_numbers_short) as Hz.
  cbn [position record_fields nth].
  split_and!; apply refused_short;
    (etrans; [apply Hz; rewrite !elem_of_app; by auto | lia]).
Qed.


(** Whatever the limit, the program runs as it does without one as long
    as [int] accepts the stored record; and the record a first read has
    written is accepted. *)
Lemma get_editor_settings_limit_free (s : ShardInstance) (p : Shard) :
  convertible (settings_file (disk p)) →
  get_editor_settings (s, p)
  = get_editor_settings (interp := no_digit_limit) (s, p).
Proof.
  intros Hconv. rewrite get_editor_settings_within by done.
  symmetry. by apply get_editor_settings_within.
Qed.

Lemma ShardInstance_call_limit_free (path : PathArg) (p : Shard) :
  convertible (settings_file (disk p)) →
  ShardInstance_call path p
  = ShardInstance_call (interp := no_digit_limit) path p.
Proof.
  intros Hconv. unfold ShardInstance_call, ShardInstance__init__. exec.
  by rewrite (get_editor_settings_limit_free _ p Hconv).
Qed.


End SettingsReload.




(** *** The process theorems at concrete inputs *)

(** C1, the claim as stated, fails when the marker is there and no process
    serves the queue during the wait: the new process finds its own request
    still in the queue, drains it and opens the window itself. *)
Lemma stale_marker_launch_opens_its_own_window :
  let p := main (platform := Posix.paths) ["/opt/shard/main.py"; "/tmp/a.txt"]
             id stale_disk in
  shard_running_indicator stale_disk = true
  ∧ exited p = false
  ∧ filepath <$> windows p = ["/tmp/a.txt"]
  ∧ root <$> windows p = [true]
  ∧ active_instances p = 1
  ∧ instance_queue_file (disk p) = "".
Proof. vm_compute. by repeat split. Qed.

Lemma launch_while_marker_exists_witness :
  let argv := ["/opt/shard/main.py"; "/tmp/a.txt"] in
  let others := primary_tick (platform := Posix.paths) (one_window home_disk) in
  shard_running_indicator home_disk = true
  ∧ exited (main (platform := Posix.paths) argv others home_disk) = true
  ∧ windows (main (platform := Posix.paths) argv others home_disk) = [].
Proof.
  intros argv others. split; [reflexivity|].
  destruct (launch_while_marker_exists (platform := Posix.paths)
              argv others home_disk eq_refl)
    as (_ & _ & _ & _ & Hprimary & _).
  destruct (Hprimary (one_window home_disk) eq_refl) as (He & Hw & _).
  by split.
Defined.




Lemma process_ends_on_the_tick_that_sees_no_window_witness :
  let p := one_window home_disk in
  let p1 := (close_instance (notes_window, p)).2.2 in
  exited p = false
  ∧ active_instances p1 = 0
  ∧ exited p1 = false
  ∧ shard_running_indicator (disk p1) = true
  ∧ (open_instances_from_list (platform := Posix.paths) p1).1 = Raise SystemExit
  ∧ exited (open_instances_from_list (platform := Posix.paths) p1).2 = true
  ∧ shard_running_indicator
      (disk (open_instances_from_list (platform := Posix.paths) p1).2) = false.
Proof.
  intros p p1. split; [reflexivity|].
  destruct (process_ends_on_the_tick_that_sees_no_window
              (platform := Posix.paths) notes_window p None "" eq_refl)
    as ((Hcount & _) & _ & _ & Hscenario).
  destruct (Hscenario eq_refl eq_refl) as (H1 & H2 & H3 & H4 & H5).
  split; [exact Hcount|]. by repeat split.
Defined.

(** C6 at a concrete input: the primary process has [notes_window] open
    and finds in the queue a document it may not read. The constructor
    closes the window that never counted, the counter falls from 1 to 0,
    and the same tick ends the process under the window that is open. *)
Lemma refused_handoff_ends_the_process :
  let p := one_window secret_request in
  let '(r, p') := open_instances_from_list (platform := Posix.paths) p in
  root <$> windows p = [true]
  ∧ active_instances p = 1
  ∧ r = Raise SystemExit
  ∧ exited p' = true
  ∧ master p' = false
  ∧ shard_running_indicator (disk p') = false
  ∧ active_instances p' = 0
  ∧ filepath <$> windows p' = ["/home/u/notes.txt"; "/root/secret.txt"]
  ∧ messages p' = [showerror "Error" "No permissions to view file"].
Proof. vm_compute. by repeat split. Qed.


(** * Further properties of the program *)

(** ** The check of a window against its file *)

Section SavedCheck.
Context {platform : Pathlib}.

Lemma is_file_saved_unbound_run (s : ShardInstance) (p : Shard) :
  root s = true → new_file s = true →
  is_file_saved (s, p)
  = (Return (Some false),
     (if negb (Py.is_empty (Py.rstrip_char Py.LF (buffer_text s)))
      then starred s else unstarred s, p)).
Proof.
  intros Hroot Hnew.
  unfold is_file_saved, editor_get, update_window_title, widget.
  exec_with Hroot Hnew. fold (buffer_text s).
  destruct (negb _); exec_with Hroot Hnew; done.
Qed.

Lemma is_file_saved_bound_run (s : ShardInstance) (p : Shard) :
  root s = true → new_file s = false →
  is_file_saved (s, p)
  = match open_read (disk p) (on_disk_path s) UTF_8 with
    | inl FileNotFoundError => (Return (Some false), (with_new_file true s, p))
    | inl PermissionError =>
        (Return None,
         (closed s,
          shown (showerror "Error" "No permissions to view file") (one_less p)))
    | _ =>
        match decoded (disk p) (on_disk_path s) with
        | Some content =>
            let same := bool_decide (same_text content (buffer_text s)) in
            (Return (Some same), (if same then unstarred s else starred s, p))
        | None =>
            (Return None,
             (closed s,
              shown (showerror "Error" "An unexpected error has occurred")
                (one_less p)))
        end
    end.
Proof.
  intros Hroot Hnew.
  unfold is_file_saved, editor_get, update_window_title, close_instance, show,
    widget, decoded, on_disk_path.
  exec_with Hroot Hnew.
  destruct (open_read (disk p) _ UTF_8) as [[]|content] eqn:E1;
    exec_with Hroot Hnew; try done.
  - destruct (open_read (disk p) _ ANSI) as [?|content] eqn:E2;
      exec_with Hroot Hnew; [done|].
    destruct (decide (same_text content (buffer_text s))) as [Hs|Hs].
    + rewrite (bool_decide_eq_true_2 _ Hs). unfold same_text, buffer_text in Hs.
      rewrite (bool_decide_eq_true_2 _ Hs). cbn [negb]. by exec_with Hroot Hnew.
    + rewrite (bool_decide_eq_false_2 _ Hs). unfold same_text, buffer_text in Hs.
      rewrite (bool_decide_eq_false_2 _ Hs). cbn [negb]. by exec_with Hroot Hnew.
  - destruct (decide (same_text content (buffer_text s))) as [Hs|Hs].
    + rewrite (bool_decide_eq_true_2 _ Hs). unfold same_text, buffer_text in Hs.
      rewrite (bool_decide_eq_true_2 _ Hs). cbn [negb]. by exec_with Hroot Hnew.
    + rewrite (bool_decide_eq_false_2 _ Hs). unfold same_text, buffer_text in Hs.
      rewrite (bool_decide_eq_false_2 _ Hs). cbn [negb]. by exec_with Hroot Hnew.
Qed.

Lemma decoded_settled (p : Shard) (f : string) :
  decoded (disk (settled p)) f = decoded (disk p) f.
Proof. reflexivity. Qed.

Lemma ShardInstance_call_decoded (path : PathArg) (f content : string) (p : Shard) :
  path = PyStr f ∨ path = PyPath f →
  decoded (disk p) (resolve f) = Some content →
  ShardInstance_call path p = (Return (), counted (loaded_window p f content) p).
Proof.
  intros Hpath Hread. unfold decoded in Hread.
  unfold ShardInstance_call, ShardInstance__init__, update_window_title,
    editor_insert, close_instance, show, widget.
  destruct Hpath as [-> | ->]; exec; rewrite get_editor_settings_spec; exec;
    cbn [filepath with_filepath with_new_file disk with_disk];
    change (open_read (with_settings ?t ?d) ?g ?e) with (open_read d g e);
    destruct (open_read (disk p) (resolve f) UTF_8) as [[]|c1]; try done;
    try (destruct (open_read (disk p) (resolve f) ANSI) as [?|c2]; try done);
    injection Hread as <-; exec; reflexivity.
Qed.

Lemma ShardInstance_call_missing (path : PathArg) (f : string) (p : Shard) :
  path = PyStr f ∨ path = PyPath f →
  open_read (disk p) (resolve f) UTF_8 = inl FileNotFoundError →
  ShardInstance_call path p = (Return (), counted (new_named_window p f) p).
Proof.
  intros Hpath Hread.
  unfold ShardInstance_call, ShardInstance__init__, update_window_title,
    editor_insert, widget.
  destruct Hpath as [-> | ->]; exec; rewrite get_editor_settings_spec; exec;
    cbn [filepath with_filepath with_new_file disk with_disk];
    change (open_read (with_settings ?t ?d) ?g ?e) with (open_read d g e);
    rewrite Hread; exec; reflexivity.
Qed.

Lemma is_file_saved_readable_run (s : ShardInstance) (p : Shard)
    (content : string) :
  root s = true → new_file s = false →
  decoded (disk p) (on_disk_path s) = Some content →
  is_file_saved (s, p)
  = (Return (Some (bool_decide (same_text content (buffer_text s)))),
     (if bool_decide (same_text content (buffer_text s))
      then unstarred s else starred s, p)).
Proof.
  intros Hroot Hnew Hread. rewrite is_file_saved_bound_run by done.
  rewrite Hread. unfold decoded in Hread.
  by destruct (open_read (disk p) (on_disk_path s) UTF_8) as [[]|].
Qed.

Lemma is_file_saved_clean (s : ShardInstance) (p : Shard) :
  root s = true → nothing_unsaved s p →
  is_file_saved (s, p) = (Return (Some (negb (new_file s))), (unstarred s, p)).
Proof.
  intros Hroot. unfold nothing_unsaved. destruct (new_file s) eqn:Hnew.
  - intros E. rewrite is_file_saved_unbound_run by done. by rewrite E.
  - intros (content & Hread & Hsame).
    rewrite (is_file_saved_readable_run s p content) by done.
    by rewrite bool_decide_eq_true_2.
Qed.

Lemma is_file_saved_dirty (s : ShardInstance) (p : Shard) :
  root s = true → unsaved_text s p →
  is_file_saved (s, p) = (Return (Some false), (starred s, p)).
Proof.
  intros Hroot. unfold unsaved_text. destruct (new_file s) eqn:Hnew.
  - intros E%is_empty_false. rewrite is_file_saved_unbound_run by done.
    by rewrite E.
  - intros (content & Hread & Hsame).
    rewrite (is_file_saved_readable_run s p content) by done.
    by rewrite bool_decide_eq_false_2.
Qed.

(** X3. On a window bound to a file that can be read, under UTF-8 or
    else under the ANSI code page, [is_file_saved] answers whether the file
    and the buffer hold the same text up to trailing newlines, puts the
    star in the title exactly when they do not, and changes nothing else:
    not the buffer, not the disk, not the counter. *)
Theorem saved_check_compares_buffer_with_file (s : ShardInstance) (p : Shard)
    (content : string) :
  root s = true → new_file s = false →
  decoded (disk p) (on_disk_path s) = Some content →
  is_file_saved (s, p)
  = (Return (Some (bool_decide (same_text content (buffer_text s)))),
     (if bool_decide (same_text content (buffer_text s))
      then unstarred s else starred s, p)).
Proof. apply is_file_saved_readable_run. Qed.

(** X4. When the file of a bound window is gone, [is_file_saved] makes
    the window a new file again and answers [False]; the window stays
    open with its buffer and its title, and no message is shown. From then
    on it is checked as a window without a file. *)
Theorem saved_check_demotes_when_file_is_gone (s : ShardInstance) (p : Shard) :
  root s = true → new_file s = false →
  open_read (disk p) (on_disk_path s) UTF_8 = inl FileNotFoundError →
  is_file_saved (s, p) = (Return (Some false), (with_new_file true s, p))
  ∧ is_file_saved (with_new_file true s, p)
    = (Return (Some false),
       (if negb (Py.is_empty (Py.rstrip_char Py.LF (buffer_text s)))
        then starred (with_new_file true s)
        else unstarred (with_new_file true s), p)).
Proof.
  intros Hroot Hnew Hread. split.
  - rewrite is_file_saved_bound_run by done. by rewrite Hread.
  - by rewrite is_file_saved_unbound_run.
Qed.

(** X5. When the file of a bound window may not be read, or decodes under
    neither encoding, [is_file_saved] closes the window: the counter goes
    down by one, an error box is shown, the answer is [None], and the disk
    is left alone. *)
Theorem saved_check_closes_window_it_cannot_read (s : ShardInstance) (p : Shard) :
  root s = true → new_file s = false →
  decoded (disk p) (on_disk_path s) = None →
  open_read (disk p) (on_disk_path s) UTF_8 ≠ inl FileNotFoundError →
  ∃ message,
    is_file_saved (s, p)
    = (Return None, (closed s, shown (showerror "Error" message) (one_less p))).
Proof.
  intros Hroot Hnew Hread Hthere. rewrite is_file_saved_bound_run by done.
  rewrite Hread. unfold decoded in Hread.
  destruct (open_read (disk p) (on_disk_path s) UTF_8) as [[]|]; try done;
    eexists; reflexivity.
Qed.

(** X6. Asking again gives the same answer: when [is_file_saved] has
    answered a boolean, a second call in the state the first one left
    answers the same boolean, and the state the second call leaves is not
    changed by any further call. *)
Theorem saved_check_repeats_its_answer (s : ShardInstance) (p : Shard) (b : bool) :
  root s = true →
  (is_file_saved (s, p)).1 = Return (Some b) →
  let once := (is_file_saved (s, p)).2 in
  let twice := (is_file_saved once).2 in
  (is_file_saved once).1 = Return (Some b)
  ∧ is_file_saved twice = (Return (Some b), twice).
Proof.
  intros Hroot.
  assert (∀ s, root s = true → new_file s = true →
            let once := (is_file_saved (s, p)).2 in
            (is_file_saved (s, p)).1 = Return (Some false)
            ∧ is_file_saved once = (Return (Some false), once)) as Hunbound.
  { clear. intros s Hroot Hnew.
    rewrite is_file_saved_unbound_run by done. cbn [fst snd]. split; [done|].
    destruct (negb (Py.is_empty (Py.rstrip_char Py.LF (buffer_text s)))) eqn:E;
      rewrite is_file_saved_unbound_run by done;
      change (buffer_text (starred s)) with (buffer_text s);
      change (buffer_text (unstarred s)) with (buffer_text s);
      by rewrite E. }
  destruct (new_file s) eqn:Hnew.
  - destruct (Hunbound s Hroot Hnew) as [Hr Hs]. rewrite Hr. intros [= <-].
    cbn zeta. rewrite !Hs. by cbn [fst snd].
  - rewrite is_file_saved_bound_run by done.
    assert (∀ content,
      decoded (disk p) (on_disk_path s) = Some content →
      let same := bool_decide (same_text content (buffer_text s)) in
      let s' := if same then unstarred s else starred s in
      is_file_saved (s', p) = (Return (Some same), (s', p))) as Hbound.
    { intros content Hread. cbn zeta.
      destruct (bool_decide (same_text content (buffer_text s))) eqn:E;
        rewrite (is_file_saved_readable_run _ p content) by done;
        change (buffer_text (unstarred s)) with (buffer_text s);
        change (buffer_text (starred s)) with (buffer_text s);
        by rewrite E. }
    destruct (open_read (disk p) (on_disk_path s) UTF_8) as [[]|content] eqn:E1.
    + by intros.
    + cbn [fst snd]. intros [= <-].
      destruct (Hunbound (with_new_file true s) Hroot eq_refl) as [Hr Hs].
      cbn zeta in Hs. split; [done|]. by rewrite Hs.
    + destruct (decoded (disk p) (on_disk_path s)) as [content|] eqn:E2;
        [|by intros].
      cbn [fst snd]. intros [= <-]. cbn zeta.
      rewrite !(Hbound content eq_refl). cbn [fst snd].
      split; [done|]. apply (Hbound content eq_refl).
    + destruct (decoded (disk p) (on_disk_path s)) as [c|] eqn:E2;
        [|by intros].
      cbn [fst snd]. intros [= <-]. cbn zeta.
      rewrite !(Hbound c eq_refl). cbn [fst snd].
      split; [done|]. apply (Hbound c eq_refl).
Qed.

End SavedCheck.

(** ** Saving and closing a window *)

Section CloseAndSave.
Context {platform : Pathlib}.

Lemma bind_run {S A B} (m : Prog S A) (k : A → Prog S B) (st st' : S) (a : A) :
  m st = (Return a, st') → (m ≫= k) st = k a st'.
Proof. intros H. unfold mbind, prog_bind. by rewrite H. Qed.

Lemma save_file_run (s : ShardInstance) (p : Shard) (d' : Disk)
    (saveAs close_after_saving : bool) :
  root s = true → usable_name (filename s) →
  open_write (disk p) (on_disk_path s) (buffer_text s) = inr d' →
  save_file saveAs close_after_saving (s, p)
  = (Return (Some true),
     if close_after_saving
     then (closed (saved s), one_less (with_disk d' p))
     else (saved s, with_disk d' p)).
Proof.
  intros Hroot Hname Hwrite. rewrite save_file_writes by done.
  unfold on_disk_path, buffer_text in Hwrite. by rewrite Hwrite.
Qed.

(** X7. After [save_file] has written the buffer to a file the user may
    also read, [is_file_saved] compares the buffer with what the text-mode
    read makes of the written text, every carriage return, alone or before
    a line feed, read as one line feed. For a buffer without a carriage
    return it answers [True] and leaves the window and the process exactly
    as the save left them; when the two texts differ by more than newlines
    at their end it answers [False] and stars the title. *)
Theorem saved_check_after_save (s : ShardInstance) (p : Shard) (saveAs : bool) :
  root s = true → usable_name (filename s) →
  on_disk_path s ∉ unwritable (disk p) → on_disk_path s ∉ unreadable (disk p) →
  let '(r, after) := save_file saveAs false (s, p) in
  let same :=
    bool_decide (same_text (Py.universal_newlines (buffer_text s)) (buffer_text s)) in
  r = Return (Some true)
  ∧ is_file_saved after
    = (Return (Some same), (if same then after.1 else starred after.1, after.2))
  ∧ (Py.CR ∉ Py.chars (editor s) →
     is_file_saved after = (Return (Some true), after)).
Proof.
  intros Hroot Hname Hw Hr.
  set (d' := with_files (<[on_disk_path s := Utf8 (buffer_text s)]> (files (disk p)))
               (disk p)).
  rewrite (save_file_run s p d') by
    (try done; unfold open_write; by rewrite bool_decide_eq_false_2).
  assert (is_file_saved (saved s, with_disk d' p)
          = (Return (Some (bool_decide
               (same_text (Py.universal_newlines (buffer_text s)) (buffer_text s)))),
             (if bool_decide
                   (same_text (Py.universal_newlines (buffer_text s)) (buffer_text s))
              then saved s else starred (saved s), with_disk d' p))) as Hcheck.
  { rewrite (is_file_saved_readable_run _ _ (Py.universal_newlines (buffer_text s)));
      try done.
    unfold decoded, open_read. cbn [disk with_disk unreadable files with_files d'].
    change (on_disk_path (saved s)) with (on_disk_path s).
    rewrite bool_decide_eq_false_2 by done. by rewrite lookup_insert_eq. }
  split; [done|]. split; [exact Hcheck|].
  intros Hcr. rewrite Hcheck.
  rewrite universal_no_CR.
  - by rewrite bool_decide_eq_true_2.
  - unfold buffer_text. rewrite chars_append, elem_of_app. intros [?|Hc]; [done|].
    cbn in Hc. by apply elem_of_cons in Hc as [?|?%elem_of_nil].
Qed.

(** X8. A window the constructor has loaded from a file passes the check
    at once: [is_file_saved] answers [True] on it and changes nothing. *)
Theorem saved_check_after_load (path : PathArg) (f content : string) (p : Shard) :
  path = PyStr f ∨ path = PyPath f →
  decoded (disk p) (resolve f) = Some content →
  splits_paths (resolve f) →
  ∃ w p',
    ShardInstance_call path p = (Return (), p')
    ∧ windows p' = windows p ++ [w]
    ∧ editor w = content
    ∧ is_file_saved (w, p') = (Return (Some true), (w, p')).
Proof.
  intros Hpath Hread Hsplit.
  eexists _, _. split; [by apply ShardInstance_call_decoded|].
  split; [reflexivity|]. split; [reflexivity|].
  rewrite (is_file_saved_readable_run _ _ content); try done.
  - rewrite bool_decide_eq_true_2; [done|].
    unfold same_text, buffer_text. cbn [editor loaded_window].
    unfold Py.rstrip_char. by rewrite rstrip_by_app_dropped.
  - unfold on_disk_path. cbn [filepath filename loaded_window].
    unfold splits_paths in Hsplit. by rewrite Hsplit.
Qed.

(** X9. Given a path at which there is no file, the constructor opens a
    window for a new file that is named after the path and holds no text;
    the window is counted, and nothing is created on the disk. *)
Theorem constructor_on_missing_file (path : PathArg) (f : string) (p : Shard) :
  path = PyStr f ∨ path = PyPath f →
  open_read (disk p) (resolve f) UTF_8 = inl FileNotFoundError →
  ShardInstance_call path p = (Return (), counted (new_named_window p f) p)
  ∧ files (disk (counted (new_named_window p f) p)) = files (disk p).
Proof.
  intros Hpath Hread. split; [by apply ShardInstance_call_missing|done].
Qed.

Lemma close_clean_run (s : ShardInstance) (p : Shard) (choice : option bool)
    (file_name : string) :
  root s = true → nothing_unsaved s p →
  save_before_closing_instance choice file_name (s, p)
  = (Return (), (closed (unstarred s), one_less p)).
Proof.
  intros Hroot Hclean. unfold save_before_closing_instance.
  rewrite (bind_run _ _ _ _ _ (is_file_saved_clean s p Hroot Hclean)).
  unfold nothing_unsaved in Hclean. destruct (new_file s) eqn:Hnew.
  - unfold editor_get, close_instance, widget. unfold truthy; cbn [negb from_option id].
    walk Hroot Hnew. fold (buffer_text s). rewrite Hclean. reflexivity.
  - reflexivity.
Qed.

Lemma close_dirty_run (s : ShardInstance) (p : Shard) (choice : option bool)
    (file_name : string) :
  root s = true → unsaved_text s p →
  save_before_closing_instance choice file_name (s, p)
  = match choice with
    | Some true =>
        save_window false true file_name (starred s, shown (unsaved_question s) p)
    | None => (Return (), (starred s, shown (unsaved_question s) p))
    | Some false =>
        (Return (), (closed (starred s), one_less (shown (unsaved_question s) p)))
    end.
Proof.
  intros Hroot Hdirty. unfold save_before_closing_instance.
  rewrite (bind_run _ _ _ _ _ (is_file_saved_dirty s p Hroot Hdirty)).
  unfold unsaved_text in Hdirty. destruct (new_file s) eqn:Hnew.
  - apply is_empty_false in Hdirty.
    unfold editor_get, close_instance, widget, show. unfold truthy; cbn [negb from_option id].
    walk Hroot Hnew. fold (buffer_text s). rewrite Hdirty.
    walk Hroot Hnew. by destruct choice as [[]|].
  - unfold editor_get, close_instance, widget, show. unfold truthy; cbn [negb from_option id].
    walk Hroot Hnew. by destruct choice as [[]|].
Qed.

(** X10. The close button closes a window that holds nothing unsaved
    without asking: no question is put, nothing is written, the window is
    destroyed and the counter goes down by one. *)
Theorem close_without_question (s : ShardInstance) (p : Shard)
    (choice : option bool) (file_name : string) :
  root s = true → nothing_unsaved s p →
  save_before_closing_instance choice file_name (s, p)
  = (Return (), (closed (unstarred s), one_less p)).
Proof. apply close_clean_run. Qed.

Lemma save_window_clean_run (s : ShardInstance) (p : Shard)
    (close_after_saving : bool) (file_name : string) :
  root s = true → new_file s = false → nothing_unsaved s p →
  save_window false close_after_saving file_name (s, p)
  = (Return (), (unstarred s, p)).
Proof.
  intros Hroot Hnew Hclean. unfold save_window. cbn [negb].
  unfold mbind at 1, prog_bind at 1.
  rewrite (bind_run _ _ _ _ _ (is_file_saved_clean s p Hroot Hclean)).
  rewrite Hnew. unfold truthy; cbn [negb from_option id]. by exec.
Qed.

Lemma save_window_dirty_run (s : ShardInstance) (p : Shard)
    (close_after_saving : bool) (file_name : string) :
  root s = true → new_file s = false → unsaved_text s p →
  save_window false close_after_saving file_name (s, p)
  = (save_file false close_after_saving;; mret ()) (starred s, p).
Proof.
  intros Hroot Hnew Hdirty. unfold save_window. cbn [negb].
  unfold mbind at 1, prog_bind at 1.
  rewrite (bind_run _ _ _ _ _ (is_file_saved_dirty s p Hroot Hdirty)).
  unfold truthy; cbn [from_option id]. walk Hroot Hnew.
  by destruct (save_file false close_after_saving _) as [[?|?] ?].
Qed.

Lemma save_window_dialog_run (s : ShardInstance) (p : Shard)
    (saveAs close_after_saving : bool) (file_name : string) :
  root s = true → saveAs = true ∨ new_file s = true →
  let s0 :=
    if saveAs then s
    else if negb (Py.is_empty (Py.rstrip_char Py.LF (buffer_text s)))
         then starred s else unstarred s in
  save_window saveAs close_after_saving file_name (s, p)
  = if Py.is_empty file_name then (Return (), (s0, p))
    else (save_file saveAs close_after_saving;; mret ())
           (rebound file_name s0,
            with_disk (with_save_location (parent file_name) (disk p)) p).
Proof.
  intros Hroot Hdialog. unfold save_window.
  destruct saveAs; cbn [negb]; cbn zeta.
  - unfold set_last_save_location. walk Hroot Hroot.
    destruct (Py.is_empty file_name); cbn [negb]; [done|].
    walk Hroot Hroot. unfold rebound.
    by destruct (save_file true close_after_saving _) as [[?|?] ?].
  - destruct Hdialog as [|Hnew]; [done|].
    pose proof (is_file_saved_unbound_run s p Hroot Hnew) as Hrun.
    unfold mbind at 1, prog_bind at 1.
    rewrite (bind_run _ _ _ _ _ Hrun).
    destruct (negb (Py.is_empty (Py.rstrip_char Py.LF (buffer_text s))));
      unfold truthy, set_last_save_location; cbn [from_option id];
      walk Hroot Hnew;
      (destruct (Py.is_empty file_name); cbn [negb]; [reflexivity|]);
      walk Hroot Hnew; unfold rebound;
      by destruct (save_file false close_after_saving _) as [[?|?] ?].
Qed.

(** X11. When the window holds unsaved text and the user answers Cancel
    to the question of the close button, or answers Yes and then cancels
    the save dialog of a window without a file, the window stays open with
    its buffer, the counter keeps its value and nothing is written. *)
Theorem close_button_cancelled (s : ShardInstance) (p : Shard)
    (choice : option bool) (file_name : string) :
  root s = true → unsaved_text s p →
  choice = None ∨ (choice = Some true ∧ new_file s = true ∧ file_name = "") →
  save_before_closing_instance choice file_name (s, p)
  = (Return (), (starred s, shown (unsaved_question s) p)).
Proof.
  intros Hroot Hdirty Hchoice. rewrite close_dirty_run by done.
  destruct Hchoice as [-> | (-> & Hnew & ->)]; [done|].
  rewrite (save_window_dialog_run (starred s)) by (by try right).
  cbn [Py.is_empty]. change (buffer_text (starred s)) with (buffer_text s).
  unfold unsaved_text in Hdirty. rewrite Hnew in Hdirty.
  apply is_empty_false in Hdirty. by rewrite Hdirty.
Qed.

(** X12. When the window holds unsaved text and the user answers No, the
    window is closed and the counter goes down by one; the disk is left as
    it was, so the text is gone. *)
Theorem close_button_discards (s : ShardInstance) (p : Shard) (file_name : string) :
  root s = true → unsaved_text s p →
  save_before_closing_instance (Some false) file_name (s, p)
  = (Return (), (closed (starred s), one_less (shown (unsaved_question s) p))).
Proof. intros Hroot Hdirty. by rewrite close_dirty_run. Qed.

(** X13. When a window with a file holds unsaved text and the user
    answers Yes, the buffer is written to that file, with no dialog, and
    the window is closed. *)
Theorem close_button_saves_and_closes (s : ShardInstance) (p : Shard)
    (file_name : string) (d' : Disk) :
  root s = true → new_file s = false → unsaved_text s p →
  usable_name (filename s) →
  open_write (disk p) (on_disk_path s) (buffer_text s) = inr d' →
  save_before_closing_instance (Some true) file_name (s, p)
  = (Return (),
     (closed (saved s), one_less (with_disk d' (shown (unsaved_question s) p)))).
Proof.
  intros Hroot Hnew Hdirty Hname Hwrite. rewrite close_dirty_run by done.
  rewrite save_window_dirty_run by done.
  unfold mbind, prog_bind.
  by rewrite (save_file_run _ _ d').
Qed.

(** X14. When a window without a file holds unsaved text, the user
    answers Yes and the save dialog answers a file the user may write, the
    window is bound to that file, the buffer is written there, the
    directory of the file is remembered, and the window is closed. *)
Theorem close_button_saves_new_file_and_closes (s : ShardInstance) (p : Shard)
    (file_name : string) :
  root s = true → new_file s = true → unsaved_text s p →
  file_name ≠ "" → usable_name (name file_name) →
  on_disk_path (rebound file_name s) ∉ unwritable (disk p) →
  ∃ s' p',
    save_before_closing_instance (Some true) file_name (s, p)
    = (Return (), (s', p'))
    ∧ root s' = false ∧ filepath s' = file_name ∧ new_file s' = false
    ∧ active_instances p' = active_instances p - 1
    ∧ files (disk p')
      = <[on_disk_path (rebound file_name s) := Utf8 (buffer_text s)]>
          (files (disk p))
    ∧ save_location_file (disk p') = parent file_name.
Proof.
  intros Hroot Hnew Hdirty Hfn Hname Hw. rewrite close_dirty_run by done.
  rewrite (save_window_dialog_run (starred s)) by (by try right).
  apply is_empty_false in Hfn. rewrite Hfn.
  change (buffer_text (starred s)) with (buffer_text s).
  unfold unsaved_text in Hdirty. rewrite Hnew in Hdirty.
  apply is_empty_false in Hdirty. rewrite Hdirty. cbn [negb].
  unfold mbind, prog_bind.
  erewrite save_file_run; [| done | done |].
  2: { unfold open_write. cbn [disk with_disk unwritable with_save_location].
       rewrite bool_decide_eq_false_2 by done. reflexivity. }
  eexists _, _. split; [reflexivity|]. by repeat split.
Qed.

(** X15. Save on a window whose file already holds the text of the
    buffer does nothing but clear the star: the disk is not written, no
    dialog is consulted, and the window is not closed even when the save
    was asked to close it. *)
Theorem save_writes_nothing_when_saved (s : ShardInstance) (p : Shard)
    (close_after_saving : bool) (file_name : string) :
  root s = true → new_file s = false → nothing_unsaved s p →
  save_window false close_after_saving file_name (s, p)
  = (Return (), (unstarred s, p)).
Proof. apply save_window_clean_run. Qed.

(** X16. Save As, and Save on a window without a file, with a file the
    dialog answered and the user may write: the window is bound to that
    file and titled after it, the buffer is written there and nowhere
    else, and the directory of the file becomes the last save location. *)
Theorem save_through_dialog_binds_and_writes (s : ShardInstance) (p : Shard)
    (saveAs : bool) (file_name : string) :
  root s = true → saveAs = true ∨ new_file s = true →
  file_name ≠ "" → usable_name (name file_name) →
  on_disk_path (rebound file_name s) ∉ unwritable (disk p) →
  save_window saveAs false file_name (s, p)
  = (Return (),
     (saved (rebound file_name s),
      with_disk
        (with_files
           (<[on_disk_path (rebound file_name s) := Utf8 (buffer_text s)]>
              (files (disk p)))
           (with_save_location (parent file_name) (disk p))) p)).
Proof.
  intros Hroot Hdialog Hfn Hname Hw.
  rewrite save_window_dialog_run by done.
  apply is_empty_false in Hfn. rewrite Hfn.
  unfold mbind, prog_bind.
  destruct saveAs; [|destruct (negb _)];
    (erewrite save_file_run; [reflexivity | done | done |]);
    unfold open_write; cbn [disk with_disk unwritable with_save_location];
    by rewrite bool_decide_eq_false_2.
Qed.

Lemma save_window_bound_run (s : ShardInstance) (p : Shard)
    (close_after_saving : bool) (file_name : string) :
  root s = true → new_file s = false →
  open_read (disk p) (on_disk_path s) UTF_8 ≠ inl FileNotFoundError →
  save_window false close_after_saving file_name (s, p)
  = (saved ← is_file_saved;
     if truthy saved then mret ()
     else save_file false close_after_saving;; mret ()) (s, p).
Proof.
  intros Hroot Hnew Hthere. unfold save_window, truthy. cbn [negb]. exec.
  rewrite is_file_saved_bound_run by done.
  destruct (open_read (disk p) (on_disk_path s) UTF_8) as [[]|content] eqn:E;
    try done;
    try destruct (decoded (disk p) (on_disk_path s)) as [c|];
    try destruct (bool_decide (same_text _ (buffer_text s)));
    cbn [from_option id]; walk Hroot Hnew; try done;
    by destruct (save_file _ _ _) as [[?|?] ?].
Qed.

(** X17. Save on a window with a file never asks for a name: as long as
    the file is there, what the save dialog would answer has no bearing on
    what [save_window] does. *)
Theorem save_on_bound_window_ignores_dialog (s : ShardInstance) (p : Shard)
    (close_after_saving : bool) (file_name file_name' : string) :
  root s = true → new_file s = false →
  open_read (disk p) (on_disk_path s) UTF_8 ≠ inl FileNotFoundError →
  save_window false close_after_saving file_name (s, p)
  = save_window false close_after_saving file_name' (s, p).
Proof. intros. by rewrite !(save_window_bound_run s p). Qed.

(** X18. [save_window] asks for a name on Save As, on Save in a window
    without a file, and on Save in a window whose file is gone. When that
    dialog is cancelled it writes nothing and leaves the window open with
    its buffer, its path and its name; Save As leaves the window bound as
    it was, while after Save the window counts as a new file, so a window
    whose file is gone has lost its binding. *)
Theorem save_dialog_cancelled (s : ShardInstance) (p : Shard)
    (saveAs close_after_saving : bool) :
  root s = true →
  saveAs = true ∨ new_file s = true
  ∨ open_read (disk p) (on_disk_path s) UTF_8 = inl FileNotFoundError →
  ∃ s',
    save_window saveAs close_after_saving "" (s, p) = (Return (), (s', p))
    ∧ root s' = true ∧ editor s' = editor s
    ∧ new_file s' = (if saveAs then new_file s else true)
    ∧ filepath s' = filepath s ∧ filename s' = filename s.
Proof.
  intros Hroot Hdialog.
  destruct saveAs eqn:Eas; [|destruct (new_file s) eqn:Enew].
  - rewrite save_window_dialog_run by (by try left).
    cbn [Py.is_empty]. by eexists.
  - rewrite save_window_dialog_run by (by try right).
    cbn [Py.is_empty]. eexists. split; [reflexivity|].
    by destruct (negb _).
  - destruct Hdialog as [|[|Hgone]]; [done..|].
    pose proof (is_file_saved_bound_run s p Hroot Enew) as Hrun.
    rewrite Hgone in Hrun.
    unfold save_window. cbn [negb].
    unfold mbind at 1, prog_bind at 1. unfold mbind at 1, prog_bind at 1.
    rewrite Hrun. unfold truthy. cbn [from_option id]. exec.
    cbn [new_file with_new_file negb Py.is_empty]. by eexists.
Qed.

(** X28. [save_file] does nothing at all for a name that is empty or all
    white space: nothing is written, no box is shown, the window is not
    closed even when that was asked, and the answer is [None]. *)
Theorem save_file_ignores_blank_name (s : ShardInstance) (p : Shard)
    (saveAs close_after_saving : bool) :
  blank (filename s) →
  save_file saveAs close_after_saving (s, p) = (Return None, (s, p)).
Proof.
  intros Hblank. unfold blank in Hblank. unfold save_file. exec.
  by rewrite Hblank.
Qed.

(** X29. Save on a window whose file is there and differs from the buffer
    writes the buffer to that file, with no dialog, and takes the star off
    the title; the window stays open and the counter keeps its value. *)
Theorem save_writes_the_buffer (s : ShardInstance) (p : Shard)
    (file_name : string) (d' : Disk) :
  root s = true → new_file s = false → unsaved_text s p →
  usable_name (filename s) →
  open_write (disk p) (on_disk_path s) (buffer_text s) = inr d' →
  save_window false false file_name (s, p)
  = (Return (), (saved s, with_disk d' p)).
Proof.
  intros Hroot Hnew Hdirty Hname Hwrite.
  rewrite save_window_dirty_run by done.
  unfold mbind, prog_bind. by rewrite (save_file_run _ _ d').
Qed.

End CloseAndSave.

(** ** Opening a file from a window *)

Section OpenFile.
Context {platform : Pathlib}.

Lemma open_file_window_run (s : ShardInstance) (p : Shard)
    (opened_file content : string) :
  opened_file ≠ "" → decoded (disk p) opened_file = Some content →
  root s = true →
  open_file_window opened_file (s, p)
  = if new_file s && Py.is_empty (Py.strip (buffer_text s))
       && bool_decide (filename s = "Untitled")
    then (Return (), (reused_window s opened_file content, p))
    else start_new_file (PyPath opened_file) (s, p).
Proof.
  intros Hfile%is_empty_false Hread Hroot. unfold open_file_window.
  rewrite Hfile. unfold decoded in Hread.
  assert (∀ st, st = (s, p) →
    (s0 ← self;
     untouched_window ←
       (if new_file s0 then
          text ← editor_get;
          mret (Py.is_empty (Py.strip text)
                && bool_decide (filename s0 = "Untitled"))
        else mret false);
     if untouched_window : bool then
       set_self (with_filepath opened_file);;
       set_self (with_filename (name opened_file));;
       update_window_title (name opened_file);;
       widget;; set_self (with_editor "");;
       editor_insert content;;
       set_self (with_new_file false)
     else start_new_file (PyPath opened_file)) st
    = if new_file s && Py.is_empty (Py.strip (buffer_text s))
         && bool_decide (filename s = "Untitled")
      then (Return (), (reused_window s opened_file content, p))
      else start_new_file (PyPath opened_file) (s, p)) as Hproceed.
  { intros st ->.
    unfold editor_get, update_window_title, editor_insert, widget.
    destruct (new_file s) eqn:Hnew; walk Hroot Hnew; [|done].
    fold (buffer_text s).
    destruct (Py.is_empty (Py.strip (buffer_text s))); cbn [andb]; [|done].
    destruct (bool_decide (filename s = "Untitled")); [|done].
    walk Hroot Hnew. unfold reused_window. rewrite ?append_nil_l.
    unfold with_new_file, with_editor, with_title, with_filename, with_filepath.
    cbn [root root_title filename filepath new_file editor prefs].
    by rewrite Hroot. }
  rewrite (bind_run shard _ (s, p) (s, p) p eq_refl). cbn zeta.
  destruct (open_read (disk p) opened_file UTF_8) as [[]|c] eqn:E1; try done.
  - destruct (open_read (disk p) opened_file ANSI) as [|c] eqn:E2; [done|].
    injection Hread as ->. by apply Hproceed.
  - injection Hread as ->. by apply Hproceed.
Qed.

(** X19. When the open dialog is cancelled, or the file it answered
    cannot be read, [open_file_window] leaves the window, the disk, the
    counter and the list of windows as they were; at most an error box is
    shown. *)
Theorem open_nothing_changes_nothing (s : ShardInstance) (p : Shard)
    (opened_file : string) :
  opened_file = "" ∨ decoded (disk p) opened_file = None →
  let '(r, (s', p')) := open_file_window opened_file (s, p) in
  r = Return () ∧ s' = s ∧ disk p' = disk p
  ∧ active_instances p' = active_instances p ∧ windows p' = windows p
  ∧ ∃ shown_now, messages p' = messages p ++ shown_now
                 ∧ (length shown_now ≤ 1)%nat.
Proof.
  intros Hnothing. unfold open_file_window, show.
  destruct (Py.is_empty opened_file) eqn:Hfile.
  { exec. repeat split. exists []. rewrite app_nil_r. split; [done|cbn; lia]. }
  destruct Hnothing as [->|Hread]; [done|]. unfold decoded in Hread. exec.
  destruct (open_read (disk p) opened_file UTF_8) as [[]|c] eqn:E1; try done;
    try (destruct (open_read (disk p) opened_file ANSI) as [|c'] eqn:E2;
         try done);
    exec; repeat split;
    first [ by eexists [_]; split; [reflexivity | cbn; lia]
          | exists []; rewrite app_nil_r; split; [done | cbn; lia] ].
Qed.

(** X20. A window that was never used (no file, the name Untitled, a
    buffer of white space only) takes the opened file itself:
    it is bound to the file, titled after it and holds its text, and no
    other window is made. If the path is the join of its parent and its
    name, the window then holds nothing unsaved. *)
Theorem open_reuses_an_unused_window (s : ShardInstance) (p : Shard)
    (opened_file content : string) :
  root s = true → pristine s →
  opened_file ≠ "" → decoded (disk p) opened_file = Some content →
  open_file_window opened_file (s, p)
  = (Return (), (reused_window s opened_file content, p))
  ∧ (splits_paths opened_file →
     is_file_saved (reused_window s opened_file content, p)
     = (Return (Some true), (reused_window s opened_file content, p))).
Proof.
  intros Hroot (Hnew & Hname & Hblank) Hfile Hread. split.
  - rewrite (open_file_window_run s p opened_file content) by done.
    unfold blank in Hblank. rewrite Hnew, Hblank. cbn [andb Py.is_empty].
    by rewrite bool_decide_eq_true_2.
  - intros Hsplit. unfold splits_paths in Hsplit.
    rewrite (is_file_saved_readable_run _ _ content); try done.
    + rewrite bool_decide_eq_true_2.
      * unfold unstarred, reused_window. cbn. by rewrite Hroot.
      * unfold same_text, buffer_text, Py.rstrip_char.
        cbn [editor reused_window]. by rewrite rstrip_by_app_dropped.
    + unfold on_disk_path. cbn [filepath filename reused_window].
      by rewrite Hsplit.
Qed.

(** X21. From a window in use, [open_file_window] opens the file in a
    new window, made by the constructor, and leaves the window it was
    called on exactly as it was. *)
Theorem open_from_a_used_window (s : ShardInstance) (p : Shard)
    (opened_file content : string) :
  root s = true → ¬ pristine s →
  opened_file ≠ "" → decoded (disk p) opened_file = Some content →
  resolve opened_file = opened_file →
  open_file_window opened_file (s, p)
  = (Return (), (s, counted (loaded_window p opened_file content) p)).
Proof.
  intros Hroot Hused Hfile Hread Hres.
  rewrite (open_file_window_run s p opened_file content) by done.
  destruct (new_file s && Py.is_empty (Py.strip (buffer_text s))
            && bool_decide (filename s = "Untitled")) eqn:E.
  - destruct Hused. apply andb_prop in E as [[Hn Hb]%andb_prop Hu].
    apply bool_decide_eq_true_1 in Hu. by apply is_empty_true in Hb.
  - unfold start_new_file, in_process. cbn [fst snd].
    rewrite (ShardInstance_call_decoded _ opened_file content);
      [done | by right | by rewrite Hres].
Qed.

End OpenFile.

(** ** The settings dialog and the window state *)

Section SettingsDialog.
Context {platform : Pathlib}.

Lemma loaded_prefs_settings_text (r : Settings) :
  valid r → loaded_prefs (settings_text r) = r.
Proof.
  intros Hr. unfold settings_text.
  rewrite loaded_prefs_join;
    [by apply valid_checked | done | by apply valid_no_tab | by apply valid_clean].
Qed.

Lemma valid_steppable (r : Settings) : valid r → steppable r.
Proof. intros (?&?&?&?&?&?&?&?&?). by repeat split. Qed.

Lemma index_elem {A} `{EqDecision A} (l : list A) (v : A) :
  v ∈ l → ∃ i, index l v = Some i ∧ (i < length l)%nat.
Proof.
  induction l as [|x l IH]; [by intros ?%elem_of_nil|].
  intros Hv. cbn [index]. destruct (decide (x = v)) as [|Hne].
  - exists 0%nat. split; [done|cbn; lia].
  - apply elem_of_cons in Hv as [->|Hv]; [done|].
    destruct (IH Hv) as (i & -> & Hi). exists (S i). split; [done|cbn; lia].
Qed.

Lemma step_elem {A} `{EqDecision A} (l : list A) (delta : Z) (v : A) :
  v ∈ l → ∃ v', step l delta v = Some v' ∧ v' ∈ l.
Proof.
  intros Hv. destruct (index_elem l v Hv) as (i & Hi & Hlt).
  unfold step. rewrite Hi. cbn. eexists. split; [done|].
  apply list_elem_of_In, nth_In.
  pose proof (Z.mod_pos_bound (Z.of_nat i + delta) (Z.of_nat (length l))).
  lia.
Qed.

Lemma turn_run {A} `{EqDecision A} (l : list A) (get_var : Settings → A)
    (set_var : A → Settings → Settings) (delta : Z) s p :
  turn l get_var set_var delta (s, p)
  = match step l delta (get_var (prefs s)) with
    | Some v => (Return (), (with_prefs (set_var v (prefs s)) s, p))
    | None => (Raise ValueError, (s, p))
    end.
Proof. unfold turn, step. exec. by destruct (index l _). Qed.

Lemma opacity_range (n : Z) : 30 ≤ n ≤ 100 → n ∈ opacity.
Proof.
  intros Hn. unfold opacity, py_range. apply list_elem_of_fmap.
  exists (Z.to_nat (n - 30)). split; [lia|].
  apply elem_of_seq.
  change (Z.to_nat ((101 - 30 + 1 - 1) / 1)) with 71%nat. lia.
Qed.

Lemma with_prefs_same (s : ShardInstance) : with_prefs (prefs s) s = s.
Proof. by destruct s. Qed.

(** What one thing done in the dialog does to the window. *)
Lemma dialog_event_run (e : DialogEvent) (s : ShardInstance) (p : Shard) :
  root s = true → steppable (prefs s) →
  ∃ r', dialog_event e (s, p) = (Return (), (with_prefs r' s, p))
        ∧ steppable r' ∧ window_state r' = window_state (prefs s)
        ∧ (valid (prefs s) → valid r').
Proof.
  intros Hroot Hst. pose proof Hst as (Hbg & Hfg & Hft & Hfs & Htb).
  assert (∀ delta k, ∃ r',
            key k delta (s, p) = (Return (), (with_prefs r' s, p))
            ∧ steppable r' ∧ window_state r' = window_state (prefs s)
            ∧ (valid (prefs s) → valid r')) as Hkey.
  { intros delta k. destruct k; unfold key; rewrite turn_run.
    - destruct (step_elem colors delta _ Hbg) as (v & -> & Hv).
      eexists. split; [reflexivity|]. split; [by repeat split|].
      split; [done|]. intros (?&?&?&?&?&?&?&?&?). by repeat split.
    - destruct (step_elem colors delta _ Hfg) as (v & -> & Hv).
      eexists. split; [reflexivity|]. split; [by repeat split|].
      split; [done|]. intros (?&?&?&?&?&?&?&?&?). by repeat split.
    - destruct (step_elem fonts delta _ Hft) as (v & -> & Hv).
      eexists. split; [reflexivity|]. split; [by repeat split|].
      split; [done|]. intros (?&?&?&?&?&?&?&?&?). by repeat split.
    - destruct (step_elem sizes delta _ Hfs) as (v & -> & Hv).
      eexists. split; [reflexivity|]. split; [by repeat split|].
      split; [done|]. intros (?&?&?&?&?&?&?&?&?). by repeat split.
    - destruct (step_elem tabsize_allowed delta _ Htb) as (v & -> & Hv).
      eexists. split; [reflexivity|]. split; [by repeat split|].
      split; [done|]. intros (?&?&?&?&?&?&?&?&?). by repeat split. }
  destruct e as [k|k|k i| | |n]; cbn [dialog_event]; try apply Hkey.
  - destruct k; unfold pick, choose;
      match goal with |- context [?l !! i] => destruct (l !! i) as [v|] eqn:E end;
      try (apply list_elem_of_lookup_2 in E; exec; eexists;
           split; [reflexivity|]; split; [by repeat split|];
           split; [done|]; intros (?&?&?&?&?&?&?&?&?); by repeat split);
      exists (prefs s); rewrite with_prefs_same; by split_and!.
  - unfold invoke. exec. eexists. split; [reflexivity|].
    split; [by repeat split|]. split; [done|].
    intros (?&?&?&?&?&?&?&?&?). repeat split; try done.
    cbn. destruct (bool_decide _);
      apply (bool_decide_unpack _); by vm_compute.
  - unfold invoke. exec. eexists. split; [reflexivity|].
    split; [by repeat split|]. split; [done|].
    intros (?&?&?&?&?&?&?&?&?). repeat split; try done.
    cbn. destruct (bool_decide _);
      apply (bool_decide_unpack _); by vm_compute.
  - unfold slide, widget. exec. cbn [root with_prefs]. rewrite Hroot.
    eexists. split; [reflexivity|]. split; [by repeat split|].
    split; [done|]. intros (?&?&?&?&?&?&?&?&?). repeat split; try done.
    cbn. apply opacity_range. lia.
Qed.

Lemma dialog_events_run (events : list DialogEvent) (s : ShardInstance) (p : Shard) :
  root s = true → steppable (prefs s) →
  ∃ r', for_each events dialog_event (s, p) = (Return (), (with_prefs r' s, p))
        ∧ steppable r' ∧ window_state r' = window_state (prefs s)
        ∧ (valid (prefs s) → valid r').
Proof.
  revert s. induction events as [|e events IH]; intros s Hroot Hst.
  - exists (prefs s). rewrite with_prefs_same. by split_and!.
  - destruct (dialog_event_run e s p Hroot Hst) as (r1 & Hrun & Hst1 & Hws1 & Hv1).
    destruct (IH (with_prefs r1 s) Hroot Hst1) as (r2 & Hrun2 & Hst2 & Hws2 & Hv2).
    exists r2. cbn [for_each]. rewrite (bind_run _ _ _ _ _ Hrun), Hrun2.
    split; [done|]. split; [done|]. split; [by rewrite Hws2|]. auto.
Qed.

Lemma settings_window_run (events : list DialogEvent) (ok : bool)
    (s : ShardInstance) (p : Shard) :
  root s = true → steppable (prefs s) →
  ∃ r', for_each events dialog_event (s, p) = (Return (), (with_prefs r' s, p))
        ∧ steppable r' ∧ (valid (prefs s) → valid r')
        ∧ settings_window events ok (s, p)
          = if ok then (Return (), (with_prefs r' s, stored r' p))
            else (Return (), (s, p)).
Proof.
  intros Hroot Hst.
  destruct (dialog_events_run events s p Hroot Hst) as (r' & Hrun & Hst' & Hws & Hv).
  exists r'. split; [done|]. split; [done|]. split; [done|].
  unfold settings_window, widget.
  rewrite (bind_run (s0 ← self; if root s0 then mret () else raise TclError)
             _ (s, p) (s, p) ());
    [|exec; by rewrite Hroot].
  rewrite (bind_run self _ (s, p) (s, p) s eq_refl).
  rewrite (bind_run _ _ _ _ _ Hrun).
  destruct ok.
  - unfold save_and_apply_settings, save_editor_settings, widget. exec.
    cbn [root with_prefs prefs]. by rewrite Hroot.
  - unfold cancel_and_revert_settings, widget. exec.
    cbn [root with_prefs prefs]. rewrite Hroot, Hws.
    replace (set_window_state (window_state (prefs s)) (prefs s)) with (prefs s)
      by (by destruct (prefs s)).
    by destruct s.
Qed.

(** X22. Whatever the user does in the settings dialog of a window whose
    five list values are in their lists, no handler of the dialog fails,
    the five values stay in their lists, and allowed preferences stay
    allowed; only the preferences of the window change, and the disk only
    through OK. *)
Theorem settings_dialog_keeps_allowed_values (events : list DialogEvent)
    (ok : bool) (s : ShardInstance) (p : Shard) :
  root s = true → steppable (prefs s) →
  ∃ r', settings_window events ok (s, p)
        = (Return (), (with_prefs r' s, if ok then stored r' p else p))
        ∧ steppable r' ∧ (valid (prefs s) → valid r').
Proof.
  intros Hroot Hst.
  destruct (settings_window_run events ok s p Hroot Hst)
    as (r' & _ & Hst' & Hv & ->).
  destruct ok.
  - by exists r'.
  - exists (prefs s). by rewrite with_prefs_same.
Qed.

(** X23. Cancel undoes the dialog: whatever was done in it, the window
    and the process are exactly as they were before it was opened, and the
    settings file is not written. *)
Theorem settings_dialog_cancel_reverts (events : list DialogEvent)
    (s : ShardInstance) (p : Shard) :
  root s = true → steppable (prefs s) →
  settings_window events false (s, p) = (Return (), (s, p)).
Proof.
  intros Hroot Hst.
  by destruct (settings_window_run events false s p Hroot Hst)
    as (r' & _ & _ & _ & ->).
Qed.

(** X24. OK makes the choice last: the preferences the dialog ends with
    are written to the settings file, and the next window the process
    constructs starts with exactly those preferences. *)
Theorem settings_dialog_ok_persists (events : list DialogEvent)
    (s : ShardInstance) (p : Shard) :
  root s = true → valid (prefs s) →
  ∃ r' w p',
    settings_window events true (s, p)
    = (Return (), (with_prefs r' s, stored r' p))
    ∧ ShardInstance_call PyNone (stored r' p) = (Return (), p')
    ∧ windows p' = windows p ++ [w]
    ∧ prefs w = r'
    ∧ settings_file (disk p') = settings_text r'.
Proof.
  intros Hroot Hvalid.
  destruct (settings_window_run events true s p Hroot (valid_steppable _ Hvalid))
    as (r' & _ & _ & Hv & ->).
  eexists r', (blank_window (stored r' p)), _.
  split; [done|]. split; [apply ShardInstance_call_blank|].
  split; [done|].
  cbn [prefs blank_window settings_file disk stored with_disk with_settings
       counted settled with_windows with_active_instances].
  by rewrite !loaded_prefs_settings_text by auto.
Qed.

Lemma turn_back {A} `{EqDecision A} (l : list A) (get_var : Settings → A)
    (set_var : A → Settings → Settings) (there back : Z) s p :
  (∀ v r, get_var (set_var v r) = v) →
  (∀ v v' r, set_var v (set_var v' r) = set_var v r) →
  (∀ r, set_var (get_var r) r = r) →
  Forall (λ v, step l there v ≫= step l back = Some v) l →
  get_var (prefs s) ∈ l →
  (turn l get_var set_var there;; turn l get_var set_var back) (s, p)
  = (Return (), (s, p)).
Proof.
  intros Hgs Hss Hsg Hall Hv.
  pose proof (proj1 (Forall_forall _ _) Hall _ Hv) as Hback.
  cbn beta in Hback.
  unfold mbind at 1, prog_bind at 1. rewrite turn_run.
  destruct (step l there (get_var (prefs s))) as [v'|]; [|done].
  cbn in Hback. rewrite turn_run. cbn [prefs with_prefs].
  rewrite Hgs, Hback, Hss, Hsg. by destruct s.
Qed.

(** X25. In the settings dialog <Left> undoes <Right> and <Right>
    undoes <Left>, on each of the five values, also across the ends
    of the list. *)
Theorem left_undoes_right (k : Knob) (s : ShardInstance) (p : Shard) :
  steppable (prefs s) →
  (key k 1;; key k (-1)) (s, p) = (Return (), (s, p))
  ∧ (key k (-1);; key k 1) (s, p) = (Return (), (s, p)).
Proof.
  intros (Hbg & Hfg & Hft & Hfs & Htb).
  split; destruct k; unfold key;
    (apply turn_back;
     [ done | done | by intros [] | apply (bool_decide_unpack _); by vm_compute
     | done ]).
Qed.

(** X26. The state of the window is remembered: when [detect_window_maximised]
    finds a state other than the one recorded, it records it and writes the
    settings file at once, and the next window starts in that state if it
    is normal or zoomed, and in the normal state otherwise; when the state
    is the one recorded, nothing is written. *)
Theorem window_state_is_remembered (current_state : string)
    (s : ShardInstance) (p : Shard) :
  root s = true → valid (prefs s) → no_tab current_state →
  let r' := set_window_state current_state (prefs s) in
  detect_window_maximised current_state (s, p)
  = (if bool_decide (window_state (prefs s) = current_state)
     then (Return (), (s, p))
     else (Return (), (with_prefs r' s, stored r' p)))
  ∧ loaded_prefs (settings_text r')
    = set_window_state
        (if bool_decide (current_state ∈ window_states)
         then current_state else "normal") (prefs s).
Proof.
  intros Hroot Hvalid Htab r'. split.
  - unfold detect_window_maximised, save_editor_settings, widget. exec.
    rewrite Hroot. exec. by destruct (bool_decide _).
  - case_bool_decide as Hin.
    + apply loaded_prefs_settings_text.
      destruct Hvalid as (?&?&?&?&?&?&?&?&?). by repeat split.
    + change (settings_text r')
        with (Py.join (String Py.TAB "")
                (<[position Ws := current_state]> (record_fields (prefs s)))).
      rewrite one_corrupted_field; try done.
      cbn. by rewrite bool_decide_eq_false_2.
Qed.

End SettingsDialog.

(** ** The first process, and what the handlers leave to it *)

Section Launch.
Context {platform : Pathlib}.

Lemma tally_app (ws ws' : list ShardInstance) :
  tally (ws ++ ws') = tally ws + tally ws'.
Proof. unfold tally. induction ws as [|w ws IH]; cbn; [done|]. rewrite IH. lia. Qed.

(** What the constructor does to the counter. *)
Lemma ShardInstance_call_counts path p :
  ∃ w p', ShardInstance_call path p = (Return (), p')
          ∧ windows p' = windows p ++ [w] ∧ untouched p p'
          ∧ active_instances p' = active_instances p + tally [w].
Proof.
  unfold ShardInstance_call, ShardInstance__init__.
  unfold close_instance, show, update_window_title, editor_insert, widget.
  run. rewrite get_editor_settings_spec. cbn.
  destruct path as [|f|f]; cbn.
  2,3: change (open_read (with_settings ?t ?d) ?f ?e) with (open_read d f e);
       destruct (open_read (disk p) (resolve f) UTF_8) as [[]|content]; cbn;
       try destruct (open_read (disk p) (resolve f) ANSI) as [?|content]; cbn.
  all: eexists _, _; split; [reflexivity|]; split; [reflexivity|];
       split; [by repeat split|]; cbn; lia.
Qed.

Lemma for_each_constructs {A} (l : list A) (body : A → Coord unit)
    (P : Shard → Prop) :
  (∀ p p', P p → untouched p p' → P p') →
  (∀ x p, P p → ∃ path, body x p = ShardInstance_call path p) →
  ∀ p, P p →
  ∃ ws p', for_each l body p = (Return (), p')
           ∧ windows p' = windows p ++ ws ∧ length ws = length l
           ∧ untouched p p'
           ∧ active_instances p' = active_instances p + tally ws.
Proof.
  intros Hstable Hbody. induction l as [|x l IH]; intros p Hp.
  - exists [], p. rewrite app_nil_r.
    split_and!; first [done | apply untouched_refl | cbn; lia].
  - cbn [for_each]. unfold mbind, prog_bind.
    destruct (Hbody x p Hp) as [path ->].
    destruct (ShardInstance_call_counts path p) as (w & p1 & -> & Hw & Hp1 & Hc1).
    destruct (IH p1 (Hstable _ _ Hp Hp1)) as (ws & p2 & -> & Hws & Hlen & Hp2 & Hc2).
    exists (w :: ws), p2. split_and!.
    + done.
    + by rewrite Hws, Hw, <- app_assoc.
    + cbn. by rewrite Hlen.
    + by eapply untouched_trans.
    + change (w :: ws) with ([w] ++ ws). rewrite tally_app. lia.
Qed.

(** The script, when the marker does not exist at launch. *)
Lemma for_each_ShardInstance_call (paths : list PathArg) (p : Shard) :
  ∃ ws p', for_each paths ShardInstance_call p = (Return (), p')
           ∧ windows p' = windows p ++ ws ∧ length ws = length paths
           ∧ untouched p p'
           ∧ active_instances p' = active_instances p + tally ws.
Proof.
  apply (for_each_constructs paths ShardInstance_call (λ _, True));
    [done | by eauto | done].
Qed.

Lemma for_each_create_unmarked (paths : list PathArg) (p : Shard) :
  shard_running_indicator (disk p) = false →
  Forall (λ a, differs_from_None a = true) paths →
  for_each paths (λ a, create_instance a false) p
  = for_each paths ShardInstance_call p.
Proof.
  intros Hfree Hpaths. revert p Hfree.
  induction Hpaths as [|a paths Ha _ IH]; intros p Hfree; [done|].
  cbn [for_each]. unfold mbind, prog_bind.
  assert (create_instance a false p = ShardInstance_call a p) as ->.
  { unfold create_instance. exec. by rewrite Hfree, Ha. }
  destruct (ShardInstance_call_counts a p) as (w & p1 & -> & _ & Hp1 & _).
  apply IH. destruct Hp1 as (_ & _ & -> & _). done.
Qed.

Lemma for_each_create_main (l : list string) (p : Shard) :
  for_each l (λ ins, create_instance (PyStr ins) true) p
  = for_each (request_arg <$> l) ShardInstance_call p.
Proof.
  revert p. induction l as [|ins l IH]; intros p; [done|].
  cbn [for_each fmap list_fmap]. unfold mbind, prog_bind.
  rewrite create_instance_main. fold (request_arg ins).
  destruct (ShardInstance_call (request_arg ins) p) as [[[]|e] p1]; [|done].
  apply IH.
Qed.

Lemma launch_args_differ argv :
  Forall (λ a, differs_from_None a = true) (launch_args argv).
Proof.
  unfold launch_args. destruct (tail argv) as [|f fs]; [by repeat constructor|].
  apply Forall_fmap, Forall_forall. done.
Qed.

Lemma main_without_marker argv others d :
  shard_running_indicator d = false →
  ∃ p1 p2,
    for_each (launch_args argv) ShardInstance_call (Shard_call argv d)
    = (Return (), p1)
    ∧ for_each (request_arg <$> requests (instance_queue_file d))
        ShardInstance_call
        (with_disk (with_queue "" (with_indicator true (disk p1))) p1)
      = (Return (), p2)
    ∧ length (windows p2)
      = (length (launch_args argv)
         + length (requests (instance_queue_file d)))%nat
    ∧ active_instances p2 = tally (windows p2)
    ∧ exited p2 = false ∧ master p2 = true
    ∧ shard_running_indicator (disk p2) = true
    ∧ instance_queue_file (disk p2) = ""
    ∧ main argv others d
      = if bool_decide (active_instances p2 ≤ 0) then torn_down p2 else p2.
Proof.
  intros Hfree. set (me := Shard_call argv d).
  (* the launch arguments *)
  destruct (for_each_ShardInstance_call (launch_args argv) me)
    as (ws1 & p1 & Hrun1 & Hws1 & Hlen1 & Hp1 & Hc1).
  assert (match tail argv with
          | [] => create_instance PyNone false
          | fs => for_each fs (λ f, create_instance (PyPath (resolve f)) false)
          end me = (Return (), p1)) as Hscript.
  { rewrite <- Hrun1,
      <- (for_each_create_unmarked _ me Hfree (launch_args_differ argv)).
    unfold launch_args. destruct (tail argv) as [|f fs].
    - cbn [for_each]. unfold mbind, prog_bind.
      by destruct (create_instance PyNone false me) as [[[]|] ?].
    - by rewrite for_each_fmap. }
  destruct Hp1 as (He1 & Hm1 & Hi1 & Hq1). cbn in He1, Hm1, Hi1, Hq1, Hws1, Hc1.
  (* the first tick *)
  set (p1' := with_disk (with_indicator true (disk p1)) p1).
  destruct (tick_spec p1') as (ws2' & p2 & Hrun2 & Hws2 & Hlen2 & Hp2 & Htick).
  rewrite for_each_create_main in Hrun2.
  destruct (for_each_ShardInstance_call
              (request_arg <$> requests (instance_queue_file (disk p1')))
              (with_disk (with_queue "" (disk p1')) p1'))
    as (ws2 & p2' & Hrun2' & Hws2' & _ & _ & Hc2).
  rewrite Hrun2 in Hrun2'. injection Hrun2' as <-.
  assert (ws2' = ws2) as ->
    by (rewrite Hws2 in Hws2'; by apply app_inv_head in Hws2').
  destruct Hp2 as (He2 & Hm2 & Hi2 & Hq2). cbn in He2, Hm2, Hi2, Hq2, Hc2, Hws2.
  change (instance_queue_file (disk p1')) with (instance_queue_file (disk p1))
    in Hrun2, Hlen2.
  rewrite Hq1 in Hrun2, Hlen2.
  exists p1, p2. split_and!.
  - done.
  - exact Hrun2.
  - by rewrite Hws2, Hws1, length_app, Hlen1, Hlen2.
  - rewrite Hws2, Hws1, tally_app. lia.
  - congruence.
  - congruence.
  - done.
  - done.
  - unfold main. fold me. unfold mbind at 1, prog_bind at 1. rewrite Hscript.
    unfold start. exec. rewrite Hi1, Hfree. exec. fold p1'. rewrite Htick.
    case_bool_decide; [done|]. by rewrite Hm2, Hm1.
Qed.

(** X1. A process launched when the marker does not exist is the
    primary one, [start] not sleeping before its first tick. It makes its
    windows itself with the constructor: first one per argument (a blank
    one when there is none), then, with the marker made and the queue file
    emptied, one per request that was in the queue file. Each window left
    open adds one to the counter and each window the constructor closed
    takes one off. If the counter ends above zero the process goes on with
    these windows, the marker set; if not, it closes them, removes the
    marker and ends. The process state is followed from the launch to the
    end of the first tick with no other process changing the disk in
    between. *)
Theorem first_launch_is_primary (argv : list string) (others : Disk → Disk)
    (d : Disk) :
  shard_running_indicator d = false →
  ∃ p1 p2,
    for_each (launch_args argv) ShardInstance_call (Shard_call argv d)
    = (Return (), p1)
    ∧ for_each (request_arg <$> requests (instance_queue_file d))
        ShardInstance_call
        (with_disk (with_queue "" (with_indicator true (disk p1))) p1)
      = (Return (), p2)
    ∧ length (windows p2)
      = (length (launch_args argv)
         + length (requests (instance_queue_file d)))%nat
    ∧ active_instances p2 = tally (windows p2)
    ∧ exited p2 = false ∧ master p2 = true
    ∧ shard_running_indicator (disk p2) = true
    ∧ instance_queue_file (disk p2) = ""
    ∧ main argv others d
      = (if bool_decide (0 < tally (windows p2)) then p2 else torn_down p2)
    ∧ (exited (main argv others d) = true ↔ tally (windows p2) ≤ 0)
    ∧ master (main argv others d) = negb (exited (main argv others d))
    ∧ shard_running_indicator (disk (main argv others d))
      = negb (exited (main argv others d))
    ∧ instance_queue_file (disk (main argv others d)) = "".
Proof.
  intros Hfree.
  destruct (main_without_marker argv others d Hfree)
    as (p1 & p2 & Hrun1 & Hrun2 & Hlen & Hc & He & Hm & Hi & Hq & Hmain).
  exists p1, p2. rewrite Hmain, <- Hc.
  split_and!; try done.
  - case_bool_decide; [by rewrite bool_decide_eq_false_2 by lia|].
    by rewrite bool_decide_eq_true_2 by lia.
  - case_bool_decide; [done|]. rewrite He. split; [done | lia].
  - case_bool_decide; [done|]. by rewrite Hm, He.
  - case_bool_decide; [done|]. by rewrite Hi, He.
  - by case_bool_decide.
Qed.

(** X2. A tick that finds the queue blank while a window is open changes
    nothing but the queue file, which it empties: no window is made, the
    counter and the marker stay, and the loop goes on. *)
Theorem idle_tick_changes_nothing (p : Shard) :
  blank (instance_queue_file (disk p)) → 0 < active_instances p →
  open_instances_from_list p
  = (Return (), with_disk (with_queue "" (disk p)) p).
Proof.
  intros Hblank Hopen.
  destruct (tick_spec p) as (ws & p1 & Hrun & _ & _ & _ & ->).
  rewrite (requests_blank _ Hblank) in Hrun. injection Hrun as <-.
  by rewrite bool_decide_eq_false_2 by (cbn; lia).
Qed.

#[local] Hint Resolve alone_ret alone_self alone_shard alone_raise alone_set_self
  untouched_refl alone_widget alone_show alone_close_instance
  alone_update_window_title alone_editor_get alone_set_last_save_location
  alone_is_file_saved alone_save_file alone_save_window : frame.
#[local] Hint Extern 2 (leaves_process_alone (_ ≫= _)) =>
  apply alone_bind; [|intros ?] : frame.
#[local] Hint Extern 2 (leaves_process_alone (if ?b then _ else _)) =>
  destruct b : frame.
#[local] Hint Extern 2 (leaves_process_alone (match ?x with _ => _ end)) =>
  destruct x : frame.
#[local] Hint Extern 3 (leaves_process_alone (set_shard _)) =>
  apply alone_set_shard; intros ?; by repeat split : frame.

Lemma alone_start_new_file path : leaves_process_alone (start_new_file path).
Proof.
  intros [s p]. unfold start_new_file, in_process. cbn [fst snd].
  by destruct (ShardInstance_call_opens path p) as (w & p' & -> & _ & Hu & _).
Qed.

Lemma alone_save_editor_settings : leaves_process_alone save_editor_settings.
Proof. unfold save_editor_settings. auto 10 with frame. Qed.

#[local] Hint Resolve alone_start_new_file alone_save_editor_settings : frame.

Lemma alone_open_file_window opened_file :
  leaves_process_alone (open_file_window opened_file).
Proof.
  unfold open_file_window.
  destruct (Py.is_empty opened_file); [auto with frame|].
  apply alone_bind_shard. intros s p.
  assert (∀ content, leaves_process_alone
    (s0 ← self;
     untouched_window ←
       (if new_file s0 then
          text ← editor_get;
          mret (Py.is_empty (Py.strip text)
                && bool_decide (filename s0 = "Untitled"))
        else mret false);
     if untouched_window : bool then
       set_self (with_filepath opened_file);;
       set_self (with_filename (name opened_file));;
       update_window_title (name opened_file);;
       widget;; set_self (with_editor "");;
       editor_insert content;;
       set_self (with_new_file false)
     else start_new_file (PyPath opened_file))) as Hproceed.
  { intros content. unfold editor_insert. auto 30 with frame. }
  cbn zeta.
  destruct (open_read (disk p) opened_file UTF_8) as [[]|c];
    try destruct (open_read (disk p) opened_file ANSI) as [|c'];
    first [ apply (Hproceed _ (s, p)) | apply (alone_show _ (s, p))
          | apply untouched_refl ].
Qed.

Lemma alone_for_each {A} (l : list A) (body : A → Method unit) :
  (∀ x, leaves_process_alone (body x)) →
  leaves_process_alone (for_each l body).
Proof.
  intros Hbody. induction l as [|x l IH]; cbn [for_each]; auto with frame.
Qed.

Lemma alone_dialog_event e : leaves_process_alone (dialog_event e).
Proof.
  destruct e as [k|k|k i| | |n]; cbn [dialog_event];
    try destruct k; unfold key, pick, turn, choose, invoke, slide;
    auto 20 with frame.
Qed.

(** X27. No handler of a window ends the process, destroys its Tk root,
    or touches the marker directory or the queue file, whatever the state
    it runs in and whatever the dialogs answer; that is left to the poll
    loop. This holds for opening a file, for a new window, for the save
    commands, for the check of the buffer, for the settings dialog and for
    the change of the window state. *)
Theorem handlers_leave_the_process_to_the_loop :
  (∀ opened_file, leaves_process_alone (open_file_window opened_file))
  ∧ (∀ path, leaves_process_alone (start_new_file path))
  ∧ (∀ saveAs close_after_saving file_name,
       leaves_process_alone (save_window saveAs close_after_saving file_name))
  ∧ leaves_process_alone is_file_saved
  ∧ (∀ events ok, leaves_process_alone (settings_window events ok))
  ∧ (∀ current_state,
       leaves_process_alone (detect_window_maximised current_state)).
Proof.
  split_and!.
  - apply alone_open_file_window.
  - apply alone_start_new_file.
  - apply alone_save_window.
  - apply alone_is_file_saved.
  - intros events ok. unfold settings_window.
    pose proof (alone_for_each events dialog_event alone_dialog_event).
    unfold save_and_apply_settings, cancel_and_revert_settings.
    auto 30 with frame.
  - intros current_state. unfold detect_window_maximised. auto 20 with frame.
Qed.

End Launch.

(** ** The limit on integer conversion

    The theorems above are about an interpreter without the limit. The
    process runs the same under any limit as long as [int] accepts the
    numeric fields of the stored settings, which it does from the first
    window on: the constructor writes a valid record. *)

Section AnyInterpreter.
Context {platform : Pathlib} {interp : Interpreter}.

Lemma ShardInstance_call_settles (path : PathArg) (p : Shard) :
  ∃ p', ShardInstance_call (interp := no_digit_limit) path p = (Return (), p')
        ∧ convertible (settings_file (disk p')).
Proof.
  assert (convertible
            (settings_text (loaded_prefs (settings_file (disk p))))) as Hconv
    by apply valid_convertible, checked_prefs_valid.
  unfold ShardInstance_call, ShardInstance__init__.
  unfold close_instance, show, update_window_title, editor_insert, widget.
  run. rewrite get_editor_settings_spec. cbn.
  destruct path as [|f|f]; cbn.
  2,3: change (open_read (with_settings ?t ?d) ?f ?e) with (open_read d f e);
       destruct (open_read (disk p) (resolve f) UTF_8) as [[]|content]; cbn;
       try destruct (open_read (disk p) (resolve f) ANSI) as [?|content]; cbn.
  all: eexists; split; [reflexivity|]; exact Hconv.
Qed.

Lemma create_instance_limit_free (path : PathArg) (main : bool) (p : Shard) :
  convertible (settings_file (disk p)) →
  ∃ r p',
    create_instance path main p = (r, p')
    ∧ create_instance (interp := no_digit_limit) path main p = (r, p')
    ∧ convertible (settings_file (disk p')).
Proof.
  intros Hconv. unfold create_instance. exec.
  destruct (shard_running_indicator (disk p) && negb main).
  - unfold add_instance_to_list. exec. by eexists _, _.
  - destruct (differs_from_None path);
      rewrite (ShardInstance_call_limit_free _ p Hconv);
      [destruct (ShardInstance_call_settles path p) as (p' & -> & Hp')
      |destruct (ShardInstance_call_settles PyNone p) as (p' & -> & Hp')];
      by eexists _, _.
Qed.

Lemma for_each_create_limit_free {A} (l : list A) (arg : A → PathArg)
    (main : bool) (p : Shard) :
  convertible (settings_file (disk p)) →
  ∃ r p',
    for_each l (λ x, create_instance (arg x) main) p = (r, p')
    ∧ for_each l (λ x, create_instance (interp := no_digit_limit) (arg x) main) p
      = (r, p')
    ∧ convertible (settings_file (disk p')).
Proof.
  revert p. induction l as [|x l IH]; intros p Hconv; [by eexists _, _|].
  cbn [for_each]. unfold mbind, prog_bind.
  destruct (create_instance_limit_free (arg x) main p Hconv)
    as (r & p1 & -> & -> & Hp1).
  destruct r as [[]|e]; [by apply IH | by eexists _, _].
Qed.

(** A tick runs the same under any limit. *)
Lemma open_instances_from_list_limit_free (p : Shard) :
  convertible (settings_file (disk p)) →
  open_instances_from_list p
  = open_instances_from_list (interp := no_digit_limit) p.
Proof.
  intros Hconv. unfold open_instances_from_list. exec.
  destruct (Py.split Py.LF _) as [|l ls]; [done|].
  unfold mbind, prog_bind.
  destruct (for_each_create_limit_free
              (filter (λ ins, Py.strip ins ≠ "") (l :: ls)) PyStr true
              (with_disk (with_queue "" (disk p)) p) Hconv)
    as (r & p1 & Hrun & Hrun' & _).
  by rewrite Hrun, Hrun'.
Qed.

(** So does the whole launch, when the other processes leave the settings
    acceptable too. *)
Lemma main_limit_free (argv : list string) (others : Disk → Disk) (d : Disk) :
  convertible (settings_file d) →
  (∀ d', convertible (settings_file d') →
         convertible (settings_file (others d'))) →
  main argv others d = main (interp := no_digit_limit) argv others d.
Proof.
  intros Hconv Hothers. unfold main.
  set (me := Shard_call argv d).
  assert (∃ r p1,
    match tail argv with
    | [] => create_instance PyNone false
    | fs => for_each fs (λ f, create_instance (PyPath (resolve f)) false)
    end me = (r, p1)
    ∧ match tail argv with
      | [] => create_instance (interp := no_digit_limit) PyNone false
      | fs => for_each fs
                (λ f, create_instance (interp := no_digit_limit)
                        (PyPath (resolve f)) false)
      end me = (r, p1)
    ∧ convertible (settings_file (disk p1))) as (r & p1 & Hrun & Hrun' & Hp1).
  { destruct (tail argv) as [|f fs].
    - by apply create_instance_limit_free.
    - by apply (for_each_create_limit_free (f :: fs)
                  (λ f, PyPath (resolve f)) false me). }
  unfold mbind at 1 2. unfold prog_bind at 1 2. rewrite Hrun, Hrun'.
  destruct r as [[]|e]; [|done].
  unfold start, is_foreign_file_empty, master_destroy. exec.
  destruct (shard_running_indicator (disk p1)); exec.
  - destruct (Py.is_empty _); cbn [negb]; exec; [done|].
    by rewrite open_instances_from_list_limit_free by (by apply Hothers).
  - by rewrite open_instances_from_list_limit_free.
Qed.

End AnyInterpreter.

(** ** The further properties at concrete inputs *)

Section Witnesses.
#[local] Existing Instance Posix.paths.

Lemma defaults_valid : valid defaults.
Proof. repeat split; apply (bool_decide_unpack _); by vm_compute. Qed.

Lemma notes_unsaved : unsaved_text notes_window (one_window home_disk).
Proof. exists "hello". split; [by vm_compute|]. by vm_compute. Qed.

Lemma notes_unsaved_desk : unsaved_text notes_window (one_window desk_disk).
Proof. exists "hello". split; [by vm_compute|]. by vm_compute. Qed.

Lemma clean_nothing_unsaved : nothing_unsaved clean_window (one_window home_disk).
Proof. exists "hello". split; by vm_compute. Qed.

Lemma first_launch_is_primary_witness :
  let p := main ["/opt/shard/main.py"] id empty_disk in
  length (windows p) = 1%nat ∧ active_instances p = 1 ∧ exited p = false
  ∧ master p = true ∧ shard_running_indicator (disk p) = true.
Proof.
  intros p.
  destruct (first_launch_is_primary ["/opt/shard/main.py"] id empty_disk eq_refl)
    as (p1 & p2 & Hrun1 & Hrun2 & Hlen & Hc & He & Hm & Hi & _ & Hmain & _).
  assert (0 < tally (windows p2)) as Hopen.
  { rewrite <- Hc. vm_compute in Hrun1. injection Hrun1 as <-.
    vm_compute in Hrun2. injection Hrun2 as <-. done. }
  unfold p. rewrite Hmain, bool_decide_eq_true_2 by done.
  split_and!; try done.
  rewrite Hc. vm_compute in Hrun1. injection Hrun1 as <-.
  vm_compute in Hrun2. by injection Hrun2 as <-.
Defined.

Lemma idle_tick_changes_nothing_witness :
  open_instances_from_list (one_window home_disk)
  = (Return (),
     with_disk (with_queue "" (disk (one_window home_disk)))
       (one_window home_disk)).
Proof.
  apply (idle_tick_changes_nothing (one_window home_disk)); [by vm_compute|].
  cbn. lia.
Defined.

Lemma saved_check_compares_buffer_with_file_witness :
  is_file_saved (notes_window, one_window home_disk)
  = (Return (Some (bool_decide (same_text "hello" (buffer_text notes_window)))),
     (if bool_decide (same_text "hello" (buffer_text notes_window))
      then unstarred notes_window else starred notes_window,
      one_window home_disk)).
Proof.
  apply (saved_check_compares_buffer_with_file notes_window
           (one_window home_disk) "hello"); by vm_compute.
Defined.

Lemma saved_check_demotes_when_file_is_gone_witness :
  is_file_saved (draft_window, one_window home_disk)
  = (Return (Some false), (with_new_file true draft_window, one_window home_disk))
  ∧ is_file_saved (with_new_file true draft_window, one_window home_disk)
    = (Return (Some false),
       (if negb (Py.is_empty (Py.rstrip_char Py.LF (buffer_text draft_window)))
        then starred (with_new_file true draft_window)
        else unstarred (with_new_file true draft_window), one_window home_disk)).
Proof.
  apply (saved_check_demotes_when_file_is_gone draft_window
           (one_window home_disk)); by vm_compute.
Defined.

Lemma saved_check_closes_window_it_cannot_read_witness :
  ∃ message,
    is_file_saved (secret_window, one_window home_disk)
    = (Return None,
       (closed secret_window,
        shown (showerror "Error" message) (one_less (one_window home_disk)))).
Proof.
  apply (saved_check_closes_window_it_cannot_read secret_window
           (one_window home_disk)); by vm_compute.
Defined.

Lemma saved_check_repeats_its_answer_witness :
  let once := (is_file_saved (notes_window, one_window home_disk)).2 in
  let twice := (is_file_saved once).2 in
  (is_file_saved once).1 = Return (Some false)
  ∧ is_file_saved twice = (Return (Some false), twice).
Proof.
  apply (saved_check_repeats_its_answer notes_window (one_window home_disk) false);
    by vm_compute.
Defined.

Lemma draft_name_usable : usable_name (filename draft_window).
Proof. split; [|by vm_compute]. unfold blank. by vm_compute. Qed.

Lemma saved_check_after_save_witness :
  (let '(r, after) := save_file false false (draft_window, one_window home_disk) in
   r = Return (Some true)
   ∧ is_file_saved after = (Return (Some true), after))
  ∧ (let '(r, after) := save_file false false (cr_window, one_window home_disk) in
     r = Return (Some true)
     ∧ is_file_saved after = (Return (Some false), (starred after.1, after.2))).
Proof.
  split.
  - pose proof (saved_check_after_save draft_window (one_window home_disk) false)
      as H.
    destruct (save_file false false (draft_window, one_window home_disk))
      as [r after].
    destruct H as (Hr & _ & Hsame);
      [ reflexivity | apply draft_name_usable
      | apply (bool_decide_unpack _); by vm_compute
      | apply (bool_decide_unpack _); by vm_compute |].
    split; [exact Hr|]. apply Hsame.
    apply (bool_decide_unpack _). by vm_compute.
  - pose proof (saved_check_after_save cr_window (one_window home_disk) false)
      as H.
    destruct (save_file false false (cr_window, one_window home_disk))
      as [r after].
    destruct H as (Hr & Hcheck & _);
      [ reflexivity | apply draft_name_usable
      | apply (bool_decide_unpack _); by vm_compute
      | apply (bool_decide_unpack _); by vm_compute |].
    split; [exact Hr|]. exact Hcheck.
Defined.

Lemma saved_check_after_load_witness :
  ∃ w p',
    ShardInstance_call (PyPath "/home/u/notes.txt") (one_window home_disk)
    = (Return (), p')
    ∧ windows p' = windows (one_window home_disk) ++ [w]
    ∧ editor w = "hello"
    ∧ is_file_saved (w, p') = (Return (Some true), (w, p')).
Proof.
  apply (saved_check_after_load (PyPath "/home/u/notes.txt")
           "/home/u/notes.txt" "hello" (one_window home_disk));
    [ by right | by vm_compute | by vm_compute ].
Defined.

Lemma constructor_on_missing_file_witness :
  ShardInstance_call (PyPath "/home/u/draft.txt") (one_window home_disk)
  = (Return (),
     counted (new_named_window (one_window home_disk) "/home/u/draft.txt")
       (one_window home_disk))
  ∧ files (disk (counted (new_named_window (one_window home_disk)
                            "/home/u/draft.txt") (one_window home_disk)))
    = files (disk (one_window home_disk)).
Proof.
  apply (constructor_on_missing_file (PyPath "/home/u/draft.txt")
           "/home/u/draft.txt" (one_window home_disk));
    [ by right | by vm_compute ].
Defined.

Lemma close_without_question_witness :
  save_before_closing_instance (Some true) "/home/u/todo.txt"
    (untitled_window, one_window home_disk)
  = (Return (), (closed (unstarred untitled_window), one_less (one_window home_disk))).
Proof.
  apply (close_without_question untitled_window (one_window home_disk));
    by vm_compute.
Defined.

Lemma close_button_cancelled_witness :
  save_before_closing_instance None "" (notes_window, one_window home_disk)
  = (Return (),
     (starred notes_window,
      shown (unsaved_question notes_window) (one_window home_disk))).
Proof.
  apply (close_button_cancelled notes_window (one_window home_disk));
    [ reflexivity | apply notes_unsaved | by left ].
Defined.

Lemma close_button_discards_witness :
  save_before_closing_instance (Some false) "" (notes_window, one_window home_disk)
  = (Return (),
     (closed (starred notes_window),
      one_less (shown (unsaved_question notes_window) (one_window home_disk)))).
Proof.
  apply (close_button_discards notes_window (one_window home_disk));
    [ reflexivity | apply notes_unsaved ].
Defined.

Lemma close_button_saves_and_closes_witness :
  save_before_closing_instance (Some true) "" (notes_window, one_window desk_disk)
  = (Return (),
     (closed (saved notes_window),
      one_less
        (with_disk
           (with_files (<["/home/u/notes.txt" := Utf8 (buffer_text notes_window)]>
                          (files desk_disk)) desk_disk)
           (shown (unsaved_question notes_window) (one_window desk_disk))))).
Proof.
  apply (close_button_saves_and_closes notes_window (one_window desk_disk));
    [ reflexivity | reflexivity | apply notes_unsaved_desk
    | apply notes_name_usable | ].
  unfold open_write. by rewrite bool_decide_eq_false_2 by (by vm_compute).
Defined.

Lemma todo_name_usable : usable_name (name "/home/u/todo.txt").
Proof. split; [|by vm_compute]. unfold blank. by vm_compute. Qed.

Lemma close_button_saves_new_file_and_closes_witness :
  ∃ s' p',
    save_before_closing_instance (Some true) "/home/u/todo.txt"
      (scratch_window, one_window home_disk)
    = (Return (), (s', p'))
    ∧ root s' = false ∧ filepath s' = "/home/u/todo.txt" ∧ new_file s' = false
    ∧ active_instances p' = active_instances (one_window home_disk) - 1
    ∧ files (disk p')
      = <[on_disk_path (rebound "/home/u/todo.txt" scratch_window)
          := Utf8 (buffer_text scratch_window)]>
          (files (disk (one_window home_disk)))
    ∧ save_location_file (disk p') = parent "/home/u/todo.txt".
Proof.
  apply (close_button_saves_new_file_and_closes scratch_window
           (one_window home_disk) "/home/u/todo.txt");
    [ reflexivity | reflexivity | by vm_compute | done
    | apply todo_name_usable | apply (bool_decide_unpack _); by vm_compute ].
Defined.

Lemma save_writes_nothing_when_saved_witness :
  save_window false true "" (clean_window, one_window home_disk)
  = (Return (), (unstarred clean_window, one_window home_disk)).
Proof.
  apply (save_writes_nothing_when_saved clean_window (one_window home_disk));
    [ reflexivity | reflexivity | apply clean_nothing_unsaved ].
Defined.

Lemma save_through_dialog_binds_and_writes_witness :
  save_window true false "/home/u/todo.txt" (notes_window, one_window home_disk)
  = (Return (),
     (saved (rebound "/home/u/todo.txt" notes_window),
      with_disk
        (with_files
           (<[on_disk_path (rebound "/home/u/todo.txt" notes_window)
              := Utf8 (buffer_text notes_window)]>
              (files (disk (one_window home_disk))))
           (with_save_location (parent "/home/u/todo.txt")
              (disk (one_window home_disk))))
        (one_window home_disk))).
Proof.
  apply (save_through_dialog_binds_and_writes notes_window
           (one_window home_disk) true "/home/u/todo.txt");
    [ reflexivity | by left | done | apply todo_name_usable
    | apply (bool_decide_unpack _); by vm_compute ].
Defined.

Lemma save_on_bound_window_ignores_dialog_witness :
  save_window false false "/home/u/todo.txt" (notes_window, one_window home_disk)
  = save_window false false "" (notes_window, one_window home_disk).
Proof.
  apply (save_on_bound_window_ignores_dialog notes_window (one_window home_disk));
    by vm_compute.
Defined.

Lemma save_dialog_cancelled_witness :
  new_file draft_window = false
  ∧ ∃ s',
      save_window false false "" (draft_window, one_window home_disk)
      = (Return (), (s', one_window home_disk))
      ∧ root s' = true ∧ editor s' = editor draft_window
      ∧ new_file s' = true
      ∧ filepath s' = filepath draft_window ∧ filename s' = filename draft_window.
Proof.
  split; [reflexivity|].
  apply (save_dialog_cancelled draft_window (one_window home_disk) false false);
    [ reflexivity | right; right; by vm_compute ].
Defined.

Lemma open_nothing_changes_nothing_witness :
  let '(r, (s', p')) :=
    open_file_window "/root/secret.txt" (notes_window, one_window home_disk) in
  r = Return () ∧ s' = notes_window ∧ disk p' = disk (one_window home_disk)
  ∧ active_instances p' = active_instances (one_window home_disk)
  ∧ windows p' = windows (one_window home_disk)
  ∧ ∃ shown_now, messages p' = messages (one_window home_disk) ++ shown_now
                 ∧ (length shown_now ≤ 1)%nat.
Proof.
  apply (open_nothing_changes_nothing notes_window (one_window home_disk)
           "/root/secret.txt").
  right. by vm_compute.
Defined.

Lemma untitled_pristine : pristine untitled_window.
Proof. split; [done|]. split; [done|]. unfold blank. by vm_compute. Qed.

Lemma open_reuses_an_unused_window_witness :
  open_file_window "/home/u/notes.txt" (untitled_window, one_window home_disk)
  = (Return (),
     (reused_window untitled_window "/home/u/notes.txt" "hello",
      one_window home_disk))
  ∧ (splits_paths "/home/u/notes.txt" →
     is_file_saved (reused_window untitled_window "/home/u/notes.txt" "hello",
                    one_window home_disk)
     = (Return (Some true),
        (reused_window untitled_window "/home/u/notes.txt" "hello",
         one_window home_disk))).
Proof.
  apply (open_reuses_an_unused_window untitled_window (one_window home_disk)
           "/home/u/notes.txt" "hello");
    [ reflexivity | apply untitled_pristine | done | by vm_compute ].
Defined.

Lemma open_from_a_used_window_witness :
  open_file_window "/home/u/notes.txt" (scratch_window, one_window home_disk)
  = (Return (),
     (scratch_window,
      counted (loaded_window (one_window home_disk) "/home/u/notes.txt" "hello")
        (one_window home_disk))).
Proof.
  apply (open_from_a_used_window scratch_window (one_window home_disk)
           "/home/u/notes.txt" "hello");
    [ reflexivity | | done | by vm_compute | reflexivity ].
  intros (_ & _ & Hblank). unfold blank in Hblank. by vm_compute in Hblank.
Defined.

Lemma settings_dialog_keeps_allowed_values_witness :
  ∃ r', settings_window dialog_script true (notes_window, one_window home_disk)
        = (Return (), (with_prefs r' notes_window, stored r' (one_window home_disk)))
        ∧ steppable r' ∧ (valid (prefs notes_window) → valid r').
Proof.
  apply (settings_dialog_keeps_allowed_values dialog_script true notes_window
           (one_window home_disk));
    [ reflexivity | apply valid_steppable, defaults_valid ].
Defined.

Lemma settings_dialog_cancel_reverts_witness :
  settings_window dialog_script false (notes_window, one_window home_disk)
  = (Return (), (notes_window, one_window home_disk)).
Proof.
  apply (settings_dialog_cancel_reverts dialog_script notes_window
           (one_window home_disk));
    [ reflexivity | apply valid_steppable, defaults_valid ].
Defined.

Lemma settings_dialog_ok_persists_witness :
  ∃ r' w p',
    settings_window dialog_script true (notes_window, one_window home_disk)
    = (Return (), (with_prefs r' notes_window, stored r' (one_window home_disk)))
    ∧ ShardInstance_call PyNone (stored r' (one_window home_disk)) = (Return (), p')
    ∧ windows p' = windows (one_window home_disk) ++ [w]
    ∧ prefs w = r'
    ∧ settings_file (disk p') = settings_text r'.
Proof.
  apply (settings_dialog_ok_persists dialog_script notes_window
           (one_window home_disk));
    [ reflexivity | apply defaults_valid ].
Defined.

Lemma left_undoes_right_witness :
  (key Background 1;; key Background (-1)) (notes_window, one_window home_disk)
  = (Return (), (notes_window, one_window home_disk))
  ∧ (key Background (-1);; key Background 1) (notes_window, one_window home_disk)
    = (Return (), (notes_window, one_window home_disk)).
Proof.
  apply (left_undoes_right Background notes_window (one_window home_disk)).
  apply valid_steppable, defaults_valid.
Defined.

Lemma window_state_is_remembered_witness :
  let r' := set_window_state "iconic" (prefs notes_window) in
  detect_window_maximised "iconic" (notes_window, one_window home_disk)
  = (if bool_decide (window_state (prefs notes_window) = "iconic")
     then (Return (), (notes_window, one_window home_disk))
     else (Return (), (with_prefs r' notes_window, stored r' (one_window home_disk))))
  ∧ loaded_prefs (settings_text r')
    = set_window_state
        (if bool_decide ("iconic" ∈ window_states) then "iconic" else "normal")
        (prefs notes_window).
Proof.
  apply (window_state_is_remembered "iconic" notes_window (one_window home_disk));
    [ reflexivity | apply defaults_valid
    | apply (bool_decide_unpack _); by vm_compute ].
Defined.

Lemma save_file_ignores_blank_name_witness :
  save_file false true (nameless_window, one_window home_disk)
  = (Return None, (nameless_window, one_window home_disk)).
Proof.
  apply (save_file_ignores_blank_name nameless_window (one_window home_disk)).
  unfold blank. by vm_compute.
Defined.

Lemma save_writes_the_buffer_witness :
  save_window false false "" (notes_window, one_window desk_disk)
  = (Return (),
     (saved notes_window,
      with_disk
        (with_files (<["/home/u/notes.txt" := Utf8 (buffer_text notes_window)]>
                       (files desk_disk)) desk_disk)
        (one_window desk_disk))).
Proof.
  apply (save_writes_the_buffer notes_window (one_window desk_disk));
    [ reflexivity | reflexivity | apply notes_unsaved_desk
    | apply notes_name_usable | ].
  unfold open_write. by rewrite bool_decide_eq_false_2 by (by vm_compute).
Defined.

End Witnesses.
